(** * ASN1_Codec (acm.cpp): configuration, topic probing and the relay loop

    A shallow embedding of [src/acm.cpp]: [configure], [topic_available],
    [launch_consumer], [launch_producer], [msg_consume], [sigterm] and
    [operator()] of class [ASN1_Codec], together with the parts of the C and
    C++ standard libraries ([strtoll], [std::stoi]) that decide what
    [configure] does on malformed numbers.

    The broker client (librdkafka), the ASN.1 codec, the file system and the
    parsed command line are collaborators: their answers are inputs of the
    model (records of answers and scripts of replies), never assumptions. *)

From Stdlib Require Import ZArith NArith String Ascii List Bool Lia.
From stdpp Require Import base option gmap strings.
Import ListNotations.

Local Open Scope string_scope.
Local Open Scope list_scope.
Local Open Scope Z_scope.

(** ** The C library: scanning a decimal number *)

Module Cstd.

(** [isspace] in the "C" locale: space, \t, \n, \v, \f, \r. *)
Definition isspace (c : ascii) : bool :=
  let n := nat_of_ascii c in
  Nat.eqb n 32 || (Nat.leb 9 n && Nat.leb n 13).

Definition digit_of (c : ascii) : option Z :=
  let n := nat_of_ascii c in
  if Nat.leb 48 n && Nat.leb n 57 then Some (Z.of_nat n - 48) else None.

Fixpoint skip_space (s : string) : string :=
  match s with
  | String c s' => if isspace c then skip_space s' else s
  | EmptyString => s
  end.

(** The longest run of decimal digits at the head of [s], folded into
    [acc]; [seen] records whether a digit was consumed. *)
Fixpoint digits (s : string) (seen : bool) (acc : Z) : bool * Z :=
  match s with
  | String c s' =>
      match digit_of c with
      | Some d => digits s' true (10 * acc + d)
      | None => (seen, acc)
      end
  | EmptyString => (seen, acc)
  end.

(** The subject sequence of [strtol]/[strtoll] in base 10: optional white
    space, an optional sign, digits.  [None] when no conversion can be
    performed, otherwise the mathematical value (not yet clamped). *)
Definition scan_decimal (s : string) : option Z :=
  let body (neg : bool) (t : string) :=
    match digits t false 0 with
    | (true, v) => Some (if neg then - v else v)
    | (false, _) => None
    end in
  match skip_space s with
  | String "-" t => body true t
  | String "+" t => body false t
  | t => body false t
  end.

Definition LLONG_MAX : Z := 2 ^ 63 - 1.
Definition LLONG_MIN : Z := - 2 ^ 63.
Definition INT_MAX : Z := 2 ^ 31 - 1.
Definition INT_MIN : Z := - 2 ^ 31.

(** [strtoll(s, NULL, 10)]: 0 when no conversion can be performed, the
    value clamped to the range of [long long] otherwise.  It never
    throws: it is a C function. *)
Definition strtoll (s : string) : Z :=
  match scan_decimal s with
  | None => 0
  | Some v => Z.max LLONG_MIN (Z.min LLONG_MAX v)
  end.

Inductive exception : Type :=
| invalid_argument
| out_of_range.

(** What a call that may throw yields. *)
Inductive outcome (A : Type) : Type :=
| Returned (a : A)
| Threw (e : exception).
Arguments Returned {A} a.
Arguments Threw {A} e.

(** [std::stoi(s)]: [std::invalid_argument] when no conversion can be
    performed, [std::out_of_range] when the value does not fit an [int];
    characters after the number are ignored. *)
Definition stoi (s : string) : outcome Z :=
  match scan_decimal s with
  | None => Threw invalid_argument
  | Some v =>
      if (INT_MIN <=? v) && (v <=? INT_MAX) then Returned v
      else Threw out_of_range
  end.

End Cstd.
Export Cstd.


(** ** The broker client at its interface (librdkafka's C++ binding) *)

(** [RdKafka::ErrorCode], with the codes [acm.cpp] tells apart by name. *)
Inductive ErrorCode : Type :=
| ERR_NO_ERROR
| ERR__TIMED_OUT
| ERR__PARTITION_EOF
| ERR__UNKNOWN_TOPIC
| ERR__UNKNOWN_PARTITION
| ERR_other (code : Z).

(** [if (status)] on an [ErrorCode]: true for every code but [ERR_NO_ERROR]. *)
Definition is_error (e : ErrorCode) : bool :=
  match e with
  | ERR_NO_ERROR => false
  | _ => true
  end.

(** [RdKafka::Topic::PARTITION_UA] and the symbolic offsets. *)
Definition PARTITION_UA : Z := -1.
Definition OFFSET_BEGINNING : Z := -2.
Definition OFFSET_END : Z := -1.
Definition OFFSET_STORED : Z := -1000.

Inductive ConfType : Type :=
| CONF_GLOBAL
| CONF_TOPIC.

Inductive ConfResult : Type :=
| CONF_UNKNOWN
| CONF_INVALID
| CONF_OK.

(** An [RdKafka::Conf] object: the properties that were set on it, and the
    topic configuration installed as its [default_topic_conf]. *)
Record Conf : Type := {
  properties : gmap string string;
  default_topic_conf : option (gmap string string)
}.

(** [RdKafka::Conf::create]. *)
Definition Conf_create : Conf :=
  {| properties := ∅; default_topic_conf := None |}.

Definition Conf_store (name value : string) (c : Conf) : Conf :=
  {| properties := <[name := value]> (properties c);
     default_topic_conf := default_topic_conf c |}.

Definition Conf_store_topic (t : Conf) (c : Conf) : Conf :=
  {| properties := properties c;
     default_topic_conf := Some (properties t) |}.

(** ** What the process does to its collaborators, in order *)

Inductive Event : Type :=
| decode_call (first_block_arg : bool) (structure : bool)
    (* data_decode_from_buffer(..., first_block); did it return a structure *)
| xer_call (rc : Z)                         (* xer_buf(...) and its result *)
| produce_call (part : Z) (size : N) (status : ErrorCode)
| eof_all_partitions           (* "EOF reached for all {} partition(s)" *)
| fatal_consume_error           (* "cannot consume due to ..." *)
| consumer_create (ok : bool)              (* KafkaConsumer::create *)
| metadata_call (topic : string) (found : bool)
| subscribe_call (topics : list string) (status : ErrorCode)
| producer_create (ok : bool)              (* Producer::create *)
| topic_create (name : string) (ok : bool). (* Topic::create *)

(** ** The object *)

(** Modelled from the spec: the members of [ASN1_Codec] are declared in
    [acm.hpp], which is not among the sources; section 3 gives the counters
    as plain counts, without a width, so they are integers here.  The
    members come in the order of the constructor's initialiser list, then
    the static [data_available], the application map [pconf], and [trace],
    the calls made so far.  [conf] and [tconf] are null until [configure]
    creates them, which it does before any use: the model holds the object
    each points to, empty before creation.  The smart pointers hold whether
    they are non-null.  The loggers are left out. *)
Record ASN1_Codec : Type := {
  exit_eof : bool;
  eof_cnt : Z;
  partition_cnt : Z;
  msg_recv_count : Z;
  msg_send_count : Z;
  msg_filt_count : Z;
  msg_recv_bytes : Z;
  msg_send_bytes : Z;
  msg_filt_bytes : Z;
  pconf : gmap string string;
  brokers : string;
  partition : Z;
  mode : string;
  debug : string;
  consumed_topics : list string;
  offset : Z;
  published_topic_name : string;
  conf : Conf;
  tconf : Conf;
  consumer_ptr : bool;
  consumer_timeout : Z;
  producer_ptr : bool;
  published_topic_ptr : bool;
  first_block : bool;
  data_available : bool;
  trace : list Event
}.

(** Assignment to one member. *)

Definition set_exit_eof (v : bool) (s : ASN1_Codec) : ASN1_Codec :=
  {| exit_eof := v; eof_cnt := eof_cnt s; partition_cnt := partition_cnt s;
     msg_recv_count := msg_recv_count s; msg_send_count := msg_send_count s;
     msg_filt_count := msg_filt_count s; msg_recv_bytes := msg_recv_bytes s;
     msg_send_bytes := msg_send_bytes s; msg_filt_bytes := msg_filt_bytes s;
     pconf := pconf s; brokers := brokers s; partition := partition s;
     mode := mode s; debug := debug s; consumed_topics := consumed_topics s;
     offset := offset s; published_topic_name := published_topic_name s;
     conf := conf s; tconf := tconf s; consumer_ptr := consumer_ptr s;
     consumer_timeout := consumer_timeout s; producer_ptr := producer_ptr s;
     published_topic_ptr := published_topic_ptr s;
     first_block := first_block s; data_available := data_available s;
     trace := trace s |}.

Definition set_eof_cnt (v : Z) (s : ASN1_Codec) : ASN1_Codec :=
  {| exit_eof := exit_eof s; eof_cnt := v; partition_cnt := partition_cnt s;
     msg_recv_count := msg_recv_count s; msg_send_count := msg_send_count s;
     msg_filt_count := msg_filt_count s; msg_recv_bytes := msg_recv_bytes s;
     msg_send_bytes := msg_send_bytes s; msg_filt_bytes := msg_filt_bytes s;
     pconf := pconf s; brokers := brokers s; partition := partition s;
     mode := mode s; debug := debug s; consumed_topics := consumed_topics s;
     offset := offset s; published_topic_name := published_topic_name s;
     conf := conf s; tconf := tconf s; consumer_ptr := consumer_ptr s;
     consumer_timeout := consumer_timeout s; producer_ptr := producer_ptr s;
     published_topic_ptr := published_topic_ptr s;
     first_block := first_block s; data_available := data_available s;
     trace := trace s |}.

Definition set_msg_recv_count (v : Z) (s : ASN1_Codec) : ASN1_Codec :=
  {| exit_eof := exit_eof s; eof_cnt := eof_cnt s;
     partition_cnt := partition_cnt s; msg_recv_count := v;
     msg_send_count := msg_send_count s; msg_filt_count := msg_filt_count s;
     msg_recv_bytes := msg_recv_bytes s; msg_send_bytes := msg_send_bytes s;
     msg_filt_bytes := msg_filt_bytes s; pconf := pconf s;
     brokers := brokers s; partition := partition s; mode := mode s;
     debug := debug s; consumed_topics := consumed_topics s;
     offset := offset s; published_topic_name := published_topic_name s;
     conf := conf s; tconf := tconf s; consumer_ptr := consumer_ptr s;
     consumer_timeout := consumer_timeout s; producer_ptr := producer_ptr s;
     published_topic_ptr := published_topic_ptr s;
     first_block := first_block s; data_available := data_available s;
     trace := trace s |}.

Definition set_msg_recv_bytes (v : Z) (s : ASN1_Codec) : ASN1_Codec :=
  {| exit_eof := exit_eof s; eof_cnt := eof_cnt s;
     partition_cnt := partition_cnt s; msg_recv_count := msg_recv_count s;
     msg_send_count := msg_send_count s; msg_filt_count := msg_filt_count s;
     msg_recv_bytes := v; msg_send_bytes := msg_send_bytes s;
     msg_filt_bytes := msg_filt_bytes s; pconf := pconf s;
     brokers := brokers s; partition := partition s; mode := mode s;
     debug := debug s; consumed_topics := consumed_topics s;
     offset := offset s; published_topic_name := published_topic_name s;
     conf := conf s; tconf := tconf s; consumer_ptr := consumer_ptr s;
     consumer_timeout := consumer_timeout s; producer_ptr := producer_ptr s;
     published_topic_ptr := published_topic_ptr s;
     first_block := first_block s; data_available := data_available s;
     trace := trace s |}.

Definition set_msg_send_count (v : Z) (s : ASN1_Codec) : ASN1_Codec :=
  {| exit_eof := exit_eof s; eof_cnt := eof_cnt s;
     partition_cnt := partition_cnt s; msg_recv_count := msg_recv_count s;
     msg_send_count := v; msg_filt_count := msg_filt_count s;
     msg_recv_bytes := msg_recv_bytes s; msg_send_bytes := msg_send_bytes s;
     msg_filt_bytes := msg_filt_bytes s; pconf := pconf s;
     brokers := brokers s; partition := partition s; mode := mode s;
     debug := debug s; consumed_topics := consumed_topics s;
     offset := offset s; published_topic_name := published_topic_name s;
     conf := conf s; tconf := tconf s; consumer_ptr := consumer_ptr s;
     consumer_timeout := consumer_timeout s; producer_ptr := producer_ptr s;
     published_topic_ptr := published_topic_ptr s;
     first_block := first_block s; data_available := data_available s;
     trace := trace s |}.

Definition set_msg_send_bytes (v : Z) (s : ASN1_Codec) : ASN1_Codec :=
  {| exit_eof := exit_eof s; eof_cnt := eof_cnt s;
     partition_cnt := partition_cnt s; msg_recv_count := msg_recv_count s;
     msg_send_count := msg_send_count s; msg_filt_count := msg_filt_count s;
     msg_recv_bytes := msg_recv_bytes s; msg_send_bytes := v;
     msg_filt_bytes := msg_filt_bytes s; pconf := pconf s;
     brokers := brokers s; partition := partition s; mode := mode s;
     debug := debug s; consumed_topics := consumed_topics s;
     offset := offset s; published_topic_name := published_topic_name s;
     conf := conf s; tconf := tconf s; consumer_ptr := consumer_ptr s;
     consumer_timeout := consumer_timeout s; producer_ptr := producer_ptr s;
     published_topic_ptr := published_topic_ptr s;
     first_block := first_block s; data_available := data_available s;
     trace := trace s |}.

Definition set_pconf (v : gmap string string) (s : ASN1_Codec) : ASN1_Codec :=
  {| exit_eof := exit_eof s; eof_cnt := eof_cnt s;
     partition_cnt := partition_cnt s; msg_recv_count := msg_recv_count s;
     msg_send_count := msg_send_count s; msg_filt_count := msg_filt_count s;
     msg_recv_bytes := msg_recv_bytes s; msg_send_bytes := msg_send_bytes s;
     msg_filt_bytes := msg_filt_bytes s; pconf := v; brokers := brokers s;
     partition := partition s; mode := mode s; debug := debug s;
     consumed_topics := consumed_topics s; offset := offset s;
     published_topic_name := published_topic_name s; conf := conf s;
     tconf := tconf s; consumer_ptr := consumer_ptr s;
     consumer_timeout := consumer_timeout s; producer_ptr := producer_ptr s;
     published_topic_ptr := published_topic_ptr s;
     first_block := first_block s; data_available := data_available s;
     trace := trace s |}.

Definition set_partition (v : Z) (s : ASN1_Codec) : ASN1_Codec :=
  {| exit_eof := exit_eof s; eof_cnt := eof_cnt s;
     partition_cnt := partition_cnt s; msg_recv_count := msg_recv_count s;
     msg_send_count := msg_send_count s; msg_filt_count := msg_filt_count s;
     msg_recv_bytes := msg_recv_bytes s; msg_send_bytes := msg_send_bytes s;
     msg_filt_bytes := msg_filt_bytes s; pconf := pconf s;
     brokers := brokers s; partition := v; mode := mode s; debug := debug s;
     consumed_topics := consumed_topics s; offset := offset s;
     published_topic_name := published_topic_name s; conf := conf s;
     tconf := tconf s; consumer_ptr := consumer_ptr s;
     consumer_timeout := consumer_timeout s; producer_ptr := producer_ptr s;
     published_topic_ptr := published_topic_ptr s;
     first_block := first_block s; data_available := data_available s;
     trace := trace s |}.

Definition set_consumed_topics (v : list string) (s : ASN1_Codec) : ASN1_Codec :=
  {| exit_eof := exit_eof s; eof_cnt := eof_cnt s;
     partition_cnt := partition_cnt s; msg_recv_count := msg_recv_count s;
     msg_send_count := msg_send_count s; msg_filt_count := msg_filt_count s;
     msg_recv_bytes := msg_recv_bytes s; msg_send_bytes := msg_send_bytes s;
     msg_filt_bytes := msg_filt_bytes s; pconf := pconf s;
     brokers := brokers s; partition := partition s; mode := mode s;
     debug := debug s; consumed_topics := v; offset := offset s;
     published_topic_name := published_topic_name s; conf := conf s;
     tconf := tconf s; consumer_ptr := consumer_ptr s;
     consumer_timeout := consumer_timeout s; producer_ptr := producer_ptr s;
     published_topic_ptr := published_topic_ptr s;
     first_block := first_block s; data_available := data_available s;
     trace := trace s |}.

Definition set_offset (v : Z) (s : ASN1_Codec) : ASN1_Codec :=
  {| exit_eof := exit_eof s; eof_cnt := eof_cnt s;
     partition_cnt := partition_cnt s; msg_recv_count := msg_recv_count s;
     msg_send_count := msg_send_count s; msg_filt_count := msg_filt_count s;
     msg_recv_bytes := msg_recv_bytes s; msg_send_bytes := msg_send_bytes s;
     msg_filt_bytes := msg_filt_bytes s; pconf := pconf s;
     brokers := brokers s; partition := partition s; mode := mode s;
     debug := debug s; consumed_topics := consumed_topics s; offset := v;
     published_topic_name := published_topic_name s; conf := conf s;
     tconf := tconf s; consumer_ptr := consumer_ptr s;
     consumer_timeout := consumer_timeout s; producer_ptr := producer_ptr s;
     published_topic_ptr := published_topic_ptr s;
     first_block := first_block s; data_available := data_available s;
     trace := trace s |}.

Definition set_published_topic_name (v : string) (s : ASN1_Codec) : ASN1_Codec :=
  {| exit_eof := exit_eof s; eof_cnt := eof_cnt s;
     partition_cnt := partition_cnt s; msg_recv_count := msg_recv_count s;
     msg_send_count := msg_send_count s; msg_filt_count := msg_filt_count s;
     msg_recv_bytes := msg_recv_bytes s; msg_send_bytes := msg_send_bytes s;
     msg_filt_bytes := msg_filt_bytes s; pconf := pconf s;
     brokers := brokers s; partition := partition s; mode := mode s;
     debug := debug s; consumed_topics := consumed_topics s;
     offset := offset s; published_topic_name := v; conf := conf s;
     tconf := tconf s; consumer_ptr := consumer_ptr s;
     consumer_timeout := consumer_timeout s; producer_ptr := producer_ptr s;
     published_topic_ptr := published_topic_ptr s;
     first_block := first_block s; data_available := data_available s;
     trace := trace s |}.

Definition set_conf (v : Conf) (s : ASN1_Codec) : ASN1_Codec :=
  {| exit_eof := exit_eof s; eof_cnt := eof_cnt s;
     partition_cnt := partition_cnt s; msg_recv_count := msg_recv_count s;
     msg_send_count := msg_send_count s; msg_filt_count := msg_filt_count s;
     msg_recv_bytes := msg_recv_bytes s; msg_send_bytes := msg_send_bytes s;
     msg_filt_bytes := msg_filt_bytes s; pconf := pconf s;
     brokers := brokers s; partition := partition s; mode := mode s;
     debug := debug s; consumed_topics := consumed_topics s;
     offset := offset s; published_topic_name := published_topic_name s;
     conf := v; tconf := tconf s; consumer_ptr := consumer_ptr s;
     consumer_timeout := consumer_timeout s; producer_ptr := producer_ptr s;
     published_topic_ptr := published_topic_ptr s;
     first_block := first_block s; data_available := data_available s;
     trace := trace s |}.

Definition set_tconf (v : Conf) (s : ASN1_Codec) : ASN1_Codec :=
  {| exit_eof := exit_eof s; eof_cnt := eof_cnt s;
     partition_cnt := partition_cnt s; msg_recv_count := msg_recv_count s;
     msg_send_count := msg_send_count s; msg_filt_count := msg_filt_count s;
     msg_recv_bytes := msg_recv_bytes s; msg_send_bytes := msg_send_bytes s;
     msg_filt_bytes := msg_filt_bytes s; pconf := pconf s;
     brokers := brokers s; partition := partition s; mode := mode s;
     debug := debug s; consumed_topics := consumed_topics s;
     offset := offset s; published_topic_name := published_topic_name s;
     conf := conf s; tconf := v; consumer_ptr := consumer_ptr s;
     consumer_timeout := consumer_timeout s; producer_ptr := producer_ptr s;
     published_topic_ptr := published_topic_ptr s;
     first_block := first_block s; data_available := data_available s;
     trace := trace s |}.

Definition set_consumer_ptr (v : bool) (s : ASN1_Codec) : ASN1_Codec :=
  {| exit_eof := exit_eof s; eof_cnt := eof_cnt s;
     partition_cnt := partition_cnt s; msg_recv_count := msg_recv_count s;
     msg_send_count := msg_send_count s; msg_filt_count := msg_filt_count s;
     msg_recv_bytes := msg_recv_bytes s; msg_send_bytes := msg_send_bytes s;
     msg_filt_bytes := msg_filt_bytes s; pconf := pconf s;
     brokers := brokers s; partition := partition s; mode := mode s;
     debug := debug s; consumed_topics := consumed_topics s;
     offset := offset s; published_topic_name := published_topic_name s;
     conf := conf s; tconf := tconf s; consumer_ptr := v;
     consumer_timeout := consumer_timeout s; producer_ptr := producer_ptr s;
     published_topic_ptr := published_topic_ptr s;
     first_block := first_block s; data_available := data_available s;
     trace := trace s |}.

Definition set_consumer_timeout (v : Z) (s : ASN1_Codec) : ASN1_Codec :=
  {| exit_eof := exit_eof s; eof_cnt := eof_cnt s;
     partition_cnt := partition_cnt s; msg_recv_count := msg_recv_count s;
     msg_send_count := msg_send_count s; msg_filt_count := msg_filt_count s;
     msg_recv_bytes := msg_recv_bytes s; msg_send_bytes := msg_send_bytes s;
     msg_filt_bytes := msg_filt_bytes s; pconf := pconf s;
     brokers := brokers s; partition := partition s; mode := mode s;
     debug := debug s; consumed_topics := consumed_topics s;
     offset := offset s; published_topic_name := published_topic_name s;
     conf := conf s; tconf := tconf s; consumer_ptr := consumer_ptr s;
     consumer_timeout := v; producer_ptr := producer_ptr s;
     published_topic_ptr := published_topic_ptr s;
     first_block := first_block s; data_available := data_available s;
     trace := trace s |}.

Definition set_producer_ptr (v : bool) (s : ASN1_Codec) : ASN1_Codec :=
  {| exit_eof := exit_eof s; eof_cnt := eof_cnt s;
     partition_cnt := partition_cnt s; msg_recv_count := msg_recv_count s;
     msg_send_count := msg_send_count s; msg_filt_count := msg_filt_count s;
     msg_recv_bytes := msg_recv_bytes s; msg_send_bytes := msg_send_bytes s;
     msg_filt_bytes := msg_filt_bytes s; pconf := pconf s;
     brokers := brokers s; partition := partition s; mode := mode s;
     debug := debug s; consumed_topics := consumed_topics s;
     offset := offset s; published_topic_name := published_topic_name s;
     conf := conf s; tconf := tconf s; consumer_ptr := consumer_ptr s;
     consumer_timeout := consumer_timeout s; producer_ptr := v;
     published_topic_ptr := published_topic_ptr s;
     first_block := first_block s; data_available := data_available s;
     trace := trace s |}.

Definition set_published_topic_ptr (v : bool) (s : ASN1_Codec) : ASN1_Codec :=
  {| exit_eof := exit_eof s; eof_cnt := eof_cnt s;
     partition_cnt := partition_cnt s; msg_recv_count := msg_recv_count s;
     msg_send_count := msg_send_count s; msg_filt_count := msg_filt_count s;
     msg_recv_bytes := msg_recv_bytes s; msg_send_bytes := msg_send_bytes s;
     msg_filt_bytes := msg_filt_bytes s; pconf := pconf s;
     brokers := brokers s; partition := partition s; mode := mode s;
     debug := debug s; consumed_topics := consumed_topics s;
     offset := offset s; published_topic_name := published_topic_name s;
     conf := conf s; tconf := tconf s; consumer_ptr := consumer_ptr s;
     consumer_timeout := consumer_timeout s; producer_ptr := producer_ptr s;
     published_topic_ptr := v; first_block := first_block s;
     data_available := data_available s; trace := trace s |}.

Definition set_first_block (v : bool) (s : ASN1_Codec) : ASN1_Codec :=
  {| exit_eof := exit_eof s; eof_cnt := eof_cnt s;
     partition_cnt := partition_cnt s; msg_recv_count := msg_recv_count s;
     msg_send_count := msg_send_count s; msg_filt_count := msg_filt_count s;
     msg_recv_bytes := msg_recv_bytes s; msg_send_bytes := msg_send_bytes s;
     msg_filt_bytes := msg_filt_bytes s; pconf := pconf s;
     brokers := brokers s; partition := partition s; mode := mode s;
     debug := debug s; consumed_topics := consumed_topics s;
     offset := offset s; published_topic_name := published_topic_name s;
     conf := conf s; tconf := tconf s; consumer_ptr := consumer_ptr s;
     consumer_timeout := consumer_timeout s; producer_ptr := producer_ptr s;
     published_topic_ptr := published_topic_ptr s; first_block := v;
     data_available := data_available s; trace := trace s |}.

Definition set_data_available (v : bool) (s : ASN1_Codec) : ASN1_Codec :=
  {| exit_eof := exit_eof s; eof_cnt := eof_cnt s;
     partition_cnt := partition_cnt s; msg_recv_count := msg_recv_count s;
     msg_send_count := msg_send_count s; msg_filt_count := msg_filt_count s;
     msg_recv_bytes := msg_recv_bytes s; msg_send_bytes := msg_send_bytes s;
     msg_filt_bytes := msg_filt_bytes s; pconf := pconf s;
     brokers := brokers s; partition := partition s; mode := mode s;
     debug := debug s; consumed_topics := consumed_topics s;
     offset := offset s; published_topic_name := published_topic_name s;
     conf := conf s; tconf := tconf s; consumer_ptr := consumer_ptr s;
     consumer_timeout := consumer_timeout s; producer_ptr := producer_ptr s;
     published_topic_ptr := published_topic_ptr s;
     first_block := first_block s; data_available := v; trace := trace s |}.

Definition set_trace (v : list Event) (s : ASN1_Codec) : ASN1_Codec :=
  {| exit_eof := exit_eof s; eof_cnt := eof_cnt s;
     partition_cnt := partition_cnt s; msg_recv_count := msg_recv_count s;
     msg_send_count := msg_send_count s; msg_filt_count := msg_filt_count s;
     msg_recv_bytes := msg_recv_bytes s; msg_send_bytes := msg_send_bytes s;
     msg_filt_bytes := msg_filt_bytes s; pconf := pconf s;
     brokers := brokers s; partition := partition s; mode := mode s;
     debug := debug s; consumed_topics := consumed_topics s;
     offset := offset s; published_topic_name := published_topic_name s;
     conf := conf s; tconf := tconf s; consumer_ptr := consumer_ptr s;
     consumer_timeout := consumer_timeout s; producer_ptr := producer_ptr s;
     published_topic_ptr := published_topic_ptr s;
     first_block := first_block s; data_available := data_available s;
     trace := v |}.

Definition log_event (e : Event) (s : ASN1_Codec) : ASN1_Codec :=
  set_trace (trace s ++ [e]) s.

(** The constructor [ASN1_Codec::ASN1_Codec]; [data_available] starts true. *)
Definition ASN1_Codec_new : ASN1_Codec :=
  {| exit_eof := true; eof_cnt := 0; partition_cnt := 1;
     msg_recv_count := 0; msg_send_count := 0; msg_filt_count := 0;
     msg_recv_bytes := 0; msg_send_bytes := 0; msg_filt_bytes := 0;
     pconf := ∅; brokers := "localhost"; partition := PARTITION_UA;
     mode := EmptyString; debug := EmptyString; consumed_topics := [];
     offset := OFFSET_BEGINNING; published_topic_name := EmptyString;
     conf := Conf_create; tconf := Conf_create; consumer_ptr := false;
     consumer_timeout := 500; producer_ptr := false;
     published_topic_ptr := false; first_block := true;
     data_available := true; trace := [] |}.

(** [ASN1_Codec::sigterm], the handler of SIGINT and SIGTERM. *)
Definition sigterm (s : ASN1_Codec) : ASN1_Codec :=
  set_data_available false s.

(** ** configure

    What [configure] reads from outside [acm.cpp]: the parsed command line
    (the accessors of the base class [Tool]: [optIsSet], [optString],
    [optInt]; [getOption(c).isSet()] is [optIsSet(c)]), the configuration
    file as its lines ([None]: it cannot be opened), [string_utilities::strip]
    and [split], and the verdict of [RdKafka::Conf::set] on a name and a
    value.  [strip] called for its effect on [pieces[i]] leaves the stripped
    string there. *)
Record Env : Type := {
  optIsSet : ascii -> bool;
  optString : ascii -> string;
  optInt : ascii -> outcome Z;
  ifstream : string -> option (list string);
  strip : string -> string;
  split : string -> ascii -> list string;
  Conf_set : ConfType -> string -> string -> ConfResult
}.

Definition conf_ok (r : ConfResult) : bool :=
  match r with
  | CONF_OK => true
  | _ => false
  end.

(** How [configure] is left. *)
Inductive ending : Type :=
| Return (b : bool) (s : ASN1_Codec)       (* return b; *)
| Throw (e : exception) (s : ASN1_Codec).  (* an exception escapes *)

(** Where control is after a block of statements of [configure]. *)
Inductive flow : Type :=
| Next (s : ASN1_Codec)                    (* falls through *)
| Stop (x : ending).

Definition ending_state (x : ending) : ASN1_Codec :=
  match x with
  | Return _ s | Throw _ s => s
  end.

(** Statements in sequence; falling off the end is [return true]. *)
Fixpoint sequence (blocks : list (ASN1_Codec -> flow)) (s : ASN1_Codec)
  : ending :=
  match blocks with
  | [] => Return true s
  | b :: rest =>
      match b s with
      | Next s' => sequence rest s'
      | Stop x => x
      end
  end.

(** Lines 312-313. *)
Definition create_confs (s : ASN1_Codec) : flow :=
  Next (set_tconf Conf_create (set_conf Conf_create s)).

(** Line 332: [!line.empty() && line[0] != '#']. *)
Definition is_setting (line : string) : bool :=
  match line with
  | EmptyString => false
  | String c _ => negb (Ascii.eqb c "#")
  end.

(** Lines 340-355: one [key = value] pair is offered to the topic
    configuration, then to the global one; [done] is set by either. *)
Definition ingest_pair (E : Env) (key value : string) (s : ASN1_Codec)
  : ASN1_Codec :=
  let done_t := conf_ok (Conf_set E CONF_TOPIC key value) in
  let s1 := if done_t then set_tconf (Conf_store key value (tconf s)) s else s in
  let done_g := conf_ok (Conf_set E CONF_GLOBAL key value) in
  let s2 := if done_g then set_conf (Conf_store key value (conf s1)) s1 else s1 in
  if done_t || done_g then s2
  else set_pconf (<[key := value]> (pconf s2)) s2.

(** Lines 331-361: the body of the [getline] loop. *)
Definition ingest_line (E : Env) (s : ASN1_Codec) (raw : string) : ASN1_Codec :=
  let line := strip E raw in
  if is_setting line then
    match split E line "=" with
    | [p0; p1] => ingest_pair E (strip E p0) (strip E p1) s
    | _ => s                              (* "too many pieces ..." *)
    end
  else s.

(** Lines 316-362. *)
Definition ingest_file (E : Env) (s : ASN1_Codec) : flow :=
  if optIsSet E "c" then
    match ifstream E (optString E "c") with
    | Some lines => Next (fold_left (ingest_line E) lines s)
    | None => Stop (Return false s)
    end
  else Stop (Return false s).

(** Lines 366-370; the result of [set] is not looked at. *)
Definition override_broker (E : Env) (s : ASN1_Codec) : flow :=
  if optIsSet E "b" then
    let value := optString E "b" in
    if conf_ok (Conf_set E CONF_GLOBAL "metadata.broker.list" value)
    then Next (set_conf (Conf_store "metadata.broker.list" value (conf s)) s)
    else Next s
  else Next s.

(** Lines 372-381. *)
Definition resolve_partition (E : Env) (s : ASN1_Codec) : flow :=
  if optIsSet E "p" then
    match optInt E "p" with
    | Returned v => Next (set_partition v s)
    | Threw e => Stop (Throw e s)
    end
  else
    match pconf s !! "asn1.j2735.kafka.partition" with
    | Some text =>
        match stoi text with
        | Returned v => Next (set_partition v s)
        | Threw e => Stop (Throw e s)
        end
    | None => Next s
    end.

(** Lines 385-389. *)
Definition override_group (E : Env) (s : ASN1_Codec) : flow :=
  if optIsSet E "g" then
    let value := optString E "g" in
    if conf_ok (Conf_set E CONF_GLOBAL "group.id" value)
    then Next (set_conf (Conf_store "group.id" value (conf s)) s)
    else Stop (Return false s)
  else Next s.

(** Lines 391-406. *)
Definition override_offset (E : Env) (s : ASN1_Codec) : flow :=
  if optIsSet E "o" then
    let o := optString E "o" in
    if String.eqb o "end" then Next (set_offset OFFSET_END s)
    else if String.eqb o "beginning" then Next (set_offset OFFSET_BEGINNING s)
    else if String.eqb o "stored" then Next (set_offset OFFSET_STORED s)
    else Next (set_offset (strtoll o) s)
  else Next s.

(** Line 409. *)
Definition override_exit_eof (E : Env) (s : ASN1_Codec) : flow :=
  Next (set_exit_eof (optIsSet E "x") s).

(** Lines 411-414. *)
Definition override_debug (E : Env) (s : ASN1_Codec) : flow :=
  if optIsSet E "d" then
    let value := optString E "d" in
    if conf_ok (Conf_set E CONF_GLOBAL "debug" value)
    then Next (set_conf (Conf_store "debug" value (conf s)) s)
    else Stop (Return false s)
  else Next s.

(** Line 417. *)
Definition install_topic_conf (s : ASN1_Codec) : flow :=
  Next (set_conf (Conf_store_topic (tconf s) (conf s)) s).

(** Lines 419-428. *)
Definition resolve_consumer_topic (s : ASN1_Codec) : flow :=
  match pconf s !! "asn1.j2735.topic.consumer" with
  | Some name => Next (set_consumed_topics (consumed_topics s ++ [name]) s)
  | None => Stop (Return false s)
  end.

(** Lines 430-443. *)
Definition resolve_producer_topic (E : Env) (s : ASN1_Codec) : flow :=
  if optIsSet E "t" then Next (set_published_topic_name (optString E "t") s)
  else
    match pconf s !! "asn1.j2735.topic.producer" with
    | Some name => Next (set_published_topic_name name s)
    | None => Stop (Return false s)
    end.

(** Lines 447-454: the only conversion whose exception is caught here. *)
Definition resolve_timeout (s : ASN1_Codec) : flow :=
  match pconf s !! "asn1.j2735.consumer.timeout.ms" with
  | Some text =>
      match stoi text with
      | Returned v => Next (set_consumer_timeout v s)
      | Threw _ => Next s
      end
  | None => Next s
  end.

(** The overrides and resolutions that follow the file, lines 364-461. *)
Definition after_file (E : Env) : list (ASN1_Codec -> flow) :=
  [ override_broker E; resolve_partition E; override_group E;
    override_offset E; override_exit_eof E; override_debug E;
    install_topic_conf; resolve_consumer_topic; resolve_producer_topic E;
    resolve_timeout ].

(** [ASN1_Codec::configure] (the choice of the log level, lines 285-303, and
    the global [iform] only concern the loggers and the codec). *)
Definition configure (E : Env) (s : ASN1_Codec) : ending :=
  sequence (create_confs :: ingest_file E :: after_file E) s.

(** ** The relay loop *)

(** A decoded structure is opaque here: a handle. *)
Definition Structure : Type := N.

(** One turn of the loop as the collaborators answer it: the message
    [consume] returns (its [err()] and [len()]), what the decoder makes of
    its payload for either value of [first_block], what [xer_buf] returns for
    a structure and the [buffer_size] it leaves, what [produce] returns, and
    whether a signal is delivered before the loop tests [data_available]
    again. *)
Record Polled : Type := {
  err : ErrorCode;
  len : N;
  data_decode_from_buffer : bool -> option Structure;
  xer_buf : Structure -> Z * N;
  produce : ErrorCode;
  interrupted : bool
}.

(** [xb.buffer_size], the one member of [struct xer_buffer] the loop reads. *)
Definition xer_buffer : Type := N.

(** [ASN1_Codec::msg_consume], lines 464-577. *)
Definition msg_consume (message : Polled) (xb : xer_buffer) (s : ASN1_Codec)
  : bool * xer_buffer * ASN1_Codec :=
  match err message with
  | ERR__TIMED_OUT => (false, xb, s)
  | ERR_NO_ERROR =>
      let s := set_msg_recv_count (msg_recv_count s + 1) s in
      let s := set_msg_recv_bytes (msg_recv_bytes s + Z.of_N (len message)) s in
      match data_decode_from_buffer message (first_block s) with
      | None => (false, xb, log_event (decode_call (first_block s) false) s)
      | Some structure =>
          let s := log_event (decode_call (first_block s) true) s in
          let s := set_first_block false s in
          let '(rc, size) := xer_buf message structure in
          let s := log_event (xer_call rc) s in
          if rc =? 0 then (true, size, s) else (false, size, s)
      end
  | ERR__PARTITION_EOF =>
      if exit_eof s then
        let s := set_eof_cnt (eof_cnt s + 1) s in
        if eof_cnt s =? partition_cnt s
        then (false, xb, set_data_available false (log_event eof_all_partitions s))
        else (false, xb, s)
      else (false, xb, s)
  | ERR__UNKNOWN_TOPIC =>         (* no break: falls into the next case *)
      let s := log_event fatal_consume_error s in
      (false, xb, set_data_available false (log_event fatal_consume_error s))
  | ERR__UNKNOWN_PARTITION =>
      (false, xb, set_data_available false (log_event fatal_consume_error s))
  | ERR_other _ =>
      (false, xb, set_data_available false (log_event fatal_consume_error s))
  end.

(** The body of the [while] of [operator()], lines 753-778. *)
Definition loop_body (msg : Polled) (s : ASN1_Codec) : xer_buffer * ASN1_Codec :=
  let xb : xer_buffer := 0%N in
  if (0 <? len msg)%N then
    match msg_consume msg xb s with
    | (true, xb, s) =>
        let status := produce msg in
        let s := log_event (produce_call (partition s) xb status) s in
        if is_error status then (xb, s)
        else
          let s := set_msg_send_count (msg_send_count s + 1) s in
          (xb, set_msg_send_bytes (msg_send_bytes s + Z.of_N xb) s)
    | (false, xb, s) => (xb, s)
    end
  else (xb, s).

(** What a part of the process that waits on a collaborator comes to on a
    finite script of replies. *)
Inductive run (A : Type) : Type :=
| Done (a : A) (s : ASN1_Codec)      (* it returned a *)
| Waiting (s : ASN1_Codec).          (* still in the loop, script used up *)
Arguments Done {A} a s.
Arguments Waiting {A} s.

Definition deliver (signal : bool) (s : ASN1_Codec) : ASN1_Codec :=
  if signal then sigterm s else s.

(** [while (data_available) { ... }], lines 751-779. *)
Fixpoint relay_loop (polls : list Polled) (s : ASN1_Codec) {struct polls}
  : run unit :=
  if data_available s then
    match polls with
    | [] => Waiting s
    | msg :: polls' =>
        relay_loop polls' (deliver (interrupted msg) (snd (loop_body msg s)))
    end
  else Done tt s.

(** ** Sessions *)

(** One reply of [consumer_ptr->metadata]: its error code, the names of the
    topics it lists, and whether a signal is delivered before
    [launch_consumer] tests [data_available] again. *)
Record Probe : Type := {
  md_err : ErrorCode;
  md_topics : list string;
  md_interrupted : bool
}.

(** The [while] of [topic_available], lines 227-232. *)
Fixpoint scan_topics (topic : string) (it : list string) (r : bool) : bool :=
  match it with
  | [] => r
  | name :: it' => if r then r else scan_topics topic it' (String.eqb name topic)
  end.

(** [ASN1_Codec::topic_available] on the reply it gets. *)
Definition topic_available (topic : string) (reply : Probe) : bool :=
  match md_err reply with
  | ERR_NO_ERROR => scan_topics topic (md_topics reply) false
  | _ => false
  end.

(** What the broker answers while sessions are set up and during the relay. *)
Record Broker : Type := {
  KafkaConsumer_create : bool;
  metadata : list Probe;
  subscribe : ErrorCode;
  Producer_create : bool;
  Topic_create : bool;
  consume : list Polled
}.

(** The [while] of [launch_consumer] for one topic, lines 619-629; it hands
    back the replies it did not use. *)
Fixpoint await_topic (topic : string) (size : Z) (replies : list Probe)
  (tcount : Z) (s : ASN1_Codec) {struct replies}
  : run (list Probe * Z) :=
  if data_available s && (tcount <? size) then
    match replies with
    | [] => Waiting s
    | reply :: replies' =>
        let found := topic_available topic reply in
        let s := deliver (md_interrupted reply)
                   (log_event (metadata_call topic found) s) in
        if found then Done (replies', tcount + 1) s
        else await_topic topic size replies' tcount s
    end
  else Done (replies, tcount) s.

(** The [for] over [consumed_topics], lines 618-630. *)
Fixpoint await_topics (topics : list string) (size : Z) (replies : list Probe)
  (tcount : Z) (s : ASN1_Codec) {struct topics}
  : run (list Probe * Z) :=
  match topics with
  | [] => Done (replies, tcount) s
  | topic :: topics' =>
      match await_topic topic size replies tcount s with
      | Done (replies', tcount') s' =>
          await_topics topics' size replies' tcount' s'
      | Waiting s' => Waiting s'
      end
  end.

(** [ASN1_Codec::launch_consumer], lines 605-652. *)
Definition launch_consumer (B : Broker) (s : ASN1_Codec) : run bool :=
  let s := log_event (consumer_create (KafkaConsumer_create B)) s in
  if KafkaConsumer_create B then
    let s := set_consumer_ptr true s in
    let size := Z.of_nat (length (consumed_topics s)) in
    match await_topics (consumed_topics s) size (metadata B) 0 s with
    | Done (_, tcount) s =>
        if tcount =? size then
          let status := subscribe B in
          let s := log_event (subscribe_call (consumed_topics s) status) s in
          if is_error status then Done false s else Done true s
        else Done false s
    | Waiting s => Waiting s
    end
  else Done false s.

(** [ASN1_Codec::launch_producer], lines 582-600. *)
Definition launch_producer (B : Broker) (s : ASN1_Codec) : bool * ASN1_Codec :=
  let s := log_event (producer_create (Producer_create B)) s in
  if Producer_create B then
    let s := set_producer_ptr true s in
    let s := log_event (topic_create (published_topic_name s) (Topic_create B)) s in
    if Topic_create B then (true, set_published_topic_ptr true s)
    else (false, s)
  else (false, s).

(** ** operator() *)

Definition EXIT_SUCCESS : Z := 0.
Definition EXIT_FAILURE : Z := 1.

(** [return b;] in a function whose result type is [int]. *)
Definition int_of_bool (b : bool) : Z := if b then 1 else 0.

(** [ASN1_Codec::operator()], lines 724-789: the exit status of the
    process, or [Waiting] when the replies run out first. *)
Definition operator_call (E : Env) (B : Broker) (s : ASN1_Codec) : run Z :=
  match configure E s with
  | Return true s =>
      match launch_consumer B s with
      | Done true s =>
          match launch_producer B s with
          | (true, s) =>
              match relay_loop (consume B) s with
              | Done _ s => Done EXIT_SUCCESS s
              | Waiting s => Waiting s
              end
          | (false, s) => Done (int_of_bool false) s
          end
      | Done false s => Done (int_of_bool false) s
      | Waiting s => Waiting s
      end
  | Return false s => Done EXIT_FAILURE s
  | Throw _ s => Done EXIT_FAILURE s
  end.

(** ** Observations on a trace *)

(** The buffers handed to [produce]: partition, size and status. *)
Fixpoint produced (t : list Event) : list (Z * N * ErrorCode) :=
  match t with
  | [] => []
  | produce_call part size status :: t' => (part, size, status) :: produced t'
  | _ :: t' => produced t'
  end.

(** The decoder invocations: the [first_block] argument, and whether a
    structure came back. *)
Fixpoint decode_calls (t : list Event) : list (bool * bool) :=
  match t with
  | [] => []
  | decode_call flag ok :: t' => (flag, ok) :: decode_calls t'
  | _ :: t' => decode_calls t'
  end.





Definition is_partition_eof (msg : Polled) : bool :=
  match err msg with
  | ERR__PARTITION_EOF => true
  | _ => false
  end.

(** A [PARTITION_EOF] that reaches [msg_consume]. *)
Definition counted_eof (msg : Polled) : bool :=
  is_partition_eof msg && (0 <? len msg)%N.

Definition run_state {A : Type} (r : run A) : ASN1_Codec :=
  match r with
  | Done _ s | Waiting s => s
  end.

(** How many polled messages carry the status [PARTITION_EOF]. *)
Fixpoint eof_statuses (polls : list Polled) : Z :=
  match polls with
  | [] => 0
  | msg :: polls' => (if is_partition_eof msg then 1 else 0) + eof_statuses polls'
  end.

(** The rule the decoder invocations follow: an invocation gets
    [first_block = true] exactly when no earlier one returned a structure. *)
Definition first_block_rule (calls : list (bool * bool)) : Prop :=
  forall before flag ok after,
    calls = before ++ (flag, ok) :: after ->
    flag = negb (existsb snd before).

(** One invocation with [first_block = true], every later one with
    [false]. *)
Definition true_once (flags : list bool) : Prop :=
  match flags with
  | [] => True
  | flag :: later => flag = true /\ Forall (fun f => f = false) later
  end.

(** The flag as the trace determines it. *)
Definition flag_tracks_trace (s : ASN1_Codec) : Prop :=
  first_block s = negb (existsb snd (decode_calls (trace s))) /\
  first_block_rule (decode_calls (trace s)).

(** The three places a setting of the file can be stored in. *)
Inductive Domain : Type :=
| topic_level
| broker_level
| application_specific.

Definition holds (m : gmap string string) (key : string) : bool :=
  match m !! key with
  | Some _ => true
  | None => false
  end.

Definition domains_of (key : string) (s : ASN1_Codec) : list Domain :=
  (if holds (properties (tconf s)) key then [topic_level] else []) ++
  (if holds (properties (conf s)) key then [broker_level] else []) ++
  (if holds (pconf s) key then [application_specific] else []).

(** The state [configure] has reached when the file has been read, if it
    gets that far. *)
Definition file_derived (E : Env) (s : ASN1_Codec) : option ASN1_Codec :=
  match create_confs s with
  | Next s0 =>
      match ingest_file E s0 with
      | Next s1 => Some s1
      | Stop _ => None
      end
  | Stop _ => None
  end.

(** The partition the file asks for. *)
Definition file_partition (s1 : ASN1_Codec) : outcome Z :=
  match pconf s1 !! "asn1.j2735.kafka.partition" with
  | Some text => stoi text
  | None => Returned (partition s1)
  end.

(** The offset option [-o] as [configure] reads it. *)
Definition cli_offset (o : string) : Z :=
  if String.eqb o "end" then OFFSET_END
  else if String.eqb o "beginning" then OFFSET_BEGINNING
  else if String.eqb o "stored" then OFFSET_STORED
  else strtoll o.

(** The value the global configuration holds for a property. *)
Definition conf_entry (name : string) (s : ASN1_Codec) : option string :=
  properties (conf s) !! name.

(** The six settings the command line can override, in the order
    [configure] goes through them: broker address, partition, group id,
    offset, exit on end of partition, debug. *)
Definition overridable (s : ASN1_Codec)
  : option string * Z * option string * Z * bool * option string :=
  (conf_entry "metadata.broker.list" s, partition s, conf_entry "group.id" s,
   offset s, exit_eof s, conf_entry "debug" s).

(** The value an option that was given puts in the place of [old]. *)
Definition cli_conf (E : Env) (c : ascii) (name : string) (old : option string)
  : option string :=
  if optIsSet E c then
    if conf_ok (Conf_set E CONF_GLOBAL name (optString E c))
    then Some (optString E c) else old
  else old.

(** A topic name resolves when [configure] finds it: the consumer topic in
    the settings of the file that Kafka did not take, the producer topic
    with option [-t] or in the same settings. *)
Definition consumer_topic_resolves (E : Env) (s : ASN1_Codec) : bool :=
  match file_derived E s with
  | Some s1 => holds (pconf s1) "asn1.j2735.topic.consumer"
  | None => false
  end.

Definition producer_topic_resolves (E : Env) (s : ASN1_Codec) : bool :=
  match file_derived E s with
  | Some s1 => optIsSet E "t" || holds (pconf s1) "asn1.j2735.topic.producer"
  | None => false
  end.

(** ** Concrete collaborators, to run the model on *)

Module Sample.

(** Modelled from the spec: [string_utilities::strip] is not in [acm.cpp];
    section 6 has the surrounding white space of a field stripped. *)
Fixpoint rstrip (s : string) : string :=
  match s with
  | EmptyString => EmptyString
  | String c s' =>
      match rstrip s' with
      | EmptyString => if isspace c then EmptyString else String c EmptyString
      | t => String c t
      end
  end.

Definition strip_spaces (s : string) : string := rstrip (skip_space s).

(** Modelled from the spec: [string_utilities::split] is not in [acm.cpp];
    section 4.1 has a line split into fields at the delimiter. *)
Fixpoint split_at (s : string) (delim : ascii) : list string :=
  match s with
  | EmptyString => [EmptyString]
  | String c s' =>
      if Ascii.eqb c delim then EmptyString :: split_at s' delim
      else
        match split_at s' delim with
        | piece :: rest => String c piece :: rest
        | [] => [String c EmptyString]
        end
  end.

Fixpoint argument (args : list (ascii * string)) (c : ascii) : option string :=
  match args with
  | [] => None
  | (c', a) :: args' => if Ascii.eqb c' c then Some a else argument args' c
  end.

(** The names a broker client takes: the global configuration takes its own
    properties and, passing them on to the default topic configuration, the
    topic-level ones; the topic configuration takes only the latter. *)
Definition kafka (ty : ConfType) (name value : string) : ConfResult :=
  let topic_names := ["auto.offset.reset"; "request.required.acks"] in
  let global_names := ["metadata.broker.list"; "group.id"; "debug"] in
  if existsb (String.eqb name) topic_names then CONF_OK
  else
    match ty with
    | CONF_GLOBAL =>
        if existsb (String.eqb name) global_names then CONF_OK
        else CONF_UNKNOWN
    | CONF_TOPIC => CONF_UNKNOWN
    end.

(** A command line [args] (option letter and argument) and the lines of
    the file named by [-c]. *)
Definition env (args : list (ascii * string)) (file : list string) : Env :=
  {| optIsSet := fun c =>
       match argument args c with Some _ => true | None => false end;
     optString := fun c =>
       match argument args c with Some a => a | None => EmptyString end;
     optInt := fun c =>
       match argument args c with
       | Some a => stoi a
       | None => Threw invalid_argument
       end;
     ifstream := fun name =>
       if String.eqb name "acm.properties" then Some file else None;
     strip := strip_spaces;
     split := split_at;
     Conf_set := kafka |}.

Definition properties_file : list string :=
  [ "# relay raw BSMs";
    "  ";
    "group.id = 0";
    "auto.offset.reset=earliest";
    "asn1.j2735.topic.consumer = raw";
    "asn1.j2735.topic.producer=filtered";
    "asn1.j2735.consumer.timeout.ms = 250" ].

Definition with_file : list (ascii * string) := [("c"%char, "acm.properties")].

(** A payload the decoder and the encoder accept, and the broker takes. *)
Definition good (n : N) : Polled :=
  {| err := ERR_NO_ERROR; len := n;
     data_decode_from_buffer := fun _ => Some 7%N;
     xer_buf := fun _ => (0, (4 * n)%N);
     produce := ERR_NO_ERROR; interrupted := false |}.

(** A payload the decoder makes nothing of. *)
Definition undecodable (n : N) : Polled :=
  {| err := ERR_NO_ERROR; len := n;
     data_decode_from_buffer := fun _ => None;
     xer_buf := fun _ => (0, 0%N);
     produce := ERR_NO_ERROR; interrupted := false |}.

(** A structure [xer_buf] cannot turn into XML. *)
Definition unencodable (n : N) : Polled :=
  {| err := ERR_NO_ERROR; len := n;
     data_decode_from_buffer := fun _ => Some 7%N;
     xer_buf := fun _ => (-1, 0%N);
     produce := ERR_NO_ERROR; interrupted := false |}.

(** A message that only carries a status. *)
Definition status (e : ErrorCode) (n : N) : Polled :=
  {| err := e; len := n;
     data_decode_from_buffer := fun _ => None;
     xer_buf := fun _ => (-1, 0%N);
     produce := ERR_NO_ERROR; interrupted := false |}.

Definition reply (e : ErrorCode) (names : list string) (signal : bool) : Probe :=
  {| md_err := e; md_topics := names; md_interrupted := signal |}.

Definition broker (replies : list Probe) (polls : list Polled) : Broker :=
  {| KafkaConsumer_create := true; metadata := replies;
     subscribe := ERR_NO_ERROR; Producer_create := true;
     Topic_create := true; consume := polls |}.

(** A broker on which the consumer cannot be created. *)
Definition unreachable : Broker :=
  {| KafkaConsumer_create := false; metadata := [];
     subscribe := ERR_NO_ERROR; Producer_create := false;
     Topic_create := false; consume := [] |}.

End Sample.

(** ** More observations on a trace *)

(** The results of [xer_buf], in order. *)
Fixpoint encodes (t : list Event) : list Z :=
  match t with
  | [] => []
  | xer_call rc :: t' => rc :: encodes t'
  | _ :: t' => encodes t'
  end.

(** The sizes of the buffers [produce] took without error. *)
Fixpoint sent (t : list Event) : list N :=
  match t with
  | [] => []
  | produce_call _ size ERR_NO_ERROR :: t' => size :: sent t'
  | _ :: t' => sent t'
  end.

Definition total (sizes : list N) : Z :=
  fold_right (fun size acc => Z.of_N size + acc) 0 sizes.

(** How many of the decoder invocations returned a structure, and how many
    of the encodings succeeded. *)
Definition decoded_ok (t : list Event) : nat :=
  length (List.filter snd (decode_calls t)).

Definition encoded_ok (t : list Event) : nat :=
  length (List.filter (fun rc => rc =? 0) (encodes t)).

(** What one turn of the loop adds to the trace, and to the counters. *)
Definition ledger (s s' : ASN1_Codec) (evs : list Event) : Prop :=
  trace s' = trace s ++ evs /\
  partition s' = partition s /\
  msg_recv_count s' = msg_recv_count s + Z.of_nat (length (decode_calls evs)) /\
  msg_send_count s' = msg_send_count s + Z.of_nat (length (sent evs)) /\
  msg_send_bytes s' = msg_send_bytes s + total (sent evs) /\
  length (encodes evs) = decoded_ok evs /\
  length (produced evs) = encoded_ok evs /\
  Forall (fun call => fst (fst call) = partition s) (produced evs).


(** A status [msg_consume] gives up on: neither a message, a timeout nor
    the end of a partition. *)
Definition is_fatal (e : ErrorCode) : bool :=
  match e with
  | ERR__UNKNOWN_TOPIC | ERR__UNKNOWN_PARTITION | ERR_other _ => true
  | _ => false
  end.

(** Lines 760-772 of the body of the loop: the buffer [msg_consume] left
    is handed to [produce] and, when it was taken, counted. *)
Definition publish (msg : Polled) (xb : xer_buffer) (s : ASN1_Codec)
  : xer_buffer * ASN1_Codec :=
  let status := produce msg in
  let s := log_event (produce_call (partition s) xb status) s in
  if is_error status then (xb, s)
  else
    let s := set_msg_send_count (msg_send_count s + 1) s in
    (xb, set_msg_send_bytes (msg_send_bytes s + Z.of_N xb) s).

(** A poll that asks nothing of the loop in state [s]: no signal comes
    with it, and it has no payload, or is a timeout, or is the end of a
    partition while [exit_eof] is off. *)
Definition is_idle (s : ASN1_Codec) (msg : Polled) : bool :=
  negb (interrupted msg) &&
  ((len msg =? 0)%N ||
   match err msg with
   | ERR__TIMED_OUT => true
   | ERR__PARTITION_EOF => negb (exit_eof s)
   | _ => false
   end).

(** ** More views of the object *)

(** The setting a line of the file stands for, if it is one: not blank, no
    comment, two pieces around [=] (lines 331-338). *)
Definition setting_of (E : Env) (raw : string) : option (string * string) :=
  let line := strip E raw in
  if is_setting line then
    match split E line "=" with
    | [p0; p1] => Some (strip E p0, strip E p1)
    | _ => None
    end
  else None.

(** What [configure] settles after the overrides: the topic
    configuration, the application settings, the topics, the timeout and
    the topic configuration installed in the global one. *)
Definition settled (s : ASN1_Codec)
  : Conf * gmap string string * list string * string * Z
    * option (gmap string string) :=
  (tconf s, pconf s, consumed_topics s, published_topic_name s,
   consumer_timeout s, default_topic_conf (conf s)).

(** The members the relay loop works on, and the three members that are
    initialised by the constructor and read nowhere in [acm.cpp]. *)
Definition relay_state (s : ASN1_Codec)
  : (Z * Z * Z * Z * Z * Z) * (Z * Z * bool * bool) * (string * string * string) :=
  ((msg_recv_count s, msg_send_count s, msg_filt_count s,
    msg_recv_bytes s, msg_send_bytes s, msg_filt_bytes s),
   (eof_cnt s, partition_cnt s, first_block s, data_available s),
   (brokers s, mode s, debug s)).

(** The consumer timeout the file asks for, [fallback] when it names
    none or one that does not convert. *)
Definition file_timeout (s1 : ASN1_Codec) (fallback : Z) : Z :=
  match pconf s1 !! "asn1.j2735.consumer.timeout.ms" with
  | Some text =>
      match stoi text with
      | Returned v => v
      | Threw _ => fallback
      end
  | None => fallback
  end.

(** ** A broker that lets the wait for the topics end *)


(** ** Sessions and relay in one trace *)

(** The calls that set up the sessions, as against those of the relay. *)
Definition is_session (e : Event) : bool :=
  match e with
  | consumer_create _ | metadata_call _ _ | subscribe_call _ _
  | producer_create _ | topic_create _ _ => true
  | _ => false
  end.

(** The counters of the closing summary. *)
Definition summary (s : ASN1_Codec) : Z * Z * Z * Z :=
  (msg_recv_count s, msg_recv_bytes s, msg_send_count s, msg_send_bytes s).

(** ** The rest of acm.cpp: files, loggers, listing, main *)

(** The file types of [<sys/stat.h>], in [st_mode]. *)
Definition S_IFMT : Z := 61440.      (* 0170000 *)
Definition S_IFSOCK : Z := 49152.    (* 0140000 *)
Definition S_IFLNK : Z := 40960.     (* 0120000 *)
Definition S_IFREG : Z := 32768.     (* 0100000 *)
Definition S_IFBLK : Z := 24576.     (* 0060000 *)
Definition S_IFDIR : Z := 16384.     (* 0040000 *)
Definition S_IFCHR : Z := 8192.      (* 0020000 *)
Definition S_IFIFO : Z := 4096.      (* 0010000 *)

(** [fileExists] and [dirExists], lines 80-107, on what [stat] answers:
    [None] when it fails, the [st_mode] otherwise. *)
Definition fileExists (st : option Z) : bool :=
  match st with
  | None => false
  | Some st_mode => negb (Z.land st_mode S_IFREG =? 0)
  end.

Definition dirExists (st : option Z) : bool :=
  match st with
  | None => false
  | Some st_mode => negb (Z.land st_mode S_IFDIR =? 0)
  end.

(** The two loops of [print_configuration], lines 247-261, on the list
    [Conf::dump] returns: what they write to [std::cout], [i] counting the
    entries. *)
Definition newline : string := String (ascii_of_nat 10) EmptyString.

Fixpoint print_dump (i : nat) (conf_list : list string) : string :=
  match conf_list with
  | [] => EmptyString
  | v :: rest =>
      String.append
        (if Nat.eqb (i mod 2) 0 then String.append v " = "
         else String.append v newline)
        (print_dump (S i) rest)
  end.

(** The third loop, lines 263-266, on the entries of [pconf] in the order
    the map hands them out. *)
Fixpoint print_pairs (entries : list (string * string)) : string :=
  match entries with
  | [] => EmptyString
  | (name, value) :: rest =>
      String.append name
        (String.append " = "
           (String.append value (String.append newline (print_pairs rest))))
  end.

(** [ASN1_Codec::print_configuration], lines 242-267. *)
Definition print_configuration (global_dump topic_dump : list string)
  (entries : list (string * string)) : string :=
  String.append (String.append "# Global config" newline)
    (String.append (print_dump 0 global_dump)
       (String.append (String.append "# Topic config" newline)
          (String.append (print_dump 0 topic_dump)
             (String.append (String.append "# Privacy config " newline)
                (print_pairs entries))))).

(** [spdlog::level::level_enum]. *)
Inductive level_enum : Type :=
| level_trace
| level_debug
| level_info
| level_warn
| level_err
| level_critical
| level_off.

(** Lines 285-303 of [configure]: the level of the information logger
    after them, [current] being its level before. *)
Definition choose_level (E : Env) (current : level_enum) : level_enum :=
  if optIsSet E "v" then
    if String.eqb "trace" (optString E "v") then level_trace
    else if String.eqb "debug" (optString E "v") then level_trace
    else if String.eqb "info" (optString E "v") then level_trace
    else if String.eqb "warning" (optString E "v") then level_warn
    else if String.eqb "error" (optString E "v") then level_err
    else if String.eqb "critical" (optString E "v") then level_critical
    else if String.eqb "off" (optString E "v") then level_off
    else current
  else current.

(** A list of names and values as [Conf::dump] lays it out. *)
Fixpoint flatten (entries : list (string * string)) : list string :=
  match entries with
  | [] => []
  | (name, value) :: rest => name :: value :: flatten rest
  end.

(** ** The loggers *)

(** What [make_loggers] asks of the command line and of the system: the
    option table of the tool library ([getOption(c).hasArg()] and
    [getOption(c).argument()]), [string_utilities::basename], whether
    [mkdir] and [std::remove] return 0, and whether
    [spdlog::rotating_logger_mt] opens the file it is given (it throws when
    it cannot). *)
Record Host : Type := {
  hasArg : ascii -> bool;
  argument : ascii -> string;
  basename : string -> string;
  mkdir : string -> bool;
  remove : string -> bool;
  rotating_logger_mt : string -> bool
}.

(** What [stat] answers for a name: [None] when it fails, the [st_mode]
    otherwise. *)
Definition Files : Type := string -> option Z.

(** The answers once [name] has been removed. *)
Definition unlink (name : string) (stat : Files) : Files :=
  fun p => if String.eqb p name then None else stat p.

(** The calls that change the file system, with whether they succeeded. *)
Inductive FileCall : Type :=
| mkdir_call (path : string) (ok : bool)
| remove_call (name : string) (ok : bool).

(** [std::string::back]; there is none in an empty string, where the
    call is undefined. *)
Fixpoint back (s : string) : option ascii :=
  match s with
  | EmptyString => None
  | String c rest =>
      match rest with
      | EmptyString => Some c
      | String _ _ => back rest
      end
  end.

(** A logger: the file it writes and its level. *)
Record Logger : Type := {
  filename : string;
  level : level_enum
}.

Record Loggers : Type := {
  ilogger : Logger;
  elogger : Logger
}.

(** How [make_loggers] ends: with both loggers and [true], with [false],
    or with the exception of spdlog. *)
Inductive Made : Type :=
| made (l : Loggers)
| not_made
| logger_threw.

(** Lines 657-667: the directory of the logs. *)
Definition log_dir (H : Host) : option string :=
  if hasArg H "D" then
    let path := argument H "D" in
    match back path with
    | None => None
    | Some c =>
        Some (if Ascii.eqb c "/" then path else String.append path "/")
    end
  else Some "logs/".

(** Lines 685-693: the name of one log, without the directory. *)
Definition log_name (H : Host) (c : ascii) (default : string) : string :=
  if hasArg H c then basename H (argument H c) else default.

(** Lines 698-703 and 705-710: a log that is there is removed when
    [remove_files] is set; [false] when the removal fails. *)
Definition remove_previous (H : Host) (remove_files : bool) (name : string)
  (stat : Files) : bool * list FileCall * Files :=
  if remove_files && fileExists (stat name) then
    if remove H name then (true, [remove_call name true], unlink name stat)
    else (false, [remove_call name false], stat)
  else (true, [], stat).

(** [ASN1_Codec::make_loggers], lines 654-722: how it ends and the calls
    it made; [None] where the source has no defined behaviour ([-D] with
    an empty argument).  [iloglevel] is the member of that name. *)
Definition make_loggers (H : Host) (iloglevel : level_enum)
  (remove_files : bool) (stat : Files) : option (Made * list FileCall) :=
  match log_dir H with
  | None => None
  | Some path =>
      if dirExists (stat path) || mkdir H path then
        let dir := if dirExists (stat path) then []
                   else [mkdir_call path true] in
        let ilogname := String.append path (log_name H "i" "log.info") in
        let elogname := String.append path (log_name H "e" "log.error") in
        match remove_previous H remove_files ilogname stat with
        | (false, c1, _) => Some (not_made, dir ++ c1)
        | (true, c1, stat1) =>
            match remove_previous H remove_files elogname stat1 with
            | (false, c2, _) => Some (not_made, dir ++ c1 ++ c2)
            | (true, c2, _) =>
                if rotating_logger_mt H ilogname
                   && rotating_logger_mt H elogname then
                  Some (made {| ilogger := {| filename := ilogname;
                                              level := iloglevel |};
                                elogger := {| filename := elogname;
                                              level := iloglevel |} |},
                        dir ++ c1 ++ c2)
                else Some (logger_threw, dir ++ c1 ++ c2)
            end
        end
      else Some (not_made, [mkdir_call path false])
  end.

(** A name that holds no slash: it names an entry of the directory it is
    looked up in, nothing below or above it. *)
Fixpoint slashless (s : string) : bool :=
  match s with
  | EmptyString => true
  | String c rest => negb (Ascii.eqb c "/") && slashless rest
  end.

(** What [make_loggers] may do to the file system: make the directory
    [path] that [dirExists] did not find, or remove what [fileExists]
    found under the name of [path] followed by one of [bases] that holds
    no slash, which it does only when asked to. *)
Definition in_log_dir (path : string) (bases : list string)
  (remove_files : bool) (stat : Files) (c : FileCall) : Prop :=
  match c with
  | mkdir_call p _ => p = path /\ dirExists (stat path) = false
  | remove_call name _ =>
      remove_files = true /\ fileExists (stat name) = true /\
      exists base,
        In base bases /\ name = String.append path base /\
        slashless base = true
  end.

(** Lines 285-303 of [configure] on the loggers. *)
Definition set_level (E : Env) (l : Loggers) : Loggers :=
  {| ilogger := {| filename := filename (ilogger l);
                   level := choose_level E (level (ilogger l)) |};
     elogger := elogger l |}.

(** [ASN1_Codec::configure], lines 283-462, with the loggers: the level
    of the information logger is chosen first (lines 285-303), before the
    test for [-c], so every ending has it. *)
Definition configure_with_loggers (E : Env) (l : Loggers) (s : ASN1_Codec)
  : Loggers * ending :=
  (set_level E l, configure E s).

(** ** The program *)

(** What [main] writes to the terminal before it exits. *)
Inductive Shown : Type :=
| usage
| help
| configuration.

(** How [main] goes on after its own steps, with the calls on the file
    system so far: it exits with a status, having shown something or
    nothing, with the loggers if they were made and the object as it is
    then; it ends on the exception of a logger, which nothing catches; or
    it hands over to [Tool::run], whose result is the exit status. *)
Inductive Process : Type :=
| exits (status : Z) (calls : list FileCall) (shown : option Shown)
    (loggers : option Loggers) (asn1_codec : ASN1_Codec)
| aborts (calls : list FileCall)
| runs (calls : list FileCall) (loggers : Loggers) (asn1_codec : ASN1_Codec).

(** [main], lines 793-854; [parsed] is what [parseArgs] returns.  The
    constructor leaves [iloglevel] at trace. *)
Definition main (parsed : bool) (H : Host) (E : Env) (stat : Files)
  : option Process :=
  let asn1_codec := ASN1_Codec_new in
  if negb parsed then
    Some (exits EXIT_FAILURE [] (Some usage) None asn1_codec)
  else if optIsSet E "h" then
    Some (exits EXIT_SUCCESS [] (Some help) None asn1_codec)
  else
    match make_loggers H level_trace (optIsSet E "R") stat with
    | None => None
    | Some (not_made, calls) =>
        Some (exits EXIT_FAILURE calls None None asn1_codec)
    | Some (logger_threw, calls) => Some (aborts calls)
    | Some (made l, calls) =>
        if optIsSet E "C" then
          match configure E asn1_codec with
          | Return true s =>
              Some (exits EXIT_SUCCESS calls (Some configuration)
                      (Some (set_level E l)) s)
          | Return false s =>
              Some (exits EXIT_FAILURE calls None (Some (set_level E l)) s)
          | Throw _ s =>
              Some (exits EXIT_FAILURE calls None (Some (set_level E l)) s)
          end
        else Some (runs calls l asn1_codec)
    end.

(** A command line and a file system to run [make_loggers] and [main] on:
    [-D out], the directory [out/] with an information log in it. *)
Module SampleHost.

Definition host : Host :=
  {| hasArg := fun c => Ascii.eqb c "D";
     argument := fun c => if Ascii.eqb c "D" then "out" else EmptyString;
     basename := fun name => name;
     mkdir := fun _ => true;
     remove := fun _ => true;
     rotating_logger_mt := fun _ => true |}.

Definition files : Files :=
  fun name =>
    if String.eqb name "out/" then Some (S_IFDIR + 493)
    else if String.eqb name "out/log.info" then Some (S_IFREG + 420)
    else None.

(** What follows the last slash of a name. *)
Fixpoint after_slash (name : string) : string :=
  match name with
  | EmptyString => EmptyString
  | String c rest =>
      if negb (slashless rest) then after_slash rest
      else if Ascii.eqb c "/" then rest
      else name
  end.

(** [-D out -i ../../etc/info]. *)
Definition named : Host :=
  {| hasArg := fun c => Ascii.eqb c "D" || Ascii.eqb c "i";
     argument := fun c =>
       if Ascii.eqb c "D" then "out"
       else if Ascii.eqb c "i" then "../../etc/info"
       else EmptyString;
     basename := after_slash;
     mkdir := fun _ => true;
     remove := fun _ => true;
     rotating_logger_mt := fun _ => true |}.

Definition named_files : Files :=
  fun name =>
    if String.eqb name "out/" then Some (S_IFDIR + 493)
    else if String.eqb name "out/info" then Some (S_IFREG + 420)
    else if String.eqb name "../../etc/info" then Some (S_IFREG + 420)
    else None.

Definition check : Env :=
  Sample.env (("C"%char, EmptyString) :: ("R"%char, EmptyString)
              :: Sample.with_file)
    Sample.properties_file.

End SampleHost.

(** * Properties *)

(** ** The C library on the sample inputs *)

Example stoi_42 : stoi "42" = Returned 42.
Proof. reflexivity. Qed.

Example stoi_sign_and_tail : stoi " -17ms" = Returned (-17).
Proof. reflexivity. Qed.

Example stoi_abc : stoi "abc" = Threw invalid_argument.
Proof. reflexivity. Qed.

Example stoi_too_big : stoi "4294967296" = Threw out_of_range.
Proof. reflexivity. Qed.

Example strtoll_abc : strtoll "abc" = 0.
Proof. reflexivity. Qed.

Example strtoll_1024 : strtoll "1024" = 1024.
Proof. reflexivity. Qed.

(** ** Traces *)

Lemma produced_app (t u : list Event) :
  produced (t ++ u) = produced t ++ produced u.
Proof.
  induction t as [|e t IH]; [reflexivity|].
  destruct e; simpl; rewrite IH; reflexivity.
Qed.

Lemma decode_calls_app (t u : list Event) :
  decode_calls (t ++ u) = decode_calls t ++ decode_calls u.
Proof.
  induction t as [|e t IH]; [reflexivity|].
  destruct e; simpl; rewrite IH; reflexivity.
Qed.



(** ** The relay loop *)

Lemma relay_loop_stopped (polls : list Polled) (s : ASN1_Codec) :
  data_available s = false -> relay_loop polls s = Done tt s.
Proof. intros H. destruct polls; simpl; rewrite H; reflexivity. Qed.

Lemma relay_loop_step (msg : Polled) (polls : list Polled) (s : ASN1_Codec) :
  data_available s = true ->
  relay_loop (msg :: polls) s
  = relay_loop polls (deliver (interrupted msg) (snd (loop_body msg s))).
Proof. intros H. simpl. rewrite H. reflexivity. Qed.

(** The loop on a longer script goes on from where the shorter one left it. *)
Lemma relay_loop_app (pre polls : list Polled) (s : ASN1_Codec) :
  relay_loop (pre ++ polls) s
  = match relay_loop pre s with
    | Waiting s1 => relay_loop polls s1
    | Done u s1 => Done u s1
    end.
Proof.
  revert s. induction pre as [|msg pre IH]; intros s.
  - simpl. destruct (data_available s) eqn:H; [reflexivity|].
    apply relay_loop_stopped, H.
  - simpl. destruct (data_available s); [apply IH | reflexivity].
Qed.

Lemma relay_loop_waiting (polls : list Polled) (s s1 : ASN1_Codec) :
  relay_loop polls s = Waiting s1 -> data_available s1 = true.
Proof.
  revert s. induction polls as [|msg polls IH]; intros s; simpl.
  - destruct (data_available s) eqn:H; [|discriminate].
    intros [= <-]. exact H.
  - destruct (data_available s); [apply IH | discriminate].
Qed.

(** C10.  A polled message of length zero never reaches [msg_consume]:
    whatever its status, the body of the loop leaves the object as it was
    (no counter, not [eof_cnt], not [data_available], no call to the codec or
    to the producer) and the loop goes on to the next poll; a body that
    changed anything had a message of positive length. *)
Theorem zero_length_message_is_skipped (msg : Polled) (s : ASN1_Codec) :
  len msg = 0%N ->
  loop_body msg s = (0%N, s) /\
  (forall polls, data_available s = true ->
     relay_loop (msg :: polls) s = relay_loop polls (deliver (interrupted msg) s)).
Proof.
  intros Hlen.
  assert (Hbody : loop_body msg s = (0%N, s)).
  { unfold loop_body. rewrite Hlen. reflexivity. }
  split; [exact Hbody|].
  intros polls Hrun. rewrite relay_loop_step by exact Hrun.
  rewrite Hbody. reflexivity.
Qed.

Lemma zero_length_message_is_skipped_witness :
  loop_body (Sample.status ERR__PARTITION_EOF 0) ASN1_Codec_new
  = (0%N, ASN1_Codec_new).
Proof.
  apply (zero_length_message_is_skipped
           (Sample.status ERR__PARTITION_EOF 0) ASN1_Codec_new).
  reflexivity.
Defined.


(** What the body of the loop never touches. *)
Lemma loop_body_frame (msg : Polled) (s : ASN1_Codec) :
  let s' := snd (loop_body msg s) in
  exit_eof s' = exit_eof s /\ partition_cnt s' = partition_cnt s /\
  partition s' = partition s /\ consumed_topics s' = consumed_topics s.
Proof.
  unfold loop_body, msg_consume.
  repeat case_match; simplify_eq/=; auto.
Qed.

Lemma deliver_frame (signal : bool) (s : ASN1_Codec) :
  let s' := deliver signal s in
  exit_eof s' = exit_eof s /\ eof_cnt s' = eof_cnt s /\
  partition_cnt s' = partition_cnt s /\ first_block s' = first_block s /\
  trace s' = trace s /\ msg_send_count s' = msg_send_count s /\
  msg_send_bytes s' = msg_send_bytes s.
Proof. destruct signal; simpl; auto 10. Qed.

(** C7.  A message [msg_consume] takes up ([NO_ERROR], with a payload or
    not) whose decoding returns no structure, or whose structure [xer_buf]
    fails on, is dropped: [msg_send_count] and [msg_send_bytes] keep their
    values, no buffer is handed to [produce], [data_available] is not
    touched, and the loop goes on with the next poll. *)
Theorem failed_message_is_dropped (msg : Polled) (s : ASN1_Codec) :
  err msg = ERR_NO_ERROR ->
  (data_decode_from_buffer msg (first_block s) = None \/
   exists structure,
     data_decode_from_buffer msg (first_block s) = Some structure /\
     fst (xer_buf msg structure) <> 0) ->
  let s' := snd (loop_body msg s) in
  msg_send_count s' = msg_send_count s /\
  msg_send_bytes s' = msg_send_bytes s /\
  produced (trace s') = produced (trace s) /\
  data_available s' = data_available s /\
  (forall polls, data_available s = true ->
     relay_loop (msg :: polls) s
     = relay_loop polls (deliver (interrupted msg) s')).
Proof.
  intros Herr Hfail s'.
  assert (Hloop : forall polls, data_available s = true ->
     relay_loop (msg :: polls) s
     = relay_loop polls (deliver (interrupted msg) s')).
  { intros polls Hrun. apply relay_loop_step, Hrun. }
  subst s'. revert Hloop. unfold loop_body, msg_consume. rewrite Herr.
  destruct (0 <? len msg)%N; [|intros; simpl; auto].
  simpl. destruct Hfail as [Hnone | (structure & Hsome & Hrc)].
  - rewrite Hnone. simpl. rewrite produced_app, app_nil_r. auto.
  - rewrite Hsome. destruct (xer_buf msg structure) as [rc size] eqn:Hxer.
    simpl in Hrc. apply Z.eqb_neq in Hrc. rewrite Hrc. simpl.
    rewrite !produced_app. simpl. rewrite !app_nil_r. auto.
Qed.

Lemma failed_message_is_dropped_witness :
  let msg := Sample.unencodable 12 in
  let s' := snd (loop_body msg ASN1_Codec_new) in
  msg_send_count s' = 0 /\ msg_send_bytes s' = 0 /\
  produced (trace s') = [] /\ data_available s' = true /\
  (forall polls, data_available ASN1_Codec_new = true ->
     relay_loop (msg :: polls) ASN1_Codec_new
     = relay_loop polls (deliver (interrupted msg) s')).
Proof.
  apply (failed_message_is_dropped (Sample.unencodable 12) ASN1_Codec_new).
  - reflexivity.
  - right. exists 7%N. split; [reflexivity|]. simpl. discriminate.
Defined.

(** ** End-of-partition accounting *)

Lemma eof_statuses_nonneg (polls : list Polled) : 0 <= eof_statuses polls.
Proof.
  induction polls as [|msg polls IH]; simpl; [lia|].
  destruct (is_partition_eof msg); lia.
Qed.

(** One turn of the loop: [eof_cnt] moves by one on a counted
    [PARTITION_EOF] when [exit_eof] is set, and not otherwise. *)
Lemma loop_body_eof_cnt (msg : Polled) (s : ASN1_Codec) :
  eof_cnt (snd (loop_body msg s))
  = eof_cnt s + (if counted_eof msg && exit_eof s then 1 else 0).
Proof.
  unfold loop_body, msg_consume, counted_eof, is_partition_eof.
  repeat case_match; simplify_eq/=; lia.
Qed.

(** The line "EOF reached for all partitions" is logged only by a
    [PARTITION_EOF] that brings the count to [partition_cnt]. *)
Lemma loop_body_eof_log (msg : Polled) (s : ASN1_Codec) :
  In eof_all_partitions (trace (snd (loop_body msg s))) ->
  In eof_all_partitions (trace s) \/
  (is_partition_eof msg = true /\ eof_cnt s + 1 = partition_cnt s).
Proof.
  unfold loop_body, msg_consume, is_partition_eof.
  repeat case_match; simplify_eq/=; rewrite ?in_app_iff; simpl;
    intros Hin; try (right; split; [reflexivity | lia]);
    repeat (destruct Hin as [Hin | Hin]);
    try discriminate; try contradiction; auto.
Qed.

Lemma loop_body_eof_step (msg : Polled) (s : ASN1_Codec) :
  exit_eof s = true -> err msg = ERR__PARTITION_EOF -> (0 < len msg)%N ->
  let s' := snd (loop_body msg s) in
  eof_cnt s' = eof_cnt s + 1 /\
  data_available s'
  = (if eof_cnt s' =? partition_cnt s then false else data_available s).
Proof.
  intros Hx Herr Hlen s'. subst s'. apply N.ltb_lt in Hlen.
  unfold loop_body, msg_consume. rewrite Hlen, Herr, Hx. simpl.
  destruct (eof_cnt s + 1 =? partition_cnt s) eqn:Hall; simpl;
    rewrite ?Hall; auto.
Qed.

(** A turn on a message of an ordinary status keeps the loop running unless
    the end-of-partition count is reached. *)
Lemma loop_body_keeps_running (msg : Polled) (s : ASN1_Codec) :
  data_available s = true ->
  (err msg = ERR_NO_ERROR \/ err msg = ERR__TIMED_OUT \/
   (err msg = ERR__PARTITION_EOF /\ eof_cnt s + 1 <> partition_cnt s)) ->
  data_available (snd (loop_body msg s)) = true.
Proof.
  intros Hrun Herr.
  unfold loop_body, msg_consume.
  destruct Herr as [H | [H | [H Hcnt]]]; rewrite H;
    repeat case_match; simplify_eq/=; auto.
  apply Z.eqb_neq in Hcnt. congruence.
Qed.

Lemma relay_loop_below_partition_cnt (polls : list Polled) (s : ASN1_Codec) :
  eof_cnt s + eof_statuses polls < partition_cnt s ->
  ~ In eof_all_partitions (trace s) ->
  ~ In eof_all_partitions (trace (run_state (relay_loop polls s))).
Proof.
  revert s. induction polls as [|msg polls IH]; intros s Hlt Hnot; simpl.
  - destruct (data_available s); exact Hnot.
  - destruct (data_available s); [|exact Hnot].
    pose proof (eof_statuses_nonneg polls) as Hpos.
    pose proof (loop_body_eof_cnt msg s) as Hcnt.
    destruct (loop_body_frame msg s) as (_ & Hpc & _).
    destruct (deliver_frame (interrupted msg) (snd (loop_body msg s)))
      as (_ & Hd_cnt & Hd_pc & _ & Hd_tr & _).
    simpl in Hlt. apply IH.
    + rewrite Hd_cnt, Hd_pc, Hcnt, Hpc. unfold counted_eof.
      destruct (is_partition_eof msg), (0 <? len msg)%N, (exit_eof s);
        simpl; lia.
    + rewrite Hd_tr. intros Hin.
      destruct (loop_body_eof_log msg s Hin) as [H | [Heof H]].
      * exact (Hnot H).
      * rewrite Heof in Hlt. lia.
Qed.

Lemma relay_loop_never_ends_below (polls : list Polled) (s : ASN1_Codec) :
  eof_cnt s + eof_statuses polls < partition_cnt s ->
  data_available s = true ->
  Forall (fun msg => interrupted msg = false /\
                     (err msg = ERR_NO_ERROR \/ err msg = ERR__TIMED_OUT \/
                      err msg = ERR__PARTITION_EOF)) polls ->
  exists s', relay_loop polls s = Waiting s'.
Proof.
  revert s. induction polls as [|msg polls IH]; intros s Hlt Hrun Hall; simpl.
  - rewrite Hrun. eauto.
  - rewrite Hrun. inversion Hall as [|? ? [Hsig Herr] Hrest]; subst.
    rewrite Hsig. simpl.
    pose proof (eof_statuses_nonneg polls) as Hpos.
    pose proof (loop_body_eof_cnt msg s) as Hcnt.
    destruct (loop_body_frame msg s) as (_ & Hpc & _).
    simpl in Hlt. apply IH; [| |exact Hrest].
    + rewrite Hcnt, Hpc. unfold counted_eof.
      destruct (is_partition_eof msg), (0 <? len msg)%N, (exit_eof s);
        simpl; lia.
    + apply loop_body_keeps_running; [exact Hrun |].
      destruct Herr as [H | [H | H]]; auto.
      right. right. split; [exact H|].
      unfold is_partition_eof in Hlt. rewrite H in Hlt. lia.
Qed.

Lemma relay_loop_frame (polls : list Polled) (s : ASN1_Codec) :
  let s' := run_state (relay_loop polls s) in
  exit_eof s' = exit_eof s /\ partition_cnt s' = partition_cnt s.
Proof.
  revert s. induction polls as [|msg polls IH]; intros s; simpl.
  - destruct (data_available s); simpl; auto.
  - destruct (data_available s); simpl; auto.
    destruct (IH (deliver (interrupted msg) (snd (loop_body msg s)))) as [Hx Hp].
    destruct (deliver_frame (interrupted msg) (snd (loop_body msg s)))
      as (Hdx & _ & Hdp & _).
    destruct (loop_body_frame msg s) as (Hbx & Hbp & _).
    simpl in *. split; congruence.
Qed.

(** Messages that are no counted [PARTITION_EOF] leave [eof_cnt] alone. *)
Lemma relay_loop_uncounted (pre : list Polled) (s : ASN1_Codec) :
  forallb (fun msg => negb (counted_eof msg)) pre = true ->
  eof_cnt (run_state (relay_loop pre s)) = eof_cnt s.
Proof.
  revert s. induction pre as [|msg pre IH]; intros s Hpre; simpl.
  - destruct (data_available s); reflexivity.
  - destruct (data_available s); [|reflexivity].
    simpl in Hpre. apply andb_prop in Hpre as [Hmsg Hpre].
    rewrite IH by exact Hpre.
    destruct (deliver_frame (interrupted msg) (snd (loop_body msg s)))
      as (_ & Hd & _).
    simpl in Hd. rewrite Hd, loop_body_eof_cnt.
    apply negb_true_iff in Hmsg. rewrite Hmsg. simpl. lia.
Qed.

(** With one partition the first counted [PARTITION_EOF] ends the loop. *)
Lemma first_counted_eof_ends_loop
  (pre : list Polled) (msg : Polled) (rest : list Polled) (s s1 : ASN1_Codec) :
  exit_eof s = true -> partition_cnt s = 1 -> eof_cnt s = 0 ->
  forallb (fun m => negb (counted_eof m)) pre = true ->
  relay_loop pre s = Waiting s1 ->
  counted_eof msg = true ->
  exists s', relay_loop (pre ++ msg :: rest) s = Done tt s' /\
             eof_cnt s' = 1 /\ data_available s' = false.
Proof.
  intros Hx Hp Hc Hpre Hwait Hmsg.
  pose proof (relay_loop_uncounted pre s Hpre) as Hc1.
  destruct (relay_loop_frame pre s) as [Hx1 Hp1].
  rewrite Hwait in Hc1, Hx1, Hp1. simpl in Hc1, Hx1, Hp1.
  pose proof (relay_loop_waiting pre s s1 Hwait) as Hrun.
  unfold counted_eof, is_partition_eof in Hmsg.
  apply andb_prop in Hmsg as [Herr Hlen].
  assert (Heof : err msg = ERR__PARTITION_EOF)
    by (destruct (err msg); try discriminate; reflexivity).
  apply N.ltb_lt in Hlen.
  destruct (loop_body_eof_step msg s1) as [Hcnt Hda]; [congruence | exact Heof | exact Hlen |].
  destruct (deliver_frame (interrupted msg) (snd (loop_body msg s1)))
    as (_ & Hd & _).
  assert (Hstop : data_available
                    (deliver (interrupted msg) (snd (loop_body msg s1))) = false).
  { assert (H : data_available (snd (loop_body msg s1)) = false).
    { rewrite Hda, Hcnt, Hc1, Hc, Hp1, Hp. reflexivity. }
    destruct (interrupted msg); simpl; [reflexivity | exact H]. }
  exists (deliver (interrupted msg) (snd (loop_body msg s1))).
  rewrite relay_loop_app, Hwait, relay_loop_step by exact Hrun.
  rewrite relay_loop_stopped by exact Hstop.
  split; [reflexivity|]. split; [|exact Hstop].
  simpl in Hd. rewrite Hd, Hcnt, Hc1, Hc. reflexivity.
Qed.

(** C2, as the code has it.  With [exit_eof] set, each [PARTITION_EOF] that
    comes with a message of positive length adds one to [eof_cnt], and
    handling it clears [data_available] exactly when the new count equals
    [partition_cnt]; a sequence of polls with fewer [PARTITION_EOF]
    statuses than [partition_cnt] still lacks never logs the end of all
    partitions, and never ends the loop when nothing else does (no signal,
    no broker error); with [partition_cnt = 1] and the count at zero, the
    loop ends right after the first such [PARTITION_EOF], with
    [eof_cnt = 1], and polls nothing after it. *)
Theorem eof_accounting (s : ASN1_Codec) :
  exit_eof s = true ->
  (forall msg,
     err msg = ERR__PARTITION_EOF -> (0 < len msg)%N ->
     let s' := snd (loop_body msg s) in
     eof_cnt s' = eof_cnt s + 1 /\
     data_available s'
     = (if eof_cnt s' =? partition_cnt s then false else data_available s)) /\
  (forall polls,
     eof_cnt s + eof_statuses polls < partition_cnt s ->
     (~ In eof_all_partitions (trace s) ->
      ~ In eof_all_partitions (trace (run_state (relay_loop polls s)))) /\
     (data_available s = true ->
      Forall (fun msg => interrupted msg = false /\
                (err msg = ERR_NO_ERROR \/ err msg = ERR__TIMED_OUT \/
                 err msg = ERR__PARTITION_EOF)) polls ->
      exists s', relay_loop polls s = Waiting s')) /\
  (forall pre msg rest s1,
     partition_cnt s = 1 -> eof_cnt s = 0 ->
     forallb (fun m => negb (counted_eof m)) pre = true ->
     relay_loop pre s = Waiting s1 ->
     counted_eof msg = true ->
     exists s', relay_loop (pre ++ msg :: rest) s = Done tt s' /\
                eof_cnt s' = 1 /\ data_available s' = false).
Proof.
  intros Hx. split; [|split].
  - intros msg Herr Hlen. apply loop_body_eof_step; assumption.
  - intros polls Hlt. split.
    + apply relay_loop_below_partition_cnt, Hlt.
    + intros Hrun Hall. apply relay_loop_never_ends_below; assumption.
  - intros pre msg rest s1 Hp Hc Hpre Hwait Hmsg.
    apply (first_counted_eof_ends_loop pre msg rest s s1); assumption.
Qed.

Lemma eof_accounting_witness :
  exists s',
    relay_loop ([Sample.good 10; Sample.status ERR__PARTITION_EOF 0]
                ++ Sample.status ERR__PARTITION_EOF 24
                   :: [Sample.status ERR__PARTITION_EOF 24])
      ASN1_Codec_new = Done tt s' /\
    eof_cnt s' = 1 /\ data_available s' = false.
Proof.
  destruct (eof_accounting ASN1_Codec_new eq_refl) as (_ & _ & Hfirst).
  apply (Hfirst [Sample.good 10; Sample.status ERR__PARTITION_EOF 0]
           (Sample.status ERR__PARTITION_EOF 24)
           [Sample.status ERR__PARTITION_EOF 24]
           (run_state (relay_loop
              [Sample.good 10; Sample.status ERR__PARTITION_EOF 0]
              ASN1_Codec_new)));
    vm_compute; reflexivity.
Defined.

(** C2 as it was stated fails: a [PARTITION_EOF] whose message has length
    zero is not counted, and with [partition_cnt = 1] the loop is still
    running after it, [eof_cnt] at zero. *)
Lemma zero_length_eof_is_not_counted :
  ~ (forall msg s,
       exit_eof s = true -> err msg = ERR__PARTITION_EOF ->
       eof_cnt (snd (loop_body msg s)) = eof_cnt s + 1) /\
  partition_cnt ASN1_Codec_new = 1 /\
  relay_loop [Sample.status ERR__PARTITION_EOF 0] ASN1_Codec_new
  = Waiting ASN1_Codec_new.
Proof.
  split; [|split; reflexivity].
  intros H.
  specialize (H (Sample.status ERR__PARTITION_EOF 0) ASN1_Codec_new
                eq_refl eq_refl).
  discriminate H.
Qed.

(** ** The first-block flag *)

Lemma snoc_eq_middle {A : Type} (l before after : list A) (x y : A) :
  l ++ [x] = before ++ y :: after ->
  (after = [] /\ before = l /\ y = x) \/
  (exists after', after = after' ++ [x] /\ l = before ++ y :: after').
Proof.
  destruct after as [|z after' _] using rev_ind; intros H.
  - apply app_inj_tail in H as [-> ->]. left. auto.
  - right. exists after'.
    change (l ++ [x] = before ++ (y :: after') ++ [z]) in H.
    rewrite app_assoc in H. apply app_inj_tail in H as [-> ->]. auto.
Qed.

Lemma first_block_rule_nil : first_block_rule [].
Proof. intros [|? ?] ? ? ? H; discriminate H. Qed.

Lemma first_block_rule_snoc (calls : list (bool * bool)) (flag ok : bool) :
  first_block_rule calls ->
  flag = negb (existsb snd calls) ->
  first_block_rule (calls ++ [(flag, ok)]).
Proof.
  intros Hrule Hflag before flag' ok' after Heq.
  apply snoc_eq_middle in Heq as [(_ & -> & [= -> ->]) | (after' & _ & ->)].
  - exact Hflag.
  - exact (Hrule before flag' ok' after' eq_refl).
Qed.

Lemma loop_body_first_block (msg : Polled) (s : ASN1_Codec) :
  flag_tracks_trace s -> flag_tracks_trace (snd (loop_body msg s)).
Proof.
  intros [Hflag Hrule]. unfold flag_tracks_trace, loop_body, msg_consume.
  repeat case_match; simplify_eq/=;
    rewrite ?decode_calls_app; simpl; rewrite ?app_nil_r;
    rewrite ?existsb_app; simpl; rewrite ?orb_false_r, ?orb_true_r;
    (split; [auto | try apply first_block_rule_snoc; auto]).
Qed.

Lemma relay_loop_first_block (polls : list Polled) (s : ASN1_Codec) :
  flag_tracks_trace s -> flag_tracks_trace (run_state (relay_loop polls s)).
Proof.
  revert s. induction polls as [|msg polls IH]; intros s Hs; simpl.
  - destruct (data_available s); exact Hs.
  - destruct (data_available s); [|exact Hs].
    apply IH. apply (loop_body_first_block msg) in Hs.
    destruct (interrupted msg); exact Hs.
Qed.

(** A decoding that returns no structure leaves the flag as it is. *)
Lemma decode_failure_keeps_first_block (msg : Polled) (s : ASN1_Codec) :
  data_decode_from_buffer msg (first_block s) = None ->
  first_block (snd (loop_body msg s)) = first_block s.
Proof.
  intros Hnone. unfold loop_body, msg_consume.
  repeat case_match; simplify_eq/=; congruence.
Qed.

(** C3, as the code has it.  From a fresh process ([first_block] true, the
    decoder not yet called), however the polls go, the decoder is invoked
    with [first_block = true] for every invocation up to and including the
    first one that returns a structure, and with [false] for every later
    one; a decoding that returns no structure does not clear the flag. *)
Theorem first_block_until_first_success (polls : list Polled) (s : ASN1_Codec) :
  first_block s = true ->
  decode_calls (trace s) = [] ->
  first_block_rule (decode_calls (trace (run_state (relay_loop polls s)))) /\
  (forall msg st,
     data_decode_from_buffer msg (first_block st) = None ->
     first_block (snd (loop_body msg st)) = first_block st).
Proof.
  intros Hflag Hfresh. split.
  - apply relay_loop_first_block. split.
    + rewrite Hfresh, Hflag. reflexivity.
    + rewrite Hfresh. apply first_block_rule_nil.
  - intros msg st. apply decode_failure_keeps_first_block.
Qed.

Lemma first_block_until_first_success_witness :
  first_block_rule
    (decode_calls (trace (run_state
       (relay_loop [Sample.undecodable 9; Sample.good 9; Sample.good 9]
          ASN1_Codec_new)))) /\
  (forall msg st,
     data_decode_from_buffer msg (first_block st) = None ->
     first_block (snd (loop_body msg st)) = first_block st).
Proof.
  apply (first_block_until_first_success
           [Sample.undecodable 9; Sample.good 9; Sample.good 9]
           ASN1_Codec_new); reflexivity.
Defined.

(** C3 as it was stated fails: after a decoding that returned no structure
    the next invocation has [first_block = true] again. *)
Lemma first_block_true_twice :
  ~ (forall polls,
       true_once (map fst (decode_calls (trace (run_state
                    (relay_loop polls ASN1_Codec_new)))))).
Proof.
  intros H. specialize (H [Sample.undecodable 9; Sample.good 9]).
  assert (Hflags :
    map fst (decode_calls (trace (run_state
      (relay_loop [Sample.undecodable 9; Sample.good 9] ASN1_Codec_new))))
    = [true; true]) by (vm_compute; reflexivity).
  rewrite Hflags in H. destruct H as [_ H]. inversion H. discriminate.
Qed.

(** ** Waiting for the topics *)

Lemma scan_topics_found (topic : string) (names : list string) :
  scan_topics topic names true = true.
Proof. destruct names; reflexivity. Qed.

(** [topic_available] answers true exactly when the reply came without
    error and lists the very name. *)
Lemma topic_available_iff (topic : string) (reply : Probe) :
  topic_available topic reply = true <->
  md_err reply = ERR_NO_ERROR /\ In topic (md_topics reply).
Proof.
  unfold topic_available.
  assert (Hscan : forall names,
            scan_topics topic names false = true <-> In topic names).
  { induction names as [|name names IH]; simpl.
    - split; [discriminate | contradiction].
    - destruct (String.eqb name topic) eqn:Heq.
      + apply String.eqb_eq in Heq. rewrite scan_topics_found. tauto.
      + apply String.eqb_neq in Heq. rewrite IH. tauto. }
  destruct (md_err reply); rewrite ?Hscan;
    try tauto; split; try discriminate; intros [H _]; discriminate H.
Qed.















(** ** configure, block by block *)

Lemma conf_entry_store (name key value : string) (s : ASN1_Codec) :
  conf_entry name (set_conf (Conf_store key value (conf s)) s)
  = if decide (key = name) then Some value else conf_entry name s.
Proof. unfold conf_entry. simpl. apply lookup_insert. Qed.

Ltac block_cases :=
  repeat case_match; simplify_eq/=;
  unfold overridable, cli_conf; simpl;
  rewrite ?conf_entry_store; simpl;
  repeat case_match; simplify_eq/=; auto.

Lemma override_broker_spec (E : Env) (s : ASN1_Codec) :
  match override_broker E s with
  | Next s' =>
      pconf s' = pconf s /\
      overridable s'
      = (cli_conf E "b" "metadata.broker.list"
           (conf_entry "metadata.broker.list" s),
         partition s, conf_entry "group.id" s, offset s, exit_eof s,
         conf_entry "debug" s)
  | Stop _ => False
  end.
Proof. unfold override_broker. block_cases. Qed.

Lemma resolve_partition_spec (E : Env) (s : ASN1_Codec) :
  match resolve_partition E s with
  | Next s' =>
      pconf s' = pconf s /\
      (if optIsSet E "p" then optInt E "p" else file_partition s)
      = Returned (partition s') /\
      overridable s'
      = (conf_entry "metadata.broker.list" s, partition s',
         conf_entry "group.id" s, offset s, exit_eof s, conf_entry "debug" s)
  | Stop x =>
      exists e, x = Throw e s /\
                (if optIsSet E "p" then optInt E "p" else file_partition s)
                = Threw e
  end.
Proof.
  unfold resolve_partition, file_partition. block_cases; eauto.
Qed.

Lemma override_group_spec (E : Env) (s : ASN1_Codec) :
  match override_group E s with
  | Next s' =>
      pconf s' = pconf s /\
      overridable s'
      = (conf_entry "metadata.broker.list" s, partition s,
         (if optIsSet E "g" then Some (optString E "g")
          else conf_entry "group.id" s),
         offset s, exit_eof s, conf_entry "debug" s)
  | Stop x => x = Return false s
  end.
Proof. unfold override_group. block_cases. Qed.

Lemma override_offset_spec (E : Env) (s : ASN1_Codec) :
  match override_offset E s with
  | Next s' =>
      pconf s' = pconf s /\
      overridable s'
      = (conf_entry "metadata.broker.list" s, partition s,
         conf_entry "group.id" s,
         (if optIsSet E "o" then cli_offset (optString E "o") else offset s),
         exit_eof s, conf_entry "debug" s)
  | Stop _ => False
  end.
Proof. unfold override_offset, cli_offset. block_cases. Qed.

Lemma override_exit_eof_spec (E : Env) (s : ASN1_Codec) :
  match override_exit_eof E s with
  | Next s' =>
      pconf s' = pconf s /\
      overridable s'
      = (conf_entry "metadata.broker.list" s, partition s,
         conf_entry "group.id" s, offset s, optIsSet E "x",
         conf_entry "debug" s)
  | Stop _ => False
  end.
Proof. unfold override_exit_eof. block_cases. Qed.

Lemma override_debug_spec (E : Env) (s : ASN1_Codec) :
  match override_debug E s with
  | Next s' =>
      pconf s' = pconf s /\
      overridable s'
      = (conf_entry "metadata.broker.list" s, partition s,
         conf_entry "group.id" s, offset s, exit_eof s,
         (if optIsSet E "d" then Some (optString E "d")
          else conf_entry "debug" s))
  | Stop x => x = Return false s
  end.
Proof. unfold override_debug. block_cases. Qed.

Lemma install_topic_conf_spec (s : ASN1_Codec) :
  match install_topic_conf s with
  | Next s' => pconf s' = pconf s /\ overridable s' = overridable s
  | Stop _ => False
  end.
Proof. unfold install_topic_conf. block_cases. Qed.

Lemma resolve_consumer_topic_spec (s : ASN1_Codec) :
  match resolve_consumer_topic s with
  | Next s' =>
      pconf s' = pconf s /\ overridable s' = overridable s /\
      holds (pconf s) "asn1.j2735.topic.consumer" = true
  | Stop x =>
      x = Return false s /\
      holds (pconf s) "asn1.j2735.topic.consumer" = false
  end.
Proof. unfold resolve_consumer_topic, holds. block_cases. Qed.

Lemma resolve_producer_topic_spec (E : Env) (s : ASN1_Codec) :
  match resolve_producer_topic E s with
  | Next s' =>
      pconf s' = pconf s /\ overridable s' = overridable s /\
      optIsSet E "t" || holds (pconf s) "asn1.j2735.topic.producer" = true
  | Stop x =>
      x = Return false s /\
      optIsSet E "t" || holds (pconf s) "asn1.j2735.topic.producer" = false
  end.
Proof. unfold resolve_producer_topic, holds. block_cases. Qed.

Lemma resolve_timeout_spec (s : ASN1_Codec) :
  match resolve_timeout s with
  | Next s' => pconf s' = pconf s /\ overridable s' = overridable s
  | Stop _ => False
  end.
Proof. unfold resolve_timeout. block_cases. Qed.

Lemma ingest_file_stop (E : Env) (s : ASN1_Codec) (x : ending) :
  ingest_file E s = Stop x -> x = Return false s.
Proof. unfold ingest_file. intros H. repeat case_match; simplify_eq; auto. Qed.

Lemma file_partition_ext (s s' : ASN1_Codec) :
  pconf s' = pconf s -> partition s' = partition s ->
  file_partition s' = file_partition s.
Proof. unfold file_partition. intros -> ->. reflexivity. Qed.

Lemma sequence_cons (b : ASN1_Codec -> flow)
  (rest : list (ASN1_Codec -> flow)) (s : ASN1_Codec) :
  sequence (b :: rest) s
  = match b s with
    | Next s' => sequence rest s'
    | Stop x => x
    end.
Proof. reflexivity. Qed.

(** [configure] opens no session: it makes no call on the broker and
    leaves the three handles alone. *)
Lemma sequence_preserves {A : Type} (f : ASN1_Codec -> A)
  (blocks : list (ASN1_Codec -> flow)) (s : ASN1_Codec) :
  Forall (fun b => forall u,
            f (match b u with Next u' => u' | Stop x => ending_state x end)
            = f u) blocks ->
  f (ending_state (sequence blocks s)) = f s.
Proof.
  intros Hall. revert s. induction Hall as [|b blocks Hb _ IH]; intros s.
  - reflexivity.
  - simpl. specialize (Hb s). destruct (b s) as [s'|x].
    + rewrite IH. exact Hb.
    + exact Hb.
Qed.

Lemma configure_opens_no_session (E : Env) (s : ASN1_Codec) :
  let s' := ending_state (configure E s) in
  trace s' = trace s /\ consumer_ptr s' = consumer_ptr s /\
  producer_ptr s' = producer_ptr s /\
  published_topic_ptr s' = published_topic_ptr s.
Proof.
  set (f := fun u => (trace u, consumer_ptr u, producer_ptr u,
                      published_topic_ptr u)).
  assert (Hpair : forall key value u, f (ingest_pair E key value u) = f u).
  { intros key value u. unfold ingest_pair. repeat case_match; reflexivity. }
  assert (Hlines : forall lines u, f (fold_left (ingest_line E) lines u) = f u).
  { induction lines as [|raw lines IH]; intros u; simpl; [reflexivity|].
    rewrite IH. unfold ingest_line. repeat case_match; auto. }
  assert (H : f (ending_state (configure E s)) = f s).
  { apply sequence_preserves. unfold after_file.
    repeat (apply List.Forall_cons; [intros u|]); [..|apply List.Forall_nil].
    - reflexivity.
    - unfold ingest_file. repeat case_match; simplify_eq/=; auto.
    - unfold override_broker. repeat case_match; simplify_eq/=; auto.
    - unfold resolve_partition. repeat case_match; simplify_eq/=; auto.
    - unfold override_group. repeat case_match; simplify_eq/=; auto.
    - unfold override_offset. repeat case_match; simplify_eq/=; auto.
    - reflexivity.
    - unfold override_debug. repeat case_match; simplify_eq/=; auto.
    - reflexivity.
    - unfold resolve_consumer_topic. repeat case_match; simplify_eq/=; auto.
    - unfold resolve_producer_topic. repeat case_match; simplify_eq/=; auto.
    - unfold resolve_timeout. repeat case_match; simplify_eq/=; auto. }
  unfold f in H. simpl. injection H. auto.
Qed.

(** How [configure] ends, in terms of the state the file left. *)
Lemma configure_cases (E : Env) (s : ASN1_Codec) :
  match configure E s with
  | Return true s' =>
      exists s1,
        file_derived E s = Some s1 /\
        overridable s'
        = (cli_conf E "b" "metadata.broker.list"
             (conf_entry "metadata.broker.list" s1),
           partition s',
           (if optIsSet E "g" then Some (optString E "g")
            else conf_entry "group.id" s1),
           (if optIsSet E "o" then cli_offset (optString E "o")
            else offset s1),
           optIsSet E "x",
           (if optIsSet E "d" then Some (optString E "d")
            else conf_entry "debug" s1)) /\
        (if optIsSet E "p" then optInt E "p" else file_partition s1)
        = Returned (partition s') /\
        consumer_topic_resolves E s = true /\
        producer_topic_resolves E s = true
  | Return false _ => True
  | Throw e _ =>
      exists s1,
        file_derived E s = Some s1 /\
        (if optIsSet E "p" then optInt E "p" else file_partition s1) = Threw e
  end.
Proof.
  unfold configure, after_file, consumer_topic_resolves,
    producer_topic_resolves.
  rewrite sequence_cons.
  change (create_confs s)
    with (Next (set_tconf Conf_create (set_conf Conf_create s))).
  cbv iota.
  assert (Hfd : file_derived E s
                = match ingest_file E (set_tconf Conf_create
                                         (set_conf Conf_create s)) with
                  | Next s1 => Some s1
                  | Stop _ => None
                  end) by reflexivity.
  rewrite Hfd. clear Hfd.
  set (s0 := set_tconf Conf_create (set_conf Conf_create s)).
  rewrite sequence_cons.
  destruct (ingest_file E s0) as [s1|x] eqn:Hfile.
  2:{ apply ingest_file_stop in Hfile. subst x. exact I. }
  rewrite sequence_cons.
  pose proof (override_broker_spec E s1) as H2.
  destruct (override_broker E s1) as [s2|x]; [|contradiction].
  destruct H2 as [Hp2 Ho2].
  rewrite sequence_cons.
  pose proof (resolve_partition_spec E s2) as H3.
  assert (Hfp : file_partition s2 = file_partition s1).
  { apply file_partition_ext; [exact Hp2|].
    unfold overridable in Ho2. congruence. }
  rewrite Hfp in H3.
  destruct (resolve_partition E s2) as [s3|x].
  2:{ destruct H3 as (e & -> & He). exists s1. split; [reflexivity | exact He]. }
  destruct H3 as (Hp3 & Hpart & Ho3).
  rewrite sequence_cons.
  pose proof (override_group_spec E s3) as H4.
  destruct (override_group E s3) as [s4|x]; [|subst x; exact I].
  destruct H4 as [Hp4 Ho4].
  rewrite sequence_cons.
  pose proof (override_offset_spec E s4) as H5.
  destruct (override_offset E s4) as [s5|x]; [|contradiction].
  destruct H5 as [Hp5 Ho5].
  rewrite sequence_cons.
  pose proof (override_exit_eof_spec E s5) as H6.
  destruct (override_exit_eof E s5) as [s6|x]; [|contradiction].
  destruct H6 as [Hp6 Ho6].
  rewrite sequence_cons.
  pose proof (override_debug_spec E s6) as H7.
  destruct (override_debug E s6) as [s7|x]; [|subst x; exact I].
  destruct H7 as [Hp7 Ho7].
  rewrite sequence_cons.
  pose proof (install_topic_conf_spec s7) as H8.
  destruct (install_topic_conf s7) as [s8|x]; [|contradiction].
  destruct H8 as [Hp8 Ho8].
  rewrite sequence_cons.
  pose proof (resolve_consumer_topic_spec s8) as H9.
  destruct (resolve_consumer_topic s8) as [s9|x];
    [|destruct H9 as [-> _]; exact I].
  destruct H9 as (Hp9 & Ho9 & Hc9).
  rewrite sequence_cons.
  pose proof (resolve_producer_topic_spec E s9) as H10.
  destruct (resolve_producer_topic E s9) as [s10|x];
    [|destruct H10 as [-> _]; exact I].
  destruct H10 as (Hp10 & Ho10 & Hc10).
  rewrite sequence_cons.
  pose proof (resolve_timeout_spec s10) as H11.
  destruct (resolve_timeout s10) as [s11|x]; [|contradiction].
  destruct H11 as [Hp11 Ho11].
  assert (Hpc : pconf s1 = pconf s8) by congruence.
  assert (Hpp : pconf s1 = pconf s9) by congruence.
  simpl. exists s1. split; [reflexivity|].
  rewrite <- Hpc in Hc9. rewrite <- Hpp in Hc10.
  split; [|split; [|split; assumption]].
  - unfold overridable in *. simplify_eq.
    destruct (optIsSet E "g"), (optIsSet E "o"), (optIsSet E "d");
      congruence.
  - unfold overridable in *. simplify_eq. congruence.
Qed.

(** ** Settings of the file *)

(** C6, as the code has it.  A well-formed line (not empty, not a comment,
    two pieces around [=]) has its stripped key and value offered to the topic
    configuration first, then to the global one, each on its own; it is
    stored in every one of the two that takes it, and in [pconf] exactly
    when both reject it.  So the pair ends up in at least one of the three
    places, and in two of them when both configurations take it. *)
Theorem setting_goes_where_it_is_taken
  (E : Env) (s : ASN1_Codec) (raw p0 p1 : string) :
  is_setting (strip E raw) = true ->
  split E (strip E raw) "=" = [p0; p1] ->
  let key := strip E p0 in
  let value := strip E p1 in
  let taken_t := conf_ok (Conf_set E CONF_TOPIC key value) in
  let taken_g := conf_ok (Conf_set E CONF_GLOBAL key value) in
  let s' := ingest_line E s raw in
  tconf s' = (if taken_t then Conf_store key value (tconf s) else tconf s) /\
  conf s' = (if taken_g then Conf_store key value (conf s) else conf s) /\
  pconf s' = (if taken_t || taken_g then pconf s
              else <[key := value]> (pconf s)) /\
  (properties (tconf s') !! key = Some value \/
   properties (conf s') !! key = Some value \/
   pconf s' !! key = Some value).
Proof.
  intros Hline Hsplit key value taken_t taken_g s'.
  subst s'. unfold ingest_line. rewrite Hline, Hsplit.
  fold key value. unfold ingest_pair. fold taken_t taken_g.
  destruct taken_t, taken_g; simpl;
    (split; [reflexivity|]); (split; [reflexivity|]);
    (split; [reflexivity|]).
  - left. apply lookup_insert_eq.
  - left. apply lookup_insert_eq.
  - right. left. apply lookup_insert_eq.
  - right. right. apply lookup_insert_eq.
Qed.

Lemma setting_goes_where_it_is_taken_witness :
  let E := Sample.env [] [] in
  let s' := ingest_line E ASN1_Codec_new " asn1.j2735.topic.consumer = raw " in
  tconf s' = Conf_create /\ conf s' = Conf_create /\
  pconf s' = <["asn1.j2735.topic.consumer" := "raw"]> ∅ /\
  (properties (tconf s') !! "asn1.j2735.topic.consumer" = Some "raw" \/
   properties (conf s') !! "asn1.j2735.topic.consumer" = Some "raw" \/
   pconf s' !! "asn1.j2735.topic.consumer" = Some "raw").
Proof.
  apply (setting_goes_where_it_is_taken (Sample.env [] []) ASN1_Codec_new
           " asn1.j2735.topic.consumer = raw "
           "asn1.j2735.topic.consumer " " raw");
    reflexivity.
Defined.

(** C6 as it was stated fails: a key that both configurations take is
    stored in both, so it is not in exactly one place. *)
Lemma setting_in_two_domains :
  ~ (forall E raw p0 p1,
       is_setting (strip E raw) = true ->
       split E (strip E raw) "=" = [p0; p1] ->
       length (domains_of (strip E p0) (ingest_line E ASN1_Codec_new raw))
       = 1%nat).
Proof.
  intros H.
  specialize (H (Sample.env [] []) "auto.offset.reset=earliest"
                "auto.offset.reset" "earliest" eq_refl eq_refl).
  assert (Hboth :
    domains_of "auto.offset.reset"
      (ingest_line (Sample.env [] []) ASN1_Codec_new
         "auto.offset.reset=earliest")
    = [topic_level; broker_level]) by (vm_compute; reflexivity).
  simpl strip in H. change (Sample.strip_spaces "auto.offset.reset")
    with "auto.offset.reset" in H.
  rewrite Hboth in H. discriminate H.
Qed.

(** ** Command line against file *)

(** C5, as the code has it.  When [configure] succeeds, the broker
    address, the group id and the debug string of the global configuration,
    the partition and the offset hold the value of the command line if the
    option was given ([-b] only if Kafka took the value) and the value the
    file left otherwise; the exit-on-eof flag is no such override: it is
    set to whether [-x] was given, whatever it was before. *)
Theorem cli_overrides (E : Env) (s s' : ASN1_Codec) :
  configure E s = Return true s' ->
  exists s1,
    file_derived E s = Some s1 /\
    conf_entry "metadata.broker.list" s'
    = cli_conf E "b" "metadata.broker.list"
        (conf_entry "metadata.broker.list" s1) /\
    (if optIsSet E "p" then optInt E "p" else file_partition s1)
    = Returned (partition s') /\
    conf_entry "group.id" s'
    = (if optIsSet E "g" then Some (optString E "g")
       else conf_entry "group.id" s1) /\
    offset s'
    = (if optIsSet E "o" then cli_offset (optString E "o") else offset s1) /\
    exit_eof s' = optIsSet E "x" /\
    conf_entry "debug" s'
    = (if optIsSet E "d" then Some (optString E "d")
       else conf_entry "debug" s1).
Proof.
  intros Hok. pose proof (configure_cases E s) as H. rewrite Hok in H.
  destruct H as (s1 & Hfd & Hover & Hpart & _).
  exists s1. unfold overridable in Hover. simplify_eq. auto 10.
Qed.

Lemma cli_overrides_witness :
  let E := Sample.env (Sample.with_file ++ [("g"%char, "7"); ("o"%char, "end")])
             Sample.properties_file in
  exists s', configure E ASN1_Codec_new = Return true s' /\
  exists s1,
    file_derived E ASN1_Codec_new = Some s1 /\
    conf_entry "metadata.broker.list" s'
    = cli_conf E "b" "metadata.broker.list"
        (conf_entry "metadata.broker.list" s1) /\
    (if optIsSet E "p" then optInt E "p" else file_partition s1)
    = Returned (partition s') /\
    conf_entry "group.id" s'
    = (if optIsSet E "g" then Some (optString E "g")
       else conf_entry "group.id" s1) /\
    offset s'
    = (if optIsSet E "o" then cli_offset (optString E "o") else offset s1) /\
    exit_eof s' = optIsSet E "x" /\
    conf_entry "debug" s'
    = (if optIsSet E "d" then Some (optString E "d")
       else conf_entry "debug" s1).
Proof.
  intros E.
  assert (Hok : exists s', configure E ASN1_Codec_new = Return true s')
    by (vm_compute; eexists; reflexivity).
  destruct Hok as [s' Hok]. exists s'. split; [exact Hok|].
  apply (cli_overrides E ASN1_Codec_new s'). exact Hok.
Defined.

(** C5 as it was stated fails for the exit-on-eof flag: with [-x] omitted
    the flag, true after the file was read, is false after [configure]. *)
Lemma omitted_exit_flag_is_overwritten :
  ~ (forall E s s1 s',
       file_derived E s = Some s1 ->
       configure E s = Return true s' ->
       optIsSet E "x" = false ->
       exit_eof s' = exit_eof s1).
Proof.
  intros H.
  pose (E := Sample.env Sample.with_file Sample.properties_file).
  assert (Hfd : exists s1, file_derived E ASN1_Codec_new = Some s1 /\
                           exit_eof s1 = true)
    by (vm_compute; eexists; split; reflexivity).
  assert (Hok : exists s', configure E ASN1_Codec_new = Return true s' /\
                           exit_eof s' = false)
    by (vm_compute; eexists; split; reflexivity).
  destruct Hfd as (s1 & Hfd & Hx1). destruct Hok as (s' & Hok & Hx').
  specialize (H E ASN1_Codec_new s1 s' Hfd Hok eq_refl). congruence.
Qed.

(** ** Required topics *)

(** C8, as the code has it.  When the consumer topic is not among the
    settings of the file that [configure] keeps, or the producer topic is
    neither given with [-t] nor among them, [configure] does not succeed:
    it returns false, or the conversion of the partition, which comes
    first, has thrown; either way [operator()] ends with [EXIT_FAILURE]
    and no broker session was opened. *)
Theorem missing_topic_is_fatal (E : Env) (B : Broker) (s : ASN1_Codec) :
  consumer_topic_resolves E s = false \/ producer_topic_resolves E s = false ->
  ((exists s', configure E s = Return false s') \/
   (exists e s' s1,
      configure E s = Throw e s' /\ file_derived E s = Some s1 /\
      (if optIsSet E "p" then optInt E "p" else file_partition s1) = Threw e)) /\
  exists s',
    operator_call E B s = Done EXIT_FAILURE s' /\
    trace s' = trace s /\ consumer_ptr s' = consumer_ptr s /\
    producer_ptr s' = producer_ptr s /\
    published_topic_ptr s' = published_topic_ptr s.
Proof.
  intros Hmissing.
  pose proof (configure_cases E s) as Hcases.
  pose proof (configure_opens_no_session E s) as Hquiet. cbv zeta in Hquiet.
  unfold operator_call.
  destruct (configure E s) as [[|] s' | e s']; simpl in Hquiet.
  - destruct Hcases as (_ & _ & _ & _ & Hc & Hp).
    destruct Hmissing; congruence.
  - split; [left; eauto|]. exists s'. split; [reflexivity | exact Hquiet].
  - destruct Hcases as (s1 & Hfd & Hthrow).
    split; [right; eauto 10|]. exists s'. split; [reflexivity | exact Hquiet].
Qed.

Lemma missing_topic_is_fatal_witness :
  let E := Sample.env Sample.with_file ["group.id = 0"] in
  exists s',
    operator_call E Sample.unreachable ASN1_Codec_new = Done EXIT_FAILURE s' /\
    trace s' = [] /\ consumer_ptr s' = false /\
    producer_ptr s' = false /\ published_topic_ptr s' = false.
Proof.
  intros E.
  destruct (missing_topic_is_fatal E Sample.unreachable ASN1_Codec_new)
    as [_ H].
  - left. vm_compute. reflexivity.
  - exact H.
Defined.

(** C8 as it was stated fails in one respect: with the topics missing and
    an unreadable partition in the file, [configure] does not return
    false, it throws. *)
Lemma missing_topic_may_throw :
  ~ (forall E s,
       consumer_topic_resolves E s = false \/
       producer_topic_resolves E s = false ->
       exists s', configure E s = Return false s').
Proof.
  intros H.
  pose (E := Sample.env Sample.with_file
               ["asn1.j2735.kafka.partition = seven"]).
  assert (Hmissing : consumer_topic_resolves E ASN1_Codec_new = false)
    by (vm_compute; reflexivity).
  assert (Hthrow : exists s', configure E ASN1_Codec_new
                              = Throw invalid_argument s')
    by (vm_compute; eexists; reflexivity).
  destruct (H E ASN1_Codec_new (or_introl Hmissing)) as [s' Hfalse].
  destruct Hthrow as [s'' Hthrow]. congruence.
Qed.

(** ** Numbers that do not parse *)

(** A text without a number makes [std::stoi] throw and [strtoll] answer
    zero. *)
Lemma no_number_stoi_strtoll (text : string) :
  scan_decimal text = None ->
  stoi text = Threw invalid_argument /\ strtoll text = 0.
Proof. intros H. unfold stoi, strtoll. rewrite H. auto. Qed.

(** The offset of the command line is converted without any check. *)
Lemma override_offset_never_stops (E : Env) (s : ASN1_Codec) :
  override_offset E s
  = Next (if optIsSet E "o" then set_offset (cli_offset (optString E "o")) s
          else s).
Proof.
  unfold override_offset, cli_offset. repeat case_match; reflexivity.
Qed.

(** A partition of the file that is no number makes [configure] throw. *)
Lemma unreadable_file_partition_throws
  (E : Env) (s s1 : ASN1_Codec) (e : exception) :
  file_derived E s = Some s1 ->
  optIsSet E "p" = false ->
  file_partition s1 = Threw e ->
  exists s', configure E s = Throw e s'.
Proof.
  intros Hfd Hp Hthrow.
  assert (Hfile : ingest_file E (set_tconf Conf_create (set_conf Conf_create s))
                  = Next s1).
  { unfold file_derived in Hfd. simpl in Hfd.
    destruct (ingest_file E (set_tconf Conf_create (set_conf Conf_create s)));
      congruence. }
  unfold configure, after_file. rewrite sequence_cons.
  change (create_confs s)
    with (Next (set_tconf Conf_create (set_conf Conf_create s))).
  cbv iota. rewrite sequence_cons, Hfile, sequence_cons.
  pose proof (override_broker_spec E s1) as H2.
  destruct (override_broker E s1) as [s2|x]; [|contradiction].
  destruct H2 as [Hp2 Ho2].
  rewrite sequence_cons.
  pose proof (resolve_partition_spec E s2) as H3.
  assert (Hfp : file_partition s2 = file_partition s1).
  { apply file_partition_ext; [exact Hp2|].
    unfold overridable in Ho2. congruence. }
  rewrite Hfp, Hp, Hthrow in H3.
  destruct (resolve_partition E s2) as [s3|x].
  - destruct H3 as (_ & H3 & _). discriminate H3.
  - destruct H3 as (e' & -> & [= ->]). eauto.
Qed.

(** A consumer timeout of the file that is no number is passed over. *)
Lemma unreadable_timeout_is_ignored (s : ASN1_Codec) (text : string) (e : exception) :
  pconf s !! "asn1.j2735.consumer.timeout.ms" = Some text ->
  stoi text = Threw e ->
  resolve_timeout s = Next s.
Proof. intros Hkey Hthrow. unfold resolve_timeout. rewrite Hkey, Hthrow. reflexivity. Qed.

(** C4 on the code.  Option [-o abc] names no symbolic offset and is no
    number: [configure] neither fails nor throws, it succeeds with the
    offset set to 0.  In the same run the timeout of the file, no number
    either, leaves [consumer_timeout] at its initial 500, as the claim has
    it. *)
Theorem unreadable_offset_is_taken_as_zero :
  let E := Sample.env (Sample.with_file ++ [("o"%char, "abc")])
             [ "asn1.j2735.topic.consumer = raw";
               "asn1.j2735.topic.producer = filtered";
               "asn1.j2735.consumer.timeout.ms = soon" ] in
  scan_decimal (optString E "o") = None /\
  exists s',
    configure E ASN1_Codec_new = Return true s' /\
    offset s' = 0 /\ partition s' = PARTITION_UA /\
    consumer_timeout s' = 500.
Proof.
  intros E. split; [reflexivity|].
  vm_compute. eexists. repeat split; reflexivity.
Qed.

(** ** The exit status *)

(** [return false;] after a failed launch is the status 0. *)
Lemma launch_failure_exit_status
  (E : Env) (B : Broker) (s s1 s2 : ASN1_Codec) :
  configure E s = Return true s1 ->
  launch_consumer B s1 = Done false s2 ->
  operator_call E B s = Done EXIT_SUCCESS s2.
Proof.
  intros Hconf Hlaunch. unfold operator_call.
  rewrite Hconf, Hlaunch. reflexivity.
Qed.

Lemma producer_failure_exit_status
  (E : Env) (B : Broker) (s s1 s2 s3 : ASN1_Codec) :
  configure E s = Return true s1 ->
  launch_consumer B s1 = Done true s2 ->
  launch_producer B s2 = (false, s3) ->
  operator_call E B s = Done EXIT_SUCCESS s3.
Proof.
  intros Hconf Hcons Hprod. unfold operator_call.
  rewrite Hconf, Hcons, Hprod. reflexivity.
Qed.

(** C1, as the code has it.  When [configure] returns false or throws,
    [operator()] ends with [EXIT_FAILURE]; when both launches succeeded and
    the relay loop has ended, whatever ended it (end of partition, a
    signal, or a broker error that [msg_consume] gave up on), it ends with
    [EXIT_SUCCESS]. *)
Theorem exit_status (E : Env) (B : Broker) (s : ASN1_Codec) :
  match configure E s with
  | Return true s1 =>
      forall s2 s3 s4,
        launch_consumer B s1 = Done true s2 ->
        launch_producer B s2 = (true, s3) ->
        relay_loop (consume B) s3 = Done tt s4 ->
        operator_call E B s = Done EXIT_SUCCESS s4
  | Return false s1 => operator_call E B s = Done EXIT_FAILURE s1
  | Throw _ s1 => operator_call E B s = Done EXIT_FAILURE s1
  end.
Proof.
  unfold operator_call.
  destruct (configure E s) as [[|] s1 | e s1]; try reflexivity.
  intros s2 s3 s4 Hcons Hprod Hloop.
  rewrite Hcons, Hprod, Hloop. reflexivity.
Qed.

Lemma exit_status_witness :
  let E := Sample.env (Sample.with_file ++ [("x"%char, EmptyString)])
             Sample.properties_file in
  let B := Sample.broker [Sample.reply ERR_NO_ERROR ["raw"] false]
             [Sample.good 10; Sample.status ERR__PARTITION_EOF 24] in
  let s1 := ending_state (configure E ASN1_Codec_new) in
  let s2 := run_state (launch_consumer B s1) in
  let s3 := snd (launch_producer B s2) in
  let s4 := run_state (relay_loop (consume B) s3) in
  operator_call E B ASN1_Codec_new = Done EXIT_SUCCESS s4 /\
  msg_send_count s4 = 1 /\ eof_cnt s4 = 1.
Proof.
  intros E B s1 s2 s3 s4.
  split; [|split; vm_compute; reflexivity].
  pose proof (exit_status E B ASN1_Codec_new) as H.
  assert (Hconf : configure E ASN1_Codec_new = Return true s1)
    by (vm_compute; reflexivity).
  rewrite Hconf in H. apply (H s2 s3 s4); vm_compute; reflexivity.
Defined.

(** C1 as it was stated fails: a run whose loop is ended by a broker
    error ([UNKNOWN_TOPIC]) exits with status 0. *)
Lemma broker_error_exits_with_zero :
  ~ (forall E B s status s',
       operator_call E B s = Done status s' ->
       In fatal_consume_error (trace s') ->
       status <> 0).
Proof.
  intros H.
  pose (E := Sample.env Sample.with_file Sample.properties_file).
  pose (B := Sample.broker [Sample.reply ERR_NO_ERROR ["raw"] false]
               [Sample.status ERR__UNKNOWN_TOPIC 31]).
  assert (Hrun : exists s', operator_call E B ASN1_Codec_new = Done 0 s' /\
                            In fatal_consume_error (trace s')).
  { vm_compute. eexists. split; [reflexivity|].
    repeat (first [left; reflexivity | right]). }
  destruct Hrun as (s' & Hrun & Hlog).
  exact (H E B ASN1_Codec_new 0 s' Hrun Hlog eq_refl).
Qed.

(** * Further properties *)

(** ** The ledger of the relay loop *)

Lemma encodes_app (t u : list Event) :
  encodes (t ++ u) = encodes t ++ encodes u.
Proof.
  induction t as [|e t IH]; [reflexivity|].
  destruct e; simpl; rewrite IH; reflexivity.
Qed.

Lemma sent_app (t u : list Event) : sent (t ++ u) = sent t ++ sent u.
Proof.
  induction t as [|e t IH]; [reflexivity|].
  destruct e as [| |? ? []| | | | | | |]; simpl; rewrite IH; reflexivity.
Qed.

Lemma total_app (a b : list N) : total (a ++ b) = total a + total b.
Proof. induction a as [|n a IH]; simpl; [reflexivity|]. rewrite IH. lia. Qed.

Lemma decoded_ok_app (t u : list Event) :
  decoded_ok (t ++ u) = (decoded_ok t + decoded_ok u)%nat.
Proof.
  unfold decoded_ok.
  rewrite decode_calls_app, List.filter_app, length_app. reflexivity.
Qed.

Lemma encoded_ok_app (t u : list Event) :
  encoded_ok (t ++ u) = (encoded_ok t + encoded_ok u)%nat.
Proof.
  unfold encoded_ok.
  rewrite encodes_app, List.filter_app, length_app. reflexivity.
Qed.

Lemma ledger_refl (s : ASN1_Codec) : ledger s s [].
Proof.
  unfold ledger. rewrite app_nil_r. simpl.
  repeat split; auto; lia.
Qed.

Lemma ledger_trans (s s' s'' : ASN1_Codec) (evs evs' : list Event) :
  ledger s s' evs -> ledger s' s'' evs' -> ledger s s'' (evs ++ evs').
Proof.
  unfold ledger.
  intros (Ht & Hp & Hr & Hc & Hb & He & Hq & Hf)
         (Ht' & Hp' & Hr' & Hc' & Hb' & He' & Hq' & Hf').
  rewrite Ht', Ht, Hp', Hp, Hr', Hr, Hc', Hc, Hb', Hb, <- app_assoc.
  rewrite decode_calls_app, sent_app, produced_app, encodes_app,
    decoded_ok_app, encoded_ok_app, total_app, !length_app, !Nat2Z.inj_add.
  rewrite Hp in Hf'.
  repeat split; auto; try lia.
  apply Forall_app. split; assumption.
Qed.

Lemma loop_body_ledger (msg : Polled) (s : ASN1_Codec) :
  exists evs, ledger s (snd (loop_body msg s)) evs.
Proof.
  unfold ledger, loop_body, msg_consume, decoded_ok, encoded_ok.
  repeat case_match; simplify_eq/=;
    eexists;
    (split; [first [symmetry; apply app_nil_r
                   | rewrite <- ?app_assoc; simpl; reflexivity]|]);
    simpl;
    repeat match goal with H : (_ =? 0) = _ |- _ => rewrite H end; simpl;
    repeat split; auto; try lia;
    destruct (produce msg); simpl in *; try discriminate; unfold total;
    simpl; lia.
Qed.

Lemma ledger_deliver (signal : bool) (s s' : ASN1_Codec) (evs : list Event) :
  ledger s s' evs -> ledger s (deliver signal s') evs.
Proof. destruct signal; simpl; unfold ledger; simpl; auto. Qed.

Lemma relay_loop_ledger (polls : list Polled) (s : ASN1_Codec) :
  exists evs, ledger s (run_state (relay_loop polls s)) evs.
Proof.
  revert s. induction polls as [|msg polls IH]; intros s; simpl.
  - exists []. destruct (data_available s); apply ledger_refl.
  - destruct (data_available s); [|exists []; apply ledger_refl].
    destruct (loop_body_ledger msg s) as [evs Hbody].
    apply (ledger_deliver (interrupted msg)) in Hbody.
    destruct (IH (deliver (interrupted msg) (snd (loop_body msg s))))
      as [evs' Hrest].
    exists (evs ++ evs'). eapply ledger_trans; eassumption.
Qed.

Lemma sent_le_produced (t : list Event) :
  (length (sent t) <= length (produced t))%nat.
Proof.
  induction t as [|e t IH]; simpl; [lia|].
  destruct e as [| |? ? []| | | | | | |]; simpl; lia.
Qed.

(** X1.  Over any run of the relay loop [msg_send_count] grows by exactly
    the number of buffers [produce] took without error, and
    [msg_send_bytes] by the sum of their sizes: the two counters of the
    closing summary are the ledger of what was published. *)
Theorem send_counters_match_publications (polls : list Polled) (s : ASN1_Codec) :
  let s' := run_state (relay_loop polls s) in
  exists evs,
    trace s' = trace s ++ evs /\
    msg_send_count s' = msg_send_count s + Z.of_nat (length (sent evs)) /\
    msg_send_bytes s' = msg_send_bytes s + total (sent evs).
Proof.
  destruct (relay_loop_ledger polls s) as (evs & Ht & _ & _ & Hc & Hb & _).
  exists evs. auto.
Qed.

(** X2.  Over any run of the relay loop the stages of the pipeline nest:
    [msg_recv_count] grows by the number of decoder invocations, [xer_buf]
    is called once for each decoding that returned a structure, [produce]
    once for each encoding that succeeded; so no more messages are counted
    as sent than as received. *)
Theorem pipeline_stages_nest (polls : list Polled) (s : ASN1_Codec) :
  let s' := run_state (relay_loop polls s) in
  exists evs,
    trace s' = trace s ++ evs /\
    msg_recv_count s' = msg_recv_count s + Z.of_nat (length (decode_calls evs)) /\
    length (encodes evs) = decoded_ok evs /\
    length (produced evs) = encoded_ok evs /\
    msg_send_count s' - msg_send_count s <= msg_recv_count s' - msg_recv_count s.
Proof.
  destruct (relay_loop_ledger polls s)
    as (evs & Ht & _ & Hr & Hc & _ & He & Hq & _).
  exists evs. repeat split; auto.
  pose proof (sent_le_produced evs) as H1.
  assert (H2 : (encoded_ok evs <= length (encodes evs))%nat)
    by apply List.filter_length_le.
  assert (H3 : (decoded_ok evs <= length (decode_calls evs))%nat)
    by apply List.filter_length_le.
  lia.
Qed.

(** X3.  Every buffer the relay loop hands to [produce] goes to the
    partition the object holds when the loop starts: nothing in the loop
    changes [partition]. *)
Theorem publications_go_to_the_configured_partition
  (polls : list Polled) (s : ASN1_Codec) :
  let s' := run_state (relay_loop polls s) in
  partition s' = partition s /\
  exists evs,
    trace s' = trace s ++ evs /\
    Forall (fun call => fst (fst call) = partition s) (produced evs).
Proof.
  destruct (relay_loop_ledger polls s) as (evs & Ht & Hp & _ & _ & _ & _ & _ & Hf).
  split; [exact Hp|]. exists evs. auto.
Qed.

(** ** What ends the relay loop, and what does not *)

(** X4.  A polled message with a payload and a status other than
    [NO_ERROR], [TIMED_OUT] and [PARTITION_EOF] ends the loop at once:
    the error is logged, nothing is decoded or produced, no counter moves,
    and the polls after it are never looked at. *)
Theorem fatal_status_ends_the_loop
  (msg : Polled) (rest : list Polled) (s : ASN1_Codec) :
  data_available s = true -> (0 < len msg)%N -> is_fatal (err msg) = true ->
  exists s',
    relay_loop (msg :: rest) s = Done tt s' /\
    data_available s' = false /\
    In fatal_consume_error (trace s') /\
    decode_calls (trace s') = decode_calls (trace s) /\
    produced (trace s') = produced (trace s) /\
    (msg_recv_count s', msg_recv_bytes s', msg_send_count s', msg_send_bytes s')
    = (msg_recv_count s, msg_recv_bytes s, msg_send_count s, msg_send_bytes s) /\
    eof_cnt s' = eof_cnt s /\ first_block s' = first_block s.
Proof.
  intros Hrun Hlen Hfatal. apply N.ltb_lt in Hlen.
  exists (deliver (interrupted msg) (snd (loop_body msg s))).
  rewrite relay_loop_step by exact Hrun.
  assert (Hbody : exists t,
    snd (loop_body msg s) = set_data_available false (set_trace t s) /\
    In fatal_consume_error t /\ decode_calls t = decode_calls (trace s) /\
    produced t = produced (trace s)).
  { unfold loop_body, msg_consume. rewrite Hlen.
    destruct (err msg); try discriminate; simpl;
      eexists; (split; [reflexivity|]);
      repeat (progress (rewrite ?in_app_iff, ?decode_calls_app,
                          ?produced_app, ?app_nil_r; simpl));
      repeat split; auto. }
  destruct Hbody as (t & -> & Hin & Hdec & Hprod).
  rewrite relay_loop_stopped by (destruct (interrupted msg); reflexivity).
  destruct (interrupted msg); simpl; auto 10.
Qed.

Lemma fatal_status_ends_the_loop_witness :
  exists s',
    relay_loop (Sample.status ERR__UNKNOWN_TOPIC 31 :: [Sample.good 10])
      ASN1_Codec_new = Done tt s' /\
    data_available s' = false /\
    In fatal_consume_error (trace s') /\
    decode_calls (trace s') = decode_calls (trace ASN1_Codec_new) /\
    produced (trace s') = produced (trace ASN1_Codec_new) /\
    (msg_recv_count s', msg_recv_bytes s', msg_send_count s', msg_send_bytes s')
    = (msg_recv_count ASN1_Codec_new, msg_recv_bytes ASN1_Codec_new,
       msg_send_count ASN1_Codec_new, msg_send_bytes ASN1_Codec_new) /\
    eof_cnt s' = eof_cnt ASN1_Codec_new /\
    first_block s' = first_block ASN1_Codec_new.
Proof.
  apply (fatal_status_ends_the_loop (Sample.status ERR__UNKNOWN_TOPIC 31)
           [Sample.good 10] ASN1_Codec_new); reflexivity.
Defined.

Lemma loop_body_publish (msg : Polled) (s : ASN1_Codec) :
  loop_body msg s
  = if (0 <? len msg)%N then
      match msg_consume msg 0%N s with
      | (true, xb, s') => publish msg xb s'
      | (false, xb, s') => (xb, s')
      end
    else (0%N, s).
Proof. reflexivity. Qed.

(** X5.  A signal does not cut a turn of the loop short, at whichever of
    its steps the handler runs: neither [msg_consume] nor the publication
    nor the body as a whole reads [data_available] or sets it again, so on
    an object whose flag the handler has cleared each of them decodes,
    encodes, publishes and counts exactly as on the object before the
    signal, and leaves the flag cleared. *)
Theorem signal_does_not_cut_the_turn
  (msg : Polled) (xb : xer_buffer) (s : ASN1_Codec) :
  msg_consume msg xb (sigterm s)
  = (fst (msg_consume msg xb s), sigterm (snd (msg_consume msg xb s))) /\
  publish msg xb (sigterm s)
  = (fst (publish msg xb s), sigterm (snd (publish msg xb s))) /\
  loop_body msg (sigterm s)
  = (fst (loop_body msg s), sigterm (snd (loop_body msg s))) /\
  data_available (snd (loop_body msg (sigterm s))) = false.
Proof.
  assert (Hconsume : forall xb' u,
            msg_consume msg xb' (sigterm u)
            = (fst (msg_consume msg xb' u),
               sigterm (snd (msg_consume msg xb' u)))).
  { intros xb' u. unfold msg_consume, sigterm. destruct u. simpl.
    repeat case_match; simplify_eq/=; reflexivity. }
  assert (Hpublish : forall xb' u,
            publish msg xb' (sigterm u)
            = (fst (publish msg xb' u), sigterm (snd (publish msg xb' u)))).
  { intros xb' u. unfold publish, sigterm. destruct u. simpl.
    repeat case_match; simplify_eq/=; reflexivity. }
  assert (Hbody : loop_body msg (sigterm s)
                  = (fst (loop_body msg s), sigterm (snd (loop_body msg s)))).
  { rewrite !loop_body_publish.
    destruct (0 <? len msg)%N; [|reflexivity].
    rewrite Hconsume.
    destruct (msg_consume msg 0%N s) as [[[|] xb'] s']; simpl;
      [apply Hpublish | reflexivity]. }
  split; [apply Hconsume|]. split; [apply Hpublish|].
  split; [exact Hbody|]. rewrite Hbody. reflexivity.
Qed.

Lemma loop_body_idle (msg : Polled) (s : ASN1_Codec) :
  is_idle s msg = true -> snd (loop_body msg s) = s.
Proof.
  unfold is_idle, loop_body, msg_consume. intros H.
  apply andb_prop in H as [_ H].
  destruct (len msg) as [|p]; [reflexivity|]. simpl in H |- *.
  destruct (err msg); try discriminate; [reflexivity|].
  apply negb_true_iff in H. rewrite H. reflexivity.
Qed.

(** X6.  However many polls bring nothing (no payload, a timeout, or the
    end of a partition while [exit_eof] is off) and no signal, the loop
    keeps waiting and the object is exactly as it was: no counter, flag or
    call has changed. *)
Theorem idle_polls_change_nothing (polls : list Polled) (s : ASN1_Codec) :
  data_available s = true ->
  forallb (is_idle s) polls = true ->
  relay_loop polls s = Waiting s.
Proof.
  intros Hrun. induction polls as [|msg polls IH]; intros Hidle; simpl.
  - rewrite Hrun. reflexivity.
  - rewrite Hrun. simpl in Hidle. apply andb_prop in Hidle as [Hmsg Hidle].
    rewrite (loop_body_idle msg s Hmsg).
    unfold is_idle in Hmsg. apply andb_prop in Hmsg as [Hsig _].
    apply negb_true_iff in Hsig. rewrite Hsig. simpl. apply IH, Hidle.
Qed.

Lemma idle_polls_change_nothing_witness :
  relay_loop [Sample.status ERR__TIMED_OUT 0; Sample.status ERR__TIMED_OUT 5;
              Sample.status ERR__PARTITION_EOF 0; Sample.good 0]
    ASN1_Codec_new
  = Waiting ASN1_Codec_new.
Proof.
  apply (idle_polls_change_nothing
           [Sample.status ERR__TIMED_OUT 0; Sample.status ERR__TIMED_OUT 5;
            Sample.status ERR__PARTITION_EOF 0; Sample.good 0]
           ASN1_Codec_new); reflexivity.
Defined.

Lemma loop_body_exit_eof_off (msg : Polled) (s : ASN1_Codec) :
  exit_eof s = false ->
  let s' := snd (loop_body msg s) in
  exit_eof s' = false /\ eof_cnt s' = eof_cnt s /\
  (In eof_all_partitions (trace s') -> In eof_all_partitions (trace s)).
Proof.
  intros Hoff. unfold loop_body, msg_consume. rewrite Hoff.
  repeat case_match; simplify_eq/=; repeat split; auto;
    rewrite ?in_app_iff; simpl; intros Hin;
    repeat (destruct Hin as [Hin | Hin]);
    try discriminate; try contradiction; auto.
Qed.

(** X7.  With [exit_eof] off, ends of partition are never counted: over
    any run of the loop [eof_cnt] keeps its value and the end of all
    partitions is never announced, so the loop is not ended that way. *)
Theorem without_exit_eof_no_eof_accounting (polls : list Polled) (s : ASN1_Codec) :
  exit_eof s = false ->
  let s' := run_state (relay_loop polls s) in
  eof_cnt s' = eof_cnt s /\
  (In eof_all_partitions (trace s') -> In eof_all_partitions (trace s)).
Proof.
  revert s. induction polls as [|msg polls IH]; intros s Hoff; simpl.
  - destruct (data_available s); auto.
  - destruct (data_available s); [|auto].
    destruct (loop_body_exit_eof_off msg s Hoff) as (Hoff' & Hcnt & Hlog).
    destruct (IH (deliver (interrupted msg) (snd (loop_body msg s))))
      as [Hcnt' Hlog'].
    { destruct (interrupted msg); exact Hoff'. }
    split.
    + rewrite Hcnt'. destruct (interrupted msg); exact Hcnt.
    + intros Hin. apply Hlog' in Hin. apply Hlog.
      destruct (interrupted msg); exact Hin.
Qed.

Lemma without_exit_eof_no_eof_accounting_witness :
  let s' := run_state (relay_loop
              [Sample.status ERR__PARTITION_EOF 24;
               Sample.status ERR__PARTITION_EOF 24]
              (set_exit_eof false ASN1_Codec_new)) in
  eof_cnt s' = 0 /\
  (In eof_all_partitions (trace s') -> In eof_all_partitions []).
Proof.
  apply (without_exit_eof_no_eof_accounting
           [Sample.status ERR__PARTITION_EOF 24;
            Sample.status ERR__PARTITION_EOF 24]
           (set_exit_eof false ASN1_Codec_new)).
  reflexivity.
Defined.

Lemma loop_body_first_block_off (msg : Polled) (s : ASN1_Codec) :
  first_block s = false -> first_block (snd (loop_body msg s)) = false.
Proof.
  intros Hoff. unfold loop_body, msg_consume.
  repeat case_match; simplify_eq/=; auto.
Qed.

(** X8.  Nothing in the relay loop sets [first_block] again: once the flag
    is false it is false after any further run, and every decoder
    invocation of that run gets [false]. *)
Theorem first_block_is_never_set_again (polls : list Polled) (s : ASN1_Codec) :
  first_block s = false ->
  let s' := run_state (relay_loop polls s) in
  first_block s' = false /\
  exists evs,
    trace s' = trace s ++ evs /\
    Forall (fun call => fst call = false) (decode_calls evs).
Proof.
  revert s. induction polls as [|msg polls IH]; intros s Hoff; simpl.
  - destruct (data_available s); (split; [exact Hoff|]);
      exists []; rewrite app_nil_r; auto.
  - destruct (data_available s);
      [|split; [exact Hoff|]; exists []; rewrite app_nil_r; auto].
    assert (Hbody : first_block (snd (loop_body msg s)) = false /\
              exists evs, trace (snd (loop_body msg s)) = trace s ++ evs /\
                Forall (fun call => fst call = false) (decode_calls evs)).
    { split; [apply loop_body_first_block_off, Hoff|].
      unfold loop_body, msg_consume.
      repeat case_match; simplify_eq/=;
        eexists;
        (split; [first [symmetry; apply app_nil_r
                       | rewrite <- ?app_assoc; simpl; reflexivity]|]);
        simpl; rewrite ?Hoff; repeat constructor. }
    destruct Hbody as (Hoff' & evs & Ht & Hall).
    destruct (IH (deliver (interrupted msg) (snd (loop_body msg s))))
      as (Hoff'' & evs' & Ht' & Hall').
    { destruct (interrupted msg); exact Hoff'. }
    split; [exact Hoff''|]. exists (evs ++ evs'). split.
    + rewrite Ht'. destruct (interrupted msg); simpl;
        rewrite Ht, app_assoc; reflexivity.
    + rewrite decode_calls_app. apply Forall_app. split; assumption.
Qed.

Lemma first_block_is_never_set_again_witness :
  let s' := run_state (relay_loop [Sample.undecodable 9; Sample.good 9]
                         (set_first_block false ASN1_Codec_new)) in
  first_block s' = false /\
  exists evs,
    trace s' = [] ++ evs /\
    Forall (fun call => fst call = false) (decode_calls evs).
Proof.
  apply (first_block_is_never_set_again [Sample.undecodable 9; Sample.good 9]
           (set_first_block false ASN1_Codec_new)).
  reflexivity.
Defined.

(** ** configure: what it settles, and from where *)

Lemma ingest_line_setting (E : Env) (s : ASN1_Codec) (raw : string) :
  ingest_line E s raw
  = match setting_of E raw with
    | Some (key, value) => ingest_pair E key value s
    | None => s
    end.
Proof.
  unfold ingest_line, setting_of.
  repeat case_match; simplify_eq; reflexivity.
Qed.

(** The blocks of a successful [configure], one after the other. *)
Lemma configure_chain (E : Env) (s s' : ASN1_Codec) :
  configure E s = Return true s' ->
  exists s1 s2 s3 s4 s5 s6 s7 s8 s9 s10,
    file_derived E s = Some s1 /\
    override_broker E s1 = Next s2 /\ resolve_partition E s2 = Next s3 /\
    override_group E s3 = Next s4 /\ override_offset E s4 = Next s5 /\
    override_exit_eof E s5 = Next s6 /\ override_debug E s6 = Next s7 /\
    install_topic_conf s7 = Next s8 /\ resolve_consumer_topic s8 = Next s9 /\
    resolve_producer_topic E s9 = Next s10 /\ resolve_timeout s10 = Next s'.
Proof.
  unfold configure, after_file, file_derived.
  rewrite sequence_cons.
  change (create_confs s)
    with (Next (set_tconf Conf_create (set_conf Conf_create s))).
  cbv iota.
  set (s0 := set_tconf Conf_create (set_conf Conf_create s)).
  rewrite sequence_cons.
  destruct (ingest_file E s0) as [s1|x] eqn:H1.
  2:{ apply ingest_file_stop in H1. subst x. discriminate. }
  rewrite sequence_cons.
  pose proof (override_broker_spec E s1) as Q2.
  destruct (override_broker E s1) as [s2|x] eqn:H2; [|contradiction].
  rewrite sequence_cons.
  pose proof (resolve_partition_spec E s2) as Q3.
  destruct (resolve_partition E s2) as [s3|x] eqn:H3.
  2:{ destruct Q3 as (e & -> & _). discriminate. }
  rewrite sequence_cons.
  pose proof (override_group_spec E s3) as Q4.
  destruct (override_group E s3) as [s4|x] eqn:H4; [|subst x; discriminate].
  rewrite sequence_cons.
  pose proof (override_offset_spec E s4) as Q5.
  destruct (override_offset E s4) as [s5|x] eqn:H5; [|contradiction].
  rewrite sequence_cons.
  pose proof (override_exit_eof_spec E s5) as Q6.
  destruct (override_exit_eof E s5) as [s6|x] eqn:H6; [|contradiction].
  rewrite sequence_cons.
  pose proof (override_debug_spec E s6) as Q7.
  destruct (override_debug E s6) as [s7|x] eqn:H7; [|subst x; discriminate].
  rewrite sequence_cons.
  pose proof (install_topic_conf_spec s7) as Q8.
  destruct (install_topic_conf s7) as [s8|x] eqn:H8; [|contradiction].
  rewrite sequence_cons.
  pose proof (resolve_consumer_topic_spec s8) as Q9.
  destruct (resolve_consumer_topic s8) as [s9|x] eqn:H9;
    [|destruct Q9 as [-> _]; discriminate].
  rewrite sequence_cons.
  pose proof (resolve_producer_topic_spec E s9) as Q10.
  destruct (resolve_producer_topic E s9) as [s10|x] eqn:H10;
    [|destruct Q10 as [-> _]; discriminate].
  rewrite sequence_cons.
  pose proof (resolve_timeout_spec s10) as Q11.
  destruct (resolve_timeout s10) as [s11|x] eqn:H11; [|contradiction].
  simpl. intros [= <-].
  exists s1, s2, s3, s4, s5, s6, s7, s8, s9, s10. auto 20.
Qed.

(** The overrides leave alone what is settled after them. *)
Lemma overrides_keep_settled (E : Env) (s1 s7 : ASN1_Codec)
  (s2 s3 s4 s5 s6 : ASN1_Codec) :
  override_broker E s1 = Next s2 -> resolve_partition E s2 = Next s3 ->
  override_group E s3 = Next s4 -> override_offset E s4 = Next s5 ->
  override_exit_eof E s5 = Next s6 -> override_debug E s6 = Next s7 ->
  settled s7 = settled s1.
Proof.
  intros H2 H3 H4 H5 H6 H7.
  assert (E2 : settled s2 = settled s1).
  { unfold override_broker in H2. repeat case_match; simplify_eq; reflexivity. }
  assert (E3 : settled s3 = settled s2).
  { unfold resolve_partition in H3. repeat case_match; simplify_eq; reflexivity. }
  assert (E4 : settled s4 = settled s3).
  { unfold override_group in H4. repeat case_match; simplify_eq; reflexivity. }
  assert (E5 : settled s5 = settled s4).
  { unfold override_offset in H5. repeat case_match; simplify_eq; reflexivity. }
  assert (E6 : settled s6 = settled s5).
  { unfold override_exit_eof in H6. simplify_eq. reflexivity. }
  assert (E7 : settled s7 = settled s6).
  { unfold override_debug in H7. repeat case_match; simplify_eq; reflexivity. }
  congruence.
Qed.

Lemma ingest_pair_keeps (E : Env) (key value : string) (s : ASN1_Codec) :
  let s' := ingest_pair E key value s in
  (partition s', offset s', exit_eof s', consumed_topics s',
   published_topic_name s', consumer_timeout s', default_topic_conf (conf s'),
   default_topic_conf (tconf s'))
  = (partition s, offset s, exit_eof s, consumed_topics s,
     published_topic_name s, consumer_timeout s, default_topic_conf (conf s),
     default_topic_conf (tconf s)).
Proof. unfold ingest_pair. repeat case_match; reflexivity. Qed.

(** What a successful [configure] settles, in terms of the state the file
    left. *)
Lemma configure_settles (E : Env) (s s' : ASN1_Codec) :
  configure E s = Return true s' ->
  exists s1 name,
    file_derived E s = Some s1 /\
    pconf s1 !! "asn1.j2735.topic.consumer" = Some name /\
    tconf s' = tconf s1 /\ pconf s' = pconf s1 /\
    default_topic_conf (conf s') = Some (properties (tconf s1)) /\
    consumed_topics s' = consumed_topics s1 ++ [name] /\
    published_topic_name s'
    = (if optIsSet E "t" then optString E "t"
       else match pconf s1 !! "asn1.j2735.topic.producer" with
            | Some topic => topic
            | None => published_topic_name s1
            end) /\
    consumer_timeout s' = file_timeout s1 (consumer_timeout s1).
Proof.
  intros Hok. apply configure_chain in Hok
    as (s1 & s2 & s3 & s4 & s5 & s6 & s7 & s8 & s9 & s10 & Hfd
        & H2 & H3 & H4 & H5 & H6 & H7 & H8 & H9 & H10 & H11).
  pose proof (overrides_keep_settled E s1 s7 s2 s3 s4 s5 s6 H2 H3 H4 H5 H6 H7)
    as Hkeep.
  unfold settled in Hkeep. injection Hkeep as Ht Hp Hc Hn Hto _.
  unfold install_topic_conf in H8. injection H8 as <-.
  unfold resolve_consumer_topic in H9. simpl in H9. rewrite Hp in H9.
  destruct (pconf s1 !! "asn1.j2735.topic.consumer") as [name|] eqn:Hname;
    [|discriminate].
  injection H9 as <-.
  exists s1, name. split; [exact Hfd|]. split; [exact Hname|].
  unfold resolve_producer_topic in H10. simpl in H10. rewrite Hp in H10.
  unfold file_timeout.
  destruct (optIsSet E "t").
  - injection H10 as <-. unfold resolve_timeout in H11. simpl in H11.
    rewrite Hp in H11.
    repeat case_match; simplify_eq/=; rewrite ?Ht, ?Hp, ?Hc, ?Hto;
      repeat split; reflexivity.
  - destruct (pconf s1 !! "asn1.j2735.topic.producer") as [topic|];
      [|discriminate].
    injection H10 as <-. unfold resolve_timeout in H11. simpl in H11.
    rewrite Hp in H11.
    repeat case_match; simplify_eq/=; rewrite ?Ht, ?Hp, ?Hc, ?Hto;
      repeat split; reflexivity.
Qed.

Lemma ingest_lines_keep (E : Env) (lines : list string) (s : ASN1_Codec) :
  let s' := fold_left (ingest_line E) lines s in
  (partition s', offset s', exit_eof s', consumed_topics s',
   published_topic_name s', consumer_timeout s', default_topic_conf (conf s'),
   default_topic_conf (tconf s'))
  = (partition s, offset s, exit_eof s, consumed_topics s,
     published_topic_name s, consumer_timeout s, default_topic_conf (conf s),
     default_topic_conf (tconf s)).
Proof.
  revert s. induction lines as [|raw lines IH]; intros s; simpl; [reflexivity|].
  rewrite IH, ingest_line_setting.
  destruct (setting_of E raw) as [[key value]|]; [|reflexivity].
  apply ingest_pair_keeps.
Qed.

Lemma file_derived_lines (E : Env) (s s1 : ASN1_Codec) :
  file_derived E s = Some s1 ->
  exists lines,
    optIsSet E "c" = true /\ ifstream E (optString E "c") = Some lines /\
    s1 = fold_left (ingest_line E) lines
           (set_tconf Conf_create (set_conf Conf_create s)).
Proof.
  unfold file_derived, create_confs, ingest_file. intros H.
  repeat case_match; simplify_eq. eauto.
Qed.

(** What reading the file leaves alone. *)
Lemma file_derived_keeps (E : Env) (s s1 : ASN1_Codec) :
  file_derived E s = Some s1 ->
  (partition s1, offset s1, exit_eof s1, consumed_topics s1,
   published_topic_name s1, consumer_timeout s1)
  = (partition s, offset s, exit_eof s, consumed_topics s,
     published_topic_name s, consumer_timeout s) /\
  relay_state s1 = relay_state s.
Proof.
  intros Hfd. apply file_derived_lines in Hfd as (lines & _ & _ & ->).
  pose proof (ingest_lines_keep E lines
                (set_tconf Conf_create (set_conf Conf_create s))) as H.
  cbv zeta in H. simpl in H. split; [congruence|].
  assert (Hrel : forall u, relay_state (fold_left (ingest_line E) lines u)
                           = relay_state u).
  { clear H. induction lines as [|raw lines IH]; intros u; simpl; [reflexivity|].
    rewrite IH, ingest_line_setting.
    destruct (setting_of E raw) as [[key value]|]; [|reflexivity].
    unfold ingest_pair. repeat case_match; reflexivity. }
  rewrite Hrel. reflexivity.
Qed.

(** X9.  The file can set nothing but the two Kafka configurations and the
    application settings: the partition, the offset, the exit-on-eof flag,
    the topics and the consumer timeout are, when the file has been read,
    what they were before [configure]; they change only in the steps that
    follow.  The members the relay loop works on are not touched either. *)
Theorem file_sets_only_the_three_maps (E : Env) (s s1 : ASN1_Codec) :
  file_derived E s = Some s1 ->
  (partition s1, offset s1, exit_eof s1, consumed_topics s1,
   published_topic_name s1, consumer_timeout s1)
  = (partition s, offset s, exit_eof s, consumed_topics s,
     published_topic_name s, consumer_timeout s) /\
  relay_state s1 = relay_state s.
Proof. apply file_derived_keeps. Qed.

Lemma file_sets_only_the_three_maps_witness :
  let E := Sample.env Sample.with_file Sample.properties_file in
  exists s1,
    file_derived E ASN1_Codec_new = Some s1 /\
    (partition s1, offset s1, exit_eof s1, consumed_topics s1,
     published_topic_name s1, consumer_timeout s1)
    = (PARTITION_UA, OFFSET_BEGINNING, true, [], EmptyString, 500) /\
    relay_state s1 = relay_state ASN1_Codec_new.
Proof.
  intros E.
  exists (fold_left (ingest_line E) Sample.properties_file
            (set_tconf Conf_create (set_conf Conf_create ASN1_Codec_new))).
  assert (Hfd : file_derived E ASN1_Codec_new
                = Some (fold_left (ingest_line E) Sample.properties_file
                          (set_tconf Conf_create
                             (set_conf Conf_create ASN1_Codec_new))))
    by reflexivity.
  split; [exact Hfd|].
  exact (file_sets_only_the_three_maps E ASN1_Codec_new _ Hfd).
Defined.

(** X10.  After a successful [configure] the consumer topic of the file has
    been appended to [consumed_topics] (one more topic for each successful
    call, nothing is cleared), and the topic to publish to is the argument
    of [-t] when that option was given, the producer topic of the file only
    otherwise. *)
Theorem topics_after_configure (E : Env) (s s' : ASN1_Codec) :
  configure E s = Return true s' ->
  exists s1 name,
    file_derived E s = Some s1 /\
    pconf s1 !! "asn1.j2735.topic.consumer" = Some name /\
    consumed_topics s' = consumed_topics s ++ [name] /\
    (if optIsSet E "t" then published_topic_name s' = optString E "t"
     else pconf s1 !! "asn1.j2735.topic.producer"
          = Some (published_topic_name s')).
Proof.
  intros Hok. pose proof (configure_cases E s) as Hcases. rewrite Hok in Hcases.
  destruct Hcases as (s1' & Hfd' & _ & _ & _ & Hprod).
  apply configure_settles in Hok
    as (s1 & name & Hfd & Hname & _ & _ & _ & Htopics & Hpub & _).
  assert (s1' = s1) by congruence. subst s1'.
  destruct (file_derived_keeps E s s1 Hfd) as [Hkeep _].
  exists s1, name. split; [exact Hfd|]. split; [exact Hname|]. split.
  - rewrite Htopics. f_equal. congruence.
  - unfold producer_topic_resolves, holds in Hprod. rewrite Hfd in Hprod.
    destruct (optIsSet E "t"); [exact Hpub|]. simpl in Hprod.
    destruct (pconf s1 !! "asn1.j2735.topic.producer");
      [congruence | discriminate].
Qed.

Lemma topics_after_configure_witness :
  let E := Sample.env (Sample.with_file ++ [("t"%char, "xml")])
             Sample.properties_file in
  let s' := ending_state (configure E ASN1_Codec_new) in
  exists s1 name,
    file_derived E ASN1_Codec_new = Some s1 /\
    pconf s1 !! "asn1.j2735.topic.consumer" = Some name /\
    consumed_topics s' = consumed_topics ASN1_Codec_new ++ [name] /\
    (if optIsSet E "t" then published_topic_name s' = optString E "t"
     else pconf s1 !! "asn1.j2735.topic.producer"
          = Some (published_topic_name s')).
Proof.
  intros E s'.
  apply (topics_after_configure E ASN1_Codec_new s').
  vm_compute. reflexivity.
Defined.

(** X11.  After a successful [configure] the consumer timeout is the
    number the file gives under [asn1.j2735.consumer.timeout.ms] when it
    gives one that converts to an [int], and otherwise the value the object
    had before the call. *)
Theorem timeout_after_configure (E : Env) (s s' : ASN1_Codec) :
  configure E s = Return true s' ->
  exists s1,
    file_derived E s = Some s1 /\
    consumer_timeout s' = file_timeout s1 (consumer_timeout s).
Proof.
  intros Hok.
  apply configure_settles in Hok
    as (s1 & name & Hfd & _ & _ & _ & _ & _ & _ & Hto).
  destruct (file_derived_keeps E s s1 Hfd) as [Hkeep _].
  exists s1. split; [exact Hfd|]. rewrite Hto. f_equal. congruence.
Qed.

Lemma timeout_after_configure_witness :
  let E := Sample.env Sample.with_file Sample.properties_file in
  let s' := ending_state (configure E ASN1_Codec_new) in
  exists s1,
    file_derived E ASN1_Codec_new = Some s1 /\
    consumer_timeout s' = file_timeout s1 500.
Proof.
  intros E s'.
  apply (timeout_after_configure E ASN1_Codec_new s').
  vm_compute. reflexivity.
Defined.

(** X12.  The command line never reaches the topic configuration or the
    application settings: after a successful [configure] both are what the
    file left, and the topic configuration installed in the global one
    ([default_topic_conf]) is that of the file. *)
Theorem topic_settings_are_the_files (E : Env) (s s' : ASN1_Codec) :
  configure E s = Return true s' ->
  exists s1,
    file_derived E s = Some s1 /\
    tconf s' = tconf s1 /\ pconf s' = pconf s1 /\
    default_topic_conf (conf s') = Some (properties (tconf s1)).
Proof.
  intros Hok.
  apply configure_settles in Hok
    as (s1 & name & Hfd & _ & Ht & Hp & Hd & _).
  exists s1. auto.
Qed.

Lemma topic_settings_are_the_files_witness :
  let E := Sample.env (Sample.with_file ++ [("g"%char, "7")])
             Sample.properties_file in
  let s' := ending_state (configure E ASN1_Codec_new) in
  exists s1,
    file_derived E ASN1_Codec_new = Some s1 /\
    tconf s' = tconf s1 /\ pconf s' = pconf s1 /\
    default_topic_conf (conf s') = Some (properties (tconf s1)).
Proof.
  intros E s'.
  apply (topic_settings_are_the_files E ASN1_Codec_new s').
  vm_compute. reflexivity.
Defined.

(** X13.  A group id or a debug string of the command line that the
    global configuration rejects keeps [configure] from succeeding. *)
Theorem rejected_option_fails_configure (E : Env) (s : ASN1_Codec) :
  (optIsSet E "g" = true /\
   conf_ok (Conf_set E CONF_GLOBAL "group.id" (optString E "g")) = false) \/
  (optIsSet E "d" = true /\
   conf_ok (Conf_set E CONF_GLOBAL "debug" (optString E "d")) = false) ->
  forall s', configure E s <> Return true s'.
Proof.
  intros Hrej s' Hok.
  apply configure_chain in Hok
    as (s1 & s2 & s3 & s4 & s5 & s6 & s7 & s8 & s9 & s10 & Hfd
        & H2 & H3 & H4 & H5 & H6 & H7 & _).
  destruct Hrej as [[Hset Hno] | [Hset Hno]].
  - unfold override_group in H4. rewrite Hset, Hno in H4. discriminate.
  - unfold override_debug in H7. rewrite Hset, Hno in H7. discriminate.
Qed.

Lemma rejected_option_fails_configure_witness :
  let E := {| optIsSet := optIsSet (Sample.env (Sample.with_file
                             ++ [("g"%char, "7")]) Sample.properties_file);
              optString := optString (Sample.env (Sample.with_file
                             ++ [("g"%char, "7")]) Sample.properties_file);
              optInt := optInt (Sample.env [] []);
              ifstream := ifstream (Sample.env Sample.with_file
                                      Sample.properties_file);
              strip := Sample.strip_spaces; split := Sample.split_at;
              Conf_set := fun _ _ _ => CONF_INVALID |} in
  (optIsSet E "g" = true /\
   conf_ok (Conf_set E CONF_GLOBAL "group.id" (optString E "g")) = false) /\
  forall s', configure E ASN1_Codec_new <> Return true s'.
Proof.
  intros E.
  split; [split; reflexivity|].
  apply (rejected_option_fails_configure E ASN1_Codec_new).
  left. split; reflexivity.
Defined.

Lemma ingest_pair_origin (E : Env) (key value : string) (s : ASN1_Codec)
  (k v : string) :
  let s' := ingest_pair E key value s in
  (properties (tconf s') !! k = Some v ->
   properties (tconf s) !! k = Some v \/
   ((key, value) = (k, v) /\ conf_ok (Conf_set E CONF_TOPIC k v) = true)) /\
  (properties (conf s') !! k = Some v ->
   properties (conf s) !! k = Some v \/
   ((key, value) = (k, v) /\ conf_ok (Conf_set E CONF_GLOBAL k v) = true)) /\
  (pconf s' !! k = Some v ->
   pconf s !! k = Some v \/
   ((key, value) = (k, v) /\
    conf_ok (Conf_set E CONF_TOPIC k v) = false /\
    conf_ok (Conf_set E CONF_GLOBAL k v) = false)).
Proof.
  unfold ingest_pair.
  destruct (conf_ok (Conf_set E CONF_TOPIC key value)) eqn:Ht,
           (conf_ok (Conf_set E CONF_GLOBAL key value)) eqn:Hg; simpl;
    repeat split; auto;
    rewrite lookup_insert; case_decide; auto;
    intros [= <-]; subst; right; auto.
Qed.

(** X14.  Every property the two Kafka configurations hold when the file
    has been read comes from a line of the file that Kafka accepted for
    that configuration (nothing set before [configure] survives), and every
    application setting either was there before [configure] (the map
    [pconf] is not cleared) or comes from a line that both configurations
    rejected. *)
Theorem settings_come_from_the_file (E : Env) (s s1 : ASN1_Codec) :
  file_derived E s = Some s1 ->
  exists lines,
    ifstream E (optString E "c") = Some lines /\
    forall k v,
      (properties (tconf s1) !! k = Some v ->
       exists raw, In raw lines /\ setting_of E raw = Some (k, v) /\
                   conf_ok (Conf_set E CONF_TOPIC k v) = true) /\
      (properties (conf s1) !! k = Some v ->
       exists raw, In raw lines /\ setting_of E raw = Some (k, v) /\
                   conf_ok (Conf_set E CONF_GLOBAL k v) = true) /\
      (pconf s1 !! k = Some v ->
       pconf s !! k = Some v \/
       exists raw, In raw lines /\ setting_of E raw = Some (k, v) /\
                   conf_ok (Conf_set E CONF_TOPIC k v) = false /\
                   conf_ok (Conf_set E CONF_GLOBAL k v) = false).
Proof.
  intros Hfd. apply file_derived_lines in Hfd as (lines & _ & Hfile & ->).
  exists lines. split; [exact Hfile|]. intros k v.
  set (s0 := set_tconf Conf_create (set_conf Conf_create s)).
  assert (Hgen : forall u,
    (properties (tconf (fold_left (ingest_line E) lines u)) !! k = Some v ->
     properties (tconf u) !! k = Some v \/
     exists raw, In raw lines /\ setting_of E raw = Some (k, v) /\
                 conf_ok (Conf_set E CONF_TOPIC k v) = true) /\
    (properties (conf (fold_left (ingest_line E) lines u)) !! k = Some v ->
     properties (conf u) !! k = Some v \/
     exists raw, In raw lines /\ setting_of E raw = Some (k, v) /\
                 conf_ok (Conf_set E CONF_GLOBAL k v) = true) /\
    (pconf (fold_left (ingest_line E) lines u) !! k = Some v ->
     pconf u !! k = Some v \/
     exists raw, In raw lines /\ setting_of E raw = Some (k, v) /\
                 conf_ok (Conf_set E CONF_TOPIC k v) = false /\
                 conf_ok (Conf_set E CONF_GLOBAL k v) = false)).
  { clear Hfile. induction lines as [|raw lines IH]; intros u; simpl.
    - auto.
    - rewrite ingest_line_setting.
      destruct (setting_of E raw) as [[key value]|] eqn:Hraw.
      2: destruct (IH u) as (IHt & IHg & IHp).
      1: destruct (IH (ingest_pair E key value u)) as (IHt & IHg & IHp).
      + destruct (ingest_pair_origin E key value u k v) as (Ot & Og & Op).
        repeat split; intros H.
        * destruct (IHt H) as [H' | (r & Hin & Hr)]; [|eauto 10].
          destruct (Ot H') as [? | [[= -> ->] ?]]; eauto 10.
        * destruct (IHg H) as [H' | (r & Hin & Hr)]; [|eauto 10].
          destruct (Og H') as [? | [[= -> ->] ?]]; eauto 10.
        * destruct (IHp H) as [H' | (r & Hin & Hr)]; [|eauto 10].
          destruct (Op H') as [? | [[= -> ->] ?]]; eauto 10.
      + repeat split; intros H.
        * destruct (IHt H) as [? | (r & Hin & Hr)]; eauto 10.
        * destruct (IHg H) as [? | (r & Hin & Hr)]; eauto 10.
        * destruct (IHp H) as [? | (r & Hin & Hr)]; eauto 10. }
  destruct (Hgen s0) as (Ht & Hg & Hp).
  repeat split; intros H.
  - destruct (Ht H) as [H' | ?]; [|assumption].
    simpl in H'. rewrite lookup_empty in H'. discriminate.
  - destruct (Hg H) as [H' | ?]; [|assumption].
    simpl in H'. rewrite lookup_empty in H'. discriminate.
  - exact (Hp H).
Qed.

Lemma settings_come_from_the_file_witness :
  let E := Sample.env Sample.with_file Sample.properties_file in
  exists s1 lines,
    file_derived E ASN1_Codec_new = Some s1 /\
    ifstream E (optString E "c") = Some lines /\
    exists raw, In raw lines /\ setting_of E raw = Some ("group.id", "0") /\
                conf_ok (Conf_set E CONF_GLOBAL "group.id" "0") = true.
Proof.
  intros E.
  pose (s1 := fold_left (ingest_line E) Sample.properties_file
                (set_tconf Conf_create (set_conf Conf_create ASN1_Codec_new))).
  assert (Hfd : file_derived E ASN1_Codec_new = Some s1) by reflexivity.
  destruct (settings_come_from_the_file E ASN1_Codec_new s1 Hfd)
    as (lines & Hfile & Hall).
  exists s1, lines. split; [exact Hfd|]. split; [exact Hfile|].
  apply (Hall "group.id" "0"). vm_compute. reflexivity.
Defined.

(** X15.  Without option [-c], or with a file that cannot be opened,
    [configure] returns false having set the level of the information
    logger as [-v] asks, which it does first, and created the two empty
    Kafka configurations, nothing else: of the command line only [-v] and
    [-c] are looked at, so another command line that agrees on these two
    gives the same. *)
Theorem configure_needs_the_file
  (E : Env) (l : Loggers) (s : ASN1_Codec) :
  optIsSet E "c" = false \/ ifstream E (optString E "c") = None ->
  configure_with_loggers E l s
  = (set_level E l,
     Return false (set_tconf Conf_create (set_conf Conf_create s))) /\
  forall E',
    optIsSet E' "c" = optIsSet E "c" ->
    ifstream E' (optString E' "c") = ifstream E (optString E "c") ->
    optIsSet E' "v" = optIsSet E "v" ->
    optString E' "v" = optString E "v" ->
    configure_with_loggers E' l s = configure_with_loggers E l s.
Proof.
  assert (Hfalse : forall F,
            optIsSet F "c" = false \/ ifstream F (optString F "c") = None ->
            configure F s
            = Return false (set_tconf Conf_create (set_conf Conf_create s))).
  { intros F Hno. unfold configure. rewrite !sequence_cons.
    change (create_confs s)
      with (Next (set_tconf Conf_create (set_conf Conf_create s))).
    cbv iota. unfold ingest_file.
    destruct Hno as [H | H]; rewrite H; [reflexivity|].
    destruct (optIsSet F "c"); reflexivity. }
  intros Hno. unfold configure_with_loggers.
  split; [rewrite (Hfalse E Hno); reflexivity|].
  intros E' Hc Hfile Hv Hlevel.
  rewrite (Hfalse E Hno), (Hfalse E').
  - unfold set_level, choose_level. rewrite Hv, Hlevel. reflexivity.
  - destruct Hno as [H | H]; [left | right]; congruence.
Qed.

Lemma configure_needs_the_file_witness :
  let E := Sample.env [("c"%char, "missing.properties"); ("o"%char, "end");
                       ("v"%char, "warning")]
             Sample.properties_file in
  let l := {| ilogger := {| filename := "logs/log.info";
                            level := level_trace |};
              elogger := {| filename := "logs/log.error";
                            level := level_trace |} |} in
  configure_with_loggers E l ASN1_Codec_new
  = ({| ilogger := {| filename := "logs/log.info"; level := level_warn |};
        elogger := {| filename := "logs/log.error";
                      level := level_trace |} |},
     Return false
       (set_tconf Conf_create (set_conf Conf_create ASN1_Codec_new))).
Proof.
  intros E l.
  refine (proj1 (configure_needs_the_file E l ASN1_Codec_new _)).
  right. reflexivity.
Defined.

Lemma configure_keeps_relay_state (E : Env) (s : ASN1_Codec) :
  relay_state (ending_state (configure E s)) = relay_state s.
Proof.
  assert (Hpair : forall key value u,
            relay_state (ingest_pair E key value u) = relay_state u).
  { intros key value u. unfold ingest_pair. repeat case_match; reflexivity. }
  assert (Hlines : forall lines u,
            relay_state (fold_left (ingest_line E) lines u) = relay_state u).
  { induction lines as [|raw lines IH]; intros u; simpl; [reflexivity|].
    rewrite IH. unfold ingest_line. repeat case_match; auto. }
  apply sequence_preserves. unfold after_file.
  repeat (apply List.Forall_cons; [intros u|]); [..|apply List.Forall_nil].
  - reflexivity.
  - unfold ingest_file. repeat case_match; simplify_eq/=; auto.
  - unfold override_broker. repeat case_match; simplify_eq/=; auto.
  - unfold resolve_partition. repeat case_match; simplify_eq/=; auto.
  - unfold override_group. repeat case_match; simplify_eq/=; auto.
  - unfold override_offset. repeat case_match; simplify_eq/=; auto.
  - reflexivity.
  - unfold override_debug. repeat case_match; simplify_eq/=; auto.
  - reflexivity.
  - unfold resolve_consumer_topic. repeat case_match; simplify_eq/=; auto.
  - unfold resolve_producer_topic. repeat case_match; simplify_eq/=; auto.
  - unfold resolve_timeout. repeat case_match; simplify_eq/=; auto.
Qed.

(** X16.  However [configure] ends (true, false or an exception), it has
    not touched what the relay loop works on: the six counters, [eof_cnt],
    [partition_cnt], [first_block] and [data_available] are as before; nor
    has it written the members [brokers], [mode] and [debug], which keep
    the constructor's values whatever [-b] and [-d] say. *)
Theorem configure_leaves_the_relay_state (E : Env) (s : ASN1_Codec) :
  relay_state (ending_state (configure E s)) = relay_state s.
Proof. apply configure_keeps_relay_state. Qed.

(** ** Numbers *)

Lemma stoi_range (text : string) (v : Z) :
  stoi text = Returned v -> INT_MIN <= v <= INT_MAX.
Proof.
  unfold stoi. intros H. repeat case_match; simplify_eq.
  apply andb_prop in H1 as [H1 H2]. lia.
Qed.

Lemma stoi_value (text : string) (v : Z) :
  stoi text = Returned v -> scan_decimal text = Some v.
Proof.
  unfold stoi. intros H. repeat case_match; simplify_eq. reflexivity.
Qed.

(** X17.  A successful [configure] never leaves a wrapped number.  An
    offset of [-o] that is a number is that number when it is within the
    range of [long long] and the nearest bound of the range when it is
    beyond it.  The partition the file gives is the number written there,
    which fits an [int] (one that does not fit keeps [configure] from
    succeeding).  A timeout of the file that fits an [int] is the number
    written there, and one that does not fit leaves the timeout as it
    was. *)
Theorem configured_numbers_are_not_wrapped (E : Env) (s s' : ASN1_Codec) :
  configure E s = Return true s' ->
  exists s1,
    file_derived E s = Some s1 /\
    (optIsSet E "o" = true ->
     ~ In (optString E "o") ["end"; "beginning"; "stored"] ->
     forall v, scan_decimal (optString E "o") = Some v ->
       (LLONG_MAX < v -> offset s' = LLONG_MAX) /\
       (v < LLONG_MIN -> offset s' = LLONG_MIN) /\
       (LLONG_MIN <= v <= LLONG_MAX -> offset s' = v)) /\
    (optIsSet E "p" = false ->
     forall text, pconf s1 !! "asn1.j2735.kafka.partition" = Some text ->
       scan_decimal text = Some (partition s') /\
       INT_MIN <= partition s' <= INT_MAX) /\
    (forall text v,
       pconf s1 !! "asn1.j2735.consumer.timeout.ms" = Some text ->
       scan_decimal text = Some v ->
       (INT_MIN <= v <= INT_MAX -> consumer_timeout s' = v) /\
       (v < INT_MIN \/ INT_MAX < v ->
        consumer_timeout s' = consumer_timeout s)).
Proof.
  intros Hok. pose proof (configure_cases E s) as Hcases. rewrite Hok in Hcases.
  destruct Hcases as (s1 & Hfd & Hover & Hpart & _).
  apply configure_settles in Hok
    as (s1' & name & Hfd' & _ & _ & _ & _ & _ & _ & Hto).
  assert (s1' = s1) by congruence. subst s1'.
  destruct (file_derived_keeps E s s1 Hfd) as [Hkeep _].
  assert (Hmin : LLONG_MIN = -9223372036854775808) by reflexivity.
  assert (Hmax : LLONG_MAX = 9223372036854775807) by reflexivity.
  exists s1. split; [exact Hfd|]. split; [|split].
  - intros Ho Hword v Hv.
    unfold overridable in Hover. injection Hover as _ _ Hoff _ _.
    rewrite Ho in Hoff. rewrite Hoff. unfold cli_offset.
    repeat match goal with
    | |- context [String.eqb ?a ?b] =>
        destruct (String.eqb_spec a b) as [Heq | _];
        [exfalso; apply Hword; rewrite Heq; simpl; tauto|]
    end.
    unfold strtoll. rewrite Hv. lia.
  - intros Hp text Htext. rewrite Hp in Hpart.
    unfold file_partition in Hpart. rewrite Htext in Hpart.
    split; [exact (stoi_value _ _ Hpart) | exact (stoi_range _ _ Hpart)].
  - intros text v Htext Hv. rewrite Hto. unfold file_timeout.
    rewrite Htext. unfold stoi. rewrite Hv.
    assert (Hkept : consumer_timeout s1 = consumer_timeout s) by congruence.
    destruct ((INT_MIN <=? v) && (v <=? INT_MAX)) eqn:Hfit.
    + apply andb_prop in Hfit as [H1 H2].
      split; [reflexivity | lia].
    + apply andb_false_iff in Hfit.
      split; [lia | intros _; exact Hkept].
Qed.

Lemma configured_numbers_are_not_wrapped_witness :
  let E := Sample.env (Sample.with_file
                       ++ [("o"%char, "99999999999999999999999")])
             ("asn1.j2735.kafka.partition = 3" :: Sample.properties_file) in
  let s' := ending_state (configure E ASN1_Codec_new) in
  exists s1,
    file_derived E ASN1_Codec_new = Some s1 /\
    (optIsSet E "o" = true ->
     ~ In (optString E "o") ["end"; "beginning"; "stored"] ->
     forall v, scan_decimal (optString E "o") = Some v ->
       (LLONG_MAX < v -> offset s' = LLONG_MAX) /\
       (v < LLONG_MIN -> offset s' = LLONG_MIN) /\
       (LLONG_MIN <= v <= LLONG_MAX -> offset s' = v)) /\
    (optIsSet E "p" = false ->
     forall text, pconf s1 !! "asn1.j2735.kafka.partition" = Some text ->
       scan_decimal text = Some (partition s') /\
       INT_MIN <= partition s' <= INT_MAX) /\
    (forall text v,
       pconf s1 !! "asn1.j2735.consumer.timeout.ms" = Some text ->
       scan_decimal text = Some v ->
       (INT_MIN <= v <= INT_MAX -> consumer_timeout s' = v) /\
       (v < INT_MIN \/ INT_MAX < v ->
        consumer_timeout s' = consumer_timeout ASN1_Codec_new)).
Proof.
  intros E s'.
  apply (configured_numbers_are_not_wrapped E ASN1_Codec_new s').
  vm_compute. reflexivity.
Defined.

Lemma skip_space_app (s r : string) :
  skip_space s <> EmptyString ->
  skip_space (String.append s r) = String.append (skip_space s) r.
Proof.
  induction s as [|c s IH]; simpl; [contradiction|].
  destruct (isspace c); [exact IH | reflexivity].
Qed.

Lemma digits_app (t r : string) (c : ascii) (seen : bool) (acc : Z) :
  digit_of c = None ->
  digits (String.append t (String c r)) seen acc = digits t seen acc.
Proof.
  intros Hc. revert seen acc.
  induction t as [|d t IH]; intros seen acc; simpl.
  - rewrite Hc. reflexivity.
  - destruct (digit_of d); [apply IH | reflexivity].
Qed.

Lemma scan_decimal_app (text r : string) (c : ascii) (v : Z) :
  scan_decimal text = Some v -> digit_of c = None ->
  scan_decimal (String.append text (String c r)) = Some v.
Proof.
  intros Hv Hc. unfold scan_decimal in *.
  destruct (skip_space text) as [|a t] eqn:Hskip; [discriminate|].
  rewrite skip_space_app by (rewrite Hskip; discriminate).
  rewrite Hskip. rewrite <- Hv. simpl String.append.
  destruct a as [[] [] [] [] [] [] [] []];
    simpl; rewrite ?digits_app by exact Hc; reflexivity.
Qed.

(** X18.  The conversions read a number and stop: whatever follows a text
    that holds a number, beginning with a character that is no digit, does
    not change what [std::stoi] and [strtoll] make of it (a timeout
    written [250ms] is 250). *)
Theorem text_after_the_number_is_ignored
  (text tail : string) (c : ascii) (v : Z) :
  scan_decimal text = Some v -> digit_of c = None ->
  stoi (String.append text (String c tail)) = stoi text /\
  strtoll (String.append text (String c tail)) = strtoll text.
Proof.
  intros Hv Hc. unfold stoi, strtoll.
  rewrite (scan_decimal_app text tail c v Hv Hc), Hv. auto.
Qed.

Lemma text_after_the_number_is_ignored_witness :
  stoi (String.append "250" (String "m" "s")) = stoi "250" /\
  strtoll (String.append "250" (String "m" "s")) = strtoll "250".
Proof.
  apply (text_after_the_number_is_ignored "250" "s" "m" 250); reflexivity.
Defined.

(** ** Sessions *)






(** ** The whole run *)

Lemma session_events_are_quiet (evs : list Event) :
  forallb is_session evs = true ->
  decode_calls evs = [] /\ encodes evs = [] /\ produced evs = [] /\
  sent evs = [].
Proof.
  induction evs as [|e evs IH]; simpl; [auto|].
  intros H. apply andb_prop in H as [He H]. specialize (IH H).
  destruct e; try discriminate; simpl; exact IH.
Qed.

(** A stretch of session events with the summary untouched keeps the
    ledger. *)
Lemma session_ledger (s s' : ASN1_Codec) (evs : list Event) :
  trace s' = trace s ++ evs -> forallb is_session evs = true ->
  summary s' = summary s -> partition s' = partition s ->
  ledger s s' evs.
Proof.
  intros Ht Hs Hsum Hp.
  destruct (session_events_are_quiet evs Hs) as (Hd & He & Hq & Hn).
  unfold summary in Hsum. injection Hsum as Hrc Hrb Hsc Hsb.
  unfold ledger, decoded_ok, encoded_ok. rewrite Hd, He, Hq, Hn. simpl.
  repeat split; auto; lia.
Qed.

Lemma await_topic_session (topic : string) (size : Z) (replies : list Probe)
  (tcount : Z) (s : ASN1_Codec) :
  let s' := run_state (await_topic topic size replies tcount s) in
  exists evs,
    trace s' = trace s ++ evs /\ forallb is_session evs = true /\
    summary s' = summary s /\ partition s' = partition s /\
    published_topic_name s' = published_topic_name s.
Proof.
  revert s. induction replies as [|reply replies IH]; intros s; simpl.
  - exists []. rewrite app_nil_r. repeat case_match; simpl; auto.
  - destruct (data_available s && (tcount <? size));
      [|exists []; rewrite app_nil_r; simpl; auto].
    destruct (topic_available topic reply).
    + exists [metadata_call topic true].
      destruct (md_interrupted reply); simpl; auto.
    + destruct (IH (deliver (md_interrupted reply)
                      (log_event (metadata_call topic false) s)))
        as (evs & Ht & Hs & Hsum & Hp & Hn).
      exists (metadata_call topic false :: evs).
      rewrite Ht, Hsum, Hp, Hn.
      destruct (md_interrupted reply); simpl; rewrite <- app_assoc; auto.
Qed.

Lemma await_topics_session (topics : list string) (size : Z)
  (replies : list Probe) (tcount : Z) (s : ASN1_Codec) :
  let s' := run_state (await_topics topics size replies tcount s) in
  exists evs,
    trace s' = trace s ++ evs /\ forallb is_session evs = true /\
    summary s' = summary s /\ partition s' = partition s /\
    published_topic_name s' = published_topic_name s.
Proof.
  revert replies tcount s.
  induction topics as [|topic topics IH]; intros replies tcount s.
  - exists []. simpl. rewrite app_nil_r. auto.
  - cbv zeta. simpl await_topics.
    pose proof (await_topic_session topic size replies tcount s) as H1.
    cbv zeta in H1.
    destruct (await_topic topic size replies tcount s)
      as [[replies1 tc1] s1 | s1]; simpl in H1; [|exact H1].
    destruct H1 as (evs1 & Ht1 & Hs1 & Hsum1 & Hp1 & Hn1).
    destruct (IH replies1 tc1 s1) as (evs2 & Ht2 & Hs2 & Hsum2 & Hp2 & Hn2).
    exists (evs1 ++ evs2).
    rewrite Ht2, Ht1, Hsum2, Hsum1, Hp2, Hp1, Hn2, Hn1, <- app_assoc,
      forallb_app, Hs1, Hs2.
    auto.
Qed.

Lemma launch_consumer_session (B : Broker) (s : ASN1_Codec) :
  let s' := run_state (launch_consumer B s) in
  exists evs,
    trace s' = trace s ++ evs /\ forallb is_session evs = true /\
    summary s' = summary s /\ partition s' = partition s /\
    published_topic_name s' = published_topic_name s /\
    (forall s2, launch_consumer B s = Done true s2 ->
       exists topics, In (subscribe_call topics ERR_NO_ERROR) evs).
Proof.
  unfold launch_consumer.
  destruct (KafkaConsumer_create B).
  - set (s0 := set_consumer_ptr true (log_event (consumer_create true) s)).
    pose proof (await_topics_session (consumed_topics s0)
                  (Z.of_nat (length (consumed_topics s0))) (metadata B) 0 s0)
      as H.
    cbv zeta in H.
    destruct (await_topics (consumed_topics s0)
                (Z.of_nat (length (consumed_topics s0))) (metadata B) 0 s0)
      as [[replies tc] s1 | s1]; simpl in H;
      destruct H as (evs & Ht & Hs & Hsum & Hp & Hn).
    + destruct (tc =? Z.of_nat (length (consumed_topics s0))).
      * exists (consumer_create true :: evs
                ++ [subscribe_call (consumed_topics s1) (subscribe B)]).
        destruct (subscribe B) eqn:Hstatus; simpl;
          rewrite Ht, <- ?app_assoc, forallb_app, Hs;
          (repeat split; auto; try discriminate).
        exists (consumed_topics s1).
        right. apply in_or_app. right. left. reflexivity.
      * exists (consumer_create true :: evs). simpl.
        rewrite Ht, <- app_assoc. repeat split; auto. discriminate.
    + exists (consumer_create true :: evs). simpl.
      rewrite Ht, <- app_assoc. repeat split; auto. discriminate.
  - exists [consumer_create false]. simpl. repeat split; auto. discriminate.
Qed.

Lemma launch_producer_session (B : Broker) (s : ASN1_Codec) :
  let s' := snd (launch_producer B s) in
  exists evs,
    trace s' = trace s ++ evs /\ forallb is_session evs = true /\
    summary s' = summary s /\ partition s' = partition s /\
    (fst (launch_producer B s) = true ->
     In (topic_create (published_topic_name s) true) evs).
Proof.
  unfold launch_producer.
  destruct (Producer_create B); simpl.
  - destruct (Topic_create B); simpl.
    + exists [producer_create true;
              topic_create (published_topic_name s) true].
      rewrite <- app_assoc. simpl. repeat split; auto.
    + exists [producer_create true;
              topic_create (published_topic_name s) false].
      rewrite <- app_assoc. simpl. repeat split; auto. discriminate.
  - exists [producer_create false]. repeat split; auto. discriminate.
Qed.

Lemma relay_events_are_no_session (polls : list Polled) (s : ASN1_Codec) :
  exists evs,
    trace (run_state (relay_loop polls s)) = trace s ++ evs /\
    forallb (fun e => negb (is_session e)) evs = true.
Proof.
  revert s. induction polls as [|msg polls IH]; intros s; simpl.
  - exists []. rewrite app_nil_r. destruct (data_available s); auto.
  - destruct (data_available s); [|exists []; rewrite app_nil_r; auto].
    assert (Hbody : exists evs,
              trace (snd (loop_body msg s)) = trace s ++ evs /\
              forallb (fun e => negb (is_session e)) evs = true).
    { unfold loop_body, msg_consume.
      repeat case_match; simplify_eq/=;
        eexists;
        (split; [first [symmetry; apply app_nil_r
                       | rewrite <- ?app_assoc; simpl; reflexivity]|]);
        reflexivity. }
    destruct Hbody as (evs & Ht & Hq).
    destruct (IH (deliver (interrupted msg) (snd (loop_body msg s))))
      as (evs' & Ht' & Hq').
    exists (evs ++ evs'). rewrite Ht', forallb_app, Hq, Hq'. split; [|auto].
    destruct (interrupted msg); simpl; rewrite Ht, app_assoc; reflexivity.
Qed.

(** The stations of [operator()]: the state after [configure], after each
    launch, and after the loop, with what each stretch adds to the trace. *)
Lemma operator_stations (E : Env) (B : Broker) (s : ASN1_Codec) :
  exists s1 sess relay,
    trace s1 = trace s /\ summary s1 = summary s /\
    trace (run_state (operator_call E B s)) = trace s ++ sess ++ relay /\
    forallb is_session sess = true /\
    forallb (fun e => negb (is_session e)) relay = true /\
    ledger s1 (run_state (operator_call E B s)) (sess ++ relay) /\
    (relay <> [] ->
     (exists topics, In (subscribe_call topics ERR_NO_ERROR) sess) /\
     In (topic_create (published_topic_name s1) true) sess).
Proof.
  destruct (configure_opens_no_session E s) as (Htr & _).
  pose proof (configure_keeps_relay_state E s) as Hrel.
  assert (Hsum : summary (ending_state (configure E s)) = summary s).
  { unfold relay_state in Hrel. unfold summary. congruence. }
  unfold operator_call.
  destruct (configure E s) as [[|] s1 | e s1]; simpl in Htr, Hsum.
  2,3: exists s1, [], []; simpl; rewrite app_nil_r;
       (split; [exact Htr|]); (split; [exact Hsum|]);
       (split; [exact Htr|]); (split; [reflexivity|]);
       (split; [reflexivity|]); (split; [apply ledger_refl|congruence]).
  exists s1.
  destruct (launch_consumer_session B s1)
    as (evs1 & Ht1 & Hs1 & Hsum1 & Hp1 & Hn1 & Hsub).
  destruct (launch_consumer B s1) as [[|] s2 | s2]; simpl in Ht1, Hsum1, Hp1, Hn1.
  2,3: exists evs1, []; simpl; rewrite app_nil_r, Ht1, Htr;
       (split; [reflexivity|]); (split; [exact Hsum|]);
       (split; [reflexivity|]); (split; [exact Hs1|]);
       (split; [reflexivity|]);
       (split; [apply session_ledger; auto; rewrite Ht1; reflexivity
               |congruence]).
  destruct (launch_producer_session B s2) as (evs2 & Ht2 & Hs2 & Hsum2 & Hp2 & Htop).
  destruct (launch_producer B s2) as [[|] s3]; simpl in Ht2, Hsum2, Hp2, Htop.
  2: { exists (evs1 ++ evs2), []. simpl.
       rewrite app_nil_r, Ht2, Ht1, Htr, forallb_app, Hs1, Hs2, <- app_assoc.
       (split; [reflexivity|]); (split; [exact Hsum|]);
       (split; [reflexivity|]); (split; [reflexivity|]);
       (split; [reflexivity|]); (split; [|congruence]).
       apply session_ledger; try congruence.
       - rewrite Ht2, Ht1, app_assoc. reflexivity.
       - rewrite forallb_app, Hs1, Hs2. reflexivity. }
  destruct (relay_loop_ledger (consume B) s3) as (evs3 & Hledger).
  destruct (relay_events_are_no_session (consume B) s3) as (evs3' & Ht3 & Hq3).
  assert (evs3' = evs3).
  { destruct Hledger as (Ht3' & _). rewrite Ht3 in Ht3'.
    apply app_inv_head in Ht3'. exact Ht3'. }
  subst evs3'.
  assert (Hstate : run_state
            match relay_loop (consume B) s3 with
            | Done _ s4 => Done EXIT_SUCCESS s4
            | Waiting s4 => Waiting s4
            end = run_state (relay_loop (consume B) s3))
    by (destruct (relay_loop (consume B) s3); reflexivity).
  rewrite Hstate.
  exists (evs1 ++ evs2), evs3.
  split; [exact Htr|]. split; [exact Hsum|]. split.
  { rewrite Ht3, Ht2, Ht1, Htr, <- !app_assoc. reflexivity. }
  split; [rewrite forallb_app, Hs1, Hs2; reflexivity|].
  split; [exact Hq3|]. split.
  - eapply ledger_trans; [|exact Hledger].
    apply session_ledger; try congruence.
    + rewrite Ht2, Ht1, app_assoc. reflexivity.
    + rewrite forallb_app, Hs1, Hs2. reflexivity.
  - intros _. split.
    + destruct (Hsub s2 eq_refl) as (topics & Hin).
      exists topics. apply in_or_app. left. exact Hin.
    + apply in_or_app. right. rewrite <- Hn1. apply Htop. reflexivity.
Qed.

(** X21.  The closing summary of [operator()] is the ledger of the whole
    run, however it ends: from its start to its end [msg_recv_count] has
    grown by the number of decoder invocations, [msg_send_count] by the
    number of buffers [produce] took without error and [msg_send_bytes] by
    the sum of their sizes; [configure] and the launches add nothing to
    them. *)
Theorem summary_counts_the_whole_run (E : Env) (B : Broker) (s : ASN1_Codec) :
  let s' := run_state (operator_call E B s) in
  exists evs,
    trace s' = trace s ++ evs /\
    msg_recv_count s' = msg_recv_count s + Z.of_nat (length (decode_calls evs)) /\
    msg_send_count s' = msg_send_count s + Z.of_nat (length (sent evs)) /\
    msg_send_bytes s' = msg_send_bytes s + total (sent evs).
Proof.
  destruct (operator_stations E B s)
    as (s1 & sess & relay & Htr & Hsum & Ht & _ & _ & Hledger & _).
  destruct Hledger as (_ & _ & Hr & Hc & Hb & _).
  unfold summary in Hsum. injection Hsum as Hrc _ Hsc Hsb.
  exists (sess ++ relay). split; [exact Ht|]. rewrite Hr, Hc, Hb.
  repeat split; congruence.
Qed.

(** X22.  In every run of [operator()] the sessions come first: the trace
    is a stretch of session calls (consumer, metadata, subscription,
    producer, topic) followed by a stretch of relay calls (decoder,
    encoder, [produce]), and the second stretch is empty unless the
    subscription was taken without error and the topic to publish to was
    created. *)
Theorem sessions_come_before_the_relay (E : Env) (B : Broker) (s : ASN1_Codec) :
  exists sess relay,
    trace (run_state (operator_call E B s)) = trace s ++ sess ++ relay /\
    forallb is_session sess = true /\
    forallb (fun e => negb (is_session e)) relay = true /\
    (relay <> [] ->
     (exists topics, In (subscribe_call topics ERR_NO_ERROR) sess) /\
     (exists name, In (topic_create name true) sess)).
Proof.
  destruct (operator_stations E B s)
    as (s1 & sess & relay & _ & _ & Ht & Hs & Hq & _ & Hfirst).
  exists sess, relay. repeat split; auto.
  - apply Hfirst, H.
  - exists (published_topic_name s1). apply Hfirst, H.
Qed.

Lemma sessions_come_before_the_relay_witness :
  let E := Sample.env Sample.with_file Sample.properties_file in
  let B := Sample.broker [Sample.reply ERR_NO_ERROR ["raw"] false]
             [Sample.good 10] in
  exists sess relay,
    trace (run_state (operator_call E B ASN1_Codec_new))
    = trace ASN1_Codec_new ++ sess ++ relay /\
    forallb is_session sess = true /\
    forallb (fun e => negb (is_session e)) relay = true /\
    (relay <> [] ->
     (exists topics, In (subscribe_call topics ERR_NO_ERROR) sess) /\
     (exists name, In (topic_create name true) sess)).
Proof.
  intros E B.
  exact (sessions_come_before_the_relay E B ASN1_Codec_new).
Defined.

(** ** Files *)

Lemma land_pow2 (a : Z) (n : Z) :
  0 <= n ->
  (Z.land a (2 ^ n) =? 0) = negb (Z.testbit a n).
Proof.
  intros Hn.
  destruct (Z.testbit a n) eqn:Hbit; simpl.
  - apply Z.eqb_neq. intros H0.
    assert (Hb : Z.testbit (Z.land a (2 ^ n)) n = true).
    { rewrite Z.land_spec, Hbit, Z.pow2_bits_true by exact Hn. reflexivity. }
    rewrite H0, Z.bits_0 in Hb. discriminate.
  - apply Z.eqb_eq. apply Z.bits_inj'. intros m Hm.
    rewrite Z.land_spec, Z.bits_0.
    destruct (Z.eq_dec m n) as [-> | Hne].
    + rewrite Hbit. reflexivity.
    + rewrite Z.pow2_bits_false by lia. apply andb_false_r.
Qed.

(** X23.  [fileExists] and [dirExists] test one bit of [st_mode] each, not
    the file type: [fileExists] answers true exactly when bit 15 is set and
    [dirExists] exactly when bit 14 is, so a socket counts as an existing
    file and a block device as an existing directory, besides the regular
    file and the directory; and both answer false when [stat] fails. *)
Theorem exists_tests_one_bit (perm : Z) :
  0 <= perm < 4096 ->
  (forall st_mode,
     fileExists (Some st_mode) = Z.testbit st_mode 15 /\
     dirExists (Some st_mode) = Z.testbit st_mode 14) /\
  (fileExists (Some (S_IFREG + perm)) = true /\
   dirExists (Some (S_IFREG + perm)) = false) /\
  (dirExists (Some (S_IFDIR + perm)) = true /\
   fileExists (Some (S_IFDIR + perm)) = false) /\
  fileExists (Some (S_IFSOCK + perm)) = true /\
  dirExists (Some (S_IFBLK + perm)) = true /\
  fileExists None = false /\ dirExists None = false.
Proof.
  intros Hperm.
  assert (Hbits : forall st_mode,
     fileExists (Some st_mode) = Z.testbit st_mode 15 /\
     dirExists (Some st_mode) = Z.testbit st_mode 14).
  { intros st_mode. unfold fileExists, dirExists.
    change S_IFREG with (2 ^ 15). change S_IFDIR with (2 ^ 14).
    rewrite !land_pow2 by lia. rewrite !negb_involutive. auto. }
  assert (Hbit : forall base n, 0 <= n ->
            Z.testbit (base + perm) n = Z.odd ((base + perm) / 2 ^ n)).
  { intros base n Hn. rewrite Z.testbit_odd, Z.shiftr_div_pow2 by exact Hn.
    reflexivity. }
  split; [exact Hbits|].
  unfold S_IFREG, S_IFDIR, S_IFSOCK, S_IFBLK.
  repeat split; try reflexivity;
    first [rewrite (proj1 (Hbits _)) | rewrite (proj2 (Hbits _))];
    rewrite Hbit by lia.
  all: change (2 ^ 15) with 32768; change (2 ^ 14) with 16384.
  - replace ((32768 + perm) / 32768) with 1; [reflexivity|].
    apply Z.div_unique with (r := perm); lia.
  - replace ((32768 + perm) / 16384) with 2; [reflexivity|].
    apply Z.div_unique with (r := perm); lia.
  - replace ((16384 + perm) / 16384) with 1; [reflexivity|].
    apply Z.div_unique with (r := perm); lia.
  - replace ((16384 + perm) / 32768) with 0; [reflexivity|].
    apply Z.div_unique with (r := 16384 + perm); lia.
  - replace ((49152 + perm) / 32768) with 1; [reflexivity|].
    apply Z.div_unique with (r := 16384 + perm); lia.
  - replace ((24576 + perm) / 16384) with 1; [reflexivity|].
    apply Z.div_unique with (r := 8192 + perm); lia.
Qed.

Lemma exists_tests_one_bit_witness :
  fileExists (Some (S_IFSOCK + 493)) = true /\
  dirExists (Some (S_IFBLK + 493)) = true.
Proof.
  destruct (exists_tests_one_bit 493) as (_ & _ & _ & Hsock & Hblk & _).
  - lia.
  - split; assumption.
Defined.

(** ** The listing of the configuration *)


Lemma string_append_assoc (a b c : string) :
  String.append (String.append a b) c = String.append a (String.append b c).
Proof.
  induction a as [|x a IH]; [reflexivity|].
  change (String x (String.append (String.append a b) c)
          = String x (String.append a (String.append b c))).
  rewrite IH. reflexivity.
Qed.

Lemma string_append_nil (a : string) : String.append a EmptyString = a.
Proof.
  induction a as [|x a IH]; [reflexivity|].
  change (String x (String.append a EmptyString) = String x a).
  rewrite IH. reflexivity.
Qed.

Lemma print_dump_pairs (entries : list (string * string)) (tail : list string) :
  forall i : nat,
    (i mod 2 = 0)%nat ->
    print_dump i (flatten entries ++ tail)
    = String.append (print_pairs entries)
        (print_dump (i + 2 * length entries) tail).
Proof.
  induction entries as [|[name value] entries IH]; intros i Hi.
  - simpl. rewrite Nat.add_0_r. reflexivity.
  - assert (Hodd : (S i mod 2 = 1)%nat).
    { replace (S i) with (1 + i)%nat by lia.
      rewrite Nat.Div0.add_mod, Hi by lia. reflexivity. }
    assert (Heven : (S (S i) mod 2 = 0)%nat).
    { replace (S (S i)) with (2 + i)%nat by lia.
      rewrite Nat.Div0.add_mod, Hi by lia. reflexivity. }
    cbn [flatten app print_dump print_pairs length].
    rewrite Hi, Hodd. cbn [Nat.eqb].
    rewrite (IH (S (S i)) Heven).
    replace (S (S i) + 2 * length entries)%nat
      with (i + 2 * S (length entries))%nat by lia.
    rewrite !string_append_assoc. reflexivity.
Qed.

(** X24. In the listing of [print_configuration] a dump of names and values
    comes out as one [name = value] line per pair, the same lines the
    application map gives for these pairs; a dump with a name left over at
    the end closes with that name and [ = ], without a line end. *)
Theorem dump_is_listed_in_pairs
  (entries : list (string * string)) (name : string) :
  print_dump 0 (flatten entries) = print_pairs entries /\
  print_dump 0 (flatten entries ++ [name])
  = String.append (print_pairs entries) (String.append name " = ").
Proof.
  split.
  - rewrite <- (app_nil_r (flatten entries)).
    rewrite (print_dump_pairs entries [] 0%nat eq_refl). simpl.
    apply string_append_nil.
  - rewrite (print_dump_pairs entries [name] 0%nat eq_refl).
    cbn [print_dump].
    replace ((0 + 2 * length entries) mod 2)%nat with 0%nat.
    + cbn [Nat.eqb]. rewrite string_append_nil. reflexivity.
    + rewrite Nat.add_0_l, Nat.mul_comm. symmetry. apply Nat.Div0.mod_mul.
Qed.

(** ** The level of the information logger *)

(** X25. The choice of the log level in [configure] never sets the
    information logger to debug or to info: [-v debug] and [-v info] set it
    to trace, and a name that is none of the seven leaves the level as it
    was. *)
Theorem log_level_is_never_debug_or_info (E : Env) (current : level_enum) :
  let chosen := choose_level E current in
  (chosen <> current -> chosen <> level_debug /\ chosen <> level_info) /\
  (optIsSet E "v" = true ->
   optString E "v" = "debug" \/ optString E "v" = "info" ->
   chosen = level_trace) /\
  (~ In (optString E "v")
       ["trace"; "debug"; "info"; "warning"; "error"; "critical"; "off"] ->
   chosen = current).
Proof.
  cbv zeta. unfold choose_level.
  split; [|split].
  - repeat case_match; intros Hne; try (split; discriminate);
      exfalso; apply Hne; reflexivity.
  - intros Hset [Hv | Hv]; rewrite Hset, Hv; reflexivity.
  - intros Hnone.
    destruct (optIsSet E "v"); [|reflexivity].
    repeat match goal with
    | |- context [String.eqb ?a ?b] =>
        destruct (String.eqb_spec a b) as [Heq | _];
        [exfalso; apply Hnone; rewrite <- Heq; simpl; tauto|]
    end.
    reflexivity.
Qed.

Lemma log_level_is_never_debug_or_info_witness :
  let E := Sample.env [("v"%char, "debug")] [] in
  choose_level E level_err = level_trace.
Proof.
  cbv zeta.
  apply (log_level_is_never_debug_or_info _ level_err);
    [vm_compute; reflexivity | left; vm_compute; reflexivity].
Defined.

(** ** The loggers and their files *)

Lemma back_slash (path : string) :
  back (String.append path "/") = Some "/"%char.
Proof.
  induction path as [|c path IH]; [reflexivity|].
  change (String.append (String c path) "/")
    with (String c (String.append path "/")).
  destruct path as [|c' path]; [reflexivity|].
  exact IH.
Qed.

Lemma log_dir_ends_in_slash (H : Host) (path : string) :
  log_dir H = Some path -> back path = Some "/"%char.
Proof.
  unfold log_dir. destruct (hasArg H "D").
  - destruct (back (argument H "D")) as [c|] eqn:Hback; [|discriminate].
    destruct (Ascii.eqb_spec c "/") as [-> | _]; intros [= <-].
    + exact Hback.
    + apply back_slash.
  - intros [= <-]. reflexivity.
Qed.

Lemma unlink_exists (name other : string) (stat : Files) :
  fileExists (unlink other stat name) = true ->
  name <> other /\ fileExists (stat name) = true.
Proof.
  unfold unlink. destruct (String.eqb_spec name other) as [-> | Hne].
  - discriminate.
  - intros Hthere. split; assumption.
Qed.

Lemma unlink_gone (name other : string) (stat : Files) :
  fileExists (unlink other stat name) = false ->
  name = other \/ fileExists (stat name) = false.
Proof.
  unfold unlink. destruct (String.eqb_spec name other) as [-> | Hne].
  - left. reflexivity.
  - right. assumption.
Qed.

(** X26. Provided [basename] yields names without a slash,
    [make_loggers] touches only the log directory, whose name ends in a
    slash, and the two logs in it: it makes that directory when
    [dirExists] does not find it, and what it removes is the directory's
    name followed by the name of one of the two logs, found by
    [fileExists], only when asked to and no file twice.  When it returns
    true both logs lie in that directory, which was found or made, both
    loggers have the level [iloglevel], and with removal asked for each
    log that was found has been removed. *)
Theorem loggers_stay_in_the_log_directory
  (H : Host) (iloglevel : level_enum) (remove_files : bool) (stat : Files)
  (m : Made) (calls : list FileCall) :
  slashless (log_name H "i" "log.info") = true ->
  slashless (log_name H "e" "log.error") = true ->
  make_loggers H iloglevel remove_files stat = Some (m, calls) ->
  exists path,
    log_dir H = Some path /\
    back path = Some "/"%char /\
    Forall (in_log_dir path
              [log_name H "i" "log.info"; log_name H "e" "log.error"]
              remove_files stat) calls /\
    List.NoDup calls /\
    forall l, m = made l ->
      filename (ilogger l) = String.append path (log_name H "i" "log.info") /\
      filename (elogger l) = String.append path (log_name H "e" "log.error") /\
      level (ilogger l) = iloglevel /\
      level (elogger l) = iloglevel /\
      (dirExists (stat path) = true \/ In (mkdir_call path true) calls) /\
      (remove_files = true ->
       forall name,
         name = filename (ilogger l) \/ name = filename (elogger l) ->
         fileExists (stat name) = true ->
         In (remove_call name true) calls).
Proof.
  intros Hislash Heslash Hm. unfold make_loggers in Hm.
  destruct (log_dir H) as [path|] eqn:Hdir; [|discriminate].
  exists path. split; [reflexivity|].
  split; [exact (log_dir_ends_in_slash H path Hdir)|].
  set (bases := [log_name H "i" "log.info"; log_name H "e" "log.error"]).
  set (ilogname := String.append path (log_name H "i" "log.info")) in *.
  set (elogname := String.append path (log_name H "e" "log.error")) in *.
  assert (Hi : exists base, In base bases /\
                 ilogname = String.append path base /\ slashless base = true).
  { exists (log_name H "i" "log.info").
    split; [left; reflexivity | split; [reflexivity | exact Hislash]]. }
  assert (He : exists base, In base bases /\
                 elogname = String.append path base /\ slashless base = true).
  { exists (log_name H "e" "log.error").
    split; [right; left; reflexivity | split; [reflexivity | exact Heslash]]. }
  clearbody ilogname elogname bases.
  unfold remove_previous in Hm.
  destruct (dirExists (stat path)) eqn:Hd; simpl in Hm;
    repeat match type of Hm with
    | context [if ?c then _ else _] => destruct c eqn:?; simpl in Hm
    end;
    simplify_eq;
    repeat match goal with
    | Hx : _ && _ = true |- _ => apply andb_prop in Hx; destruct Hx
    | Hx : _ && _ = false |- _ => apply andb_false_iff in Hx; destruct Hx
    | Hx : fileExists (unlink _ _ _) = true |- _ =>
        apply unlink_exists in Hx; destruct Hx
    | Hx : fileExists (unlink _ _ _) = false |- _ =>
        apply unlink_gone in Hx; destruct Hx
    end;
    (split; [|split]).
  all: try (repeat (apply List.Forall_cons;
                    [simpl;
                     first [split; [reflexivity | assumption]
                           | split; [assumption |
                               split; [assumption |
                                 first [exact Hi | exact He]]]]|]);
            apply List.Forall_nil; fail).
  all: try (repeat (constructor; [simpl; intuition congruence|]);
            constructor; fail).
  all: try (intros l [= <-]; fail).
  all: intros l [= <-]; simpl;
    repeat (split; [reflexivity|]);
    (split; [first [left; reflexivity | right; simpl; tauto]|]);
    intros Hrm name [-> | ->] Hthere; subst; simpl; auto; congruence.
Qed.

Lemma loggers_stay_in_the_log_directory_witness :
  exists path,
    log_dir SampleHost.named = Some path /\
    back path = Some "/"%char /\
    Forall (in_log_dir path
              [log_name SampleHost.named "i" "log.info";
               log_name SampleHost.named "e" "log.error"]
              true SampleHost.named_files)
      [remove_call "out/info" true] /\
    List.NoDup [remove_call "out/info" true] /\
    forall l,
      made {| ilogger := {| filename := "out/info";
                            level := level_trace |};
              elogger := {| filename := "out/log.error";
                            level := level_trace |} |} = made l ->
      filename (ilogger l)
      = String.append path (log_name SampleHost.named "i" "log.info") /\
      filename (elogger l)
      = String.append path (log_name SampleHost.named "e" "log.error") /\
      level (ilogger l) = level_trace /\
      level (elogger l) = level_trace /\
      (dirExists (SampleHost.named_files path) = true \/
       In (mkdir_call path true) [remove_call "out/info" true]) /\
      (true = true ->
       forall name,
         name = filename (ilogger l) \/ name = filename (elogger l) ->
         fileExists (SampleHost.named_files name) = true ->
         In (remove_call name true) [remove_call "out/info" true]).
Proof.
  apply (loggers_stay_in_the_log_directory SampleHost.named level_trace true
           SampleHost.named_files).
  - vm_compute. reflexivity.
  - vm_compute. reflexivity.
  - vm_compute. reflexivity.
Defined.

(** ** The configuration check of the program *)

Lemma make_loggers_levels (H : Host) (iloglevel : level_enum)
  (remove_files : bool) (stat : Files) (l : Loggers)
  (calls : list FileCall) :
  make_loggers H iloglevel remove_files stat = Some (made l, calls) ->
  level (ilogger l) = iloglevel /\ level (elogger l) = iloglevel.
Proof.
  unfold make_loggers, remove_previous. intros Hm.
  repeat case_match; simplify_eq/=; split; reflexivity.
Qed.

Lemma choose_level_from_trace (E : Env) :
  choose_level E level_trace <> level_debug /\
  choose_level E level_trace <> level_info.
Proof.
  unfold choose_level. repeat case_match; split; discriminate.
Qed.

(** X27. With [-C] the program never goes on to the relay: it exits with 0
    or 1, or ends on the exception of a logger.  It shows the
    configuration exactly when it exits with 0 without having shown the
    help, and then [configure] returned true on the new object; it exits
    with 1 only when the command line was not parsed, the loggers were not
    made or [configure] did not return true.  No session is opened, no
    call to the broker is made, the error logger keeps the level trace and
    the information logger is at neither debug nor info. *)
Theorem config_check_never_relays
  (parsed : bool) (H : Host) (E : Env) (stat : Files) (p : Process) :
  optIsSet E "C" = true ->
  main parsed H E stat = Some p ->
  match p with
  | runs _ _ _ => False
  | aborts _ => True
  | exits status calls shown l s =>
      (status = EXIT_SUCCESS \/ status = EXIT_FAILURE) /\
      (shown = Some configuration <->
       status = EXIT_SUCCESS /\ shown <> Some help) /\
      (shown = Some configuration ->
       configure E ASN1_Codec_new = Return true s) /\
      (status = EXIT_FAILURE ->
       parsed = false \/ l = None \/
       forall s', configure E ASN1_Codec_new <> Return true s') /\
      trace s = [] /\
      consumer_ptr s = false /\
      producer_ptr s = false /\
      published_topic_ptr s = false /\
      forall made_loggers, l = Some made_loggers ->
        level (elogger made_loggers) = level_trace /\
        level (ilogger made_loggers) <> level_debug /\
        level (ilogger made_loggers) <> level_info
  end.
Proof.
  intros HC Hmain. unfold main in Hmain.
  pose proof (configure_opens_no_session E ASN1_Codec_new) as Hquiet.
  cbv zeta in Hquiet.
  pose proof (choose_level_from_trace E) as [Hdebug Hinfo].
  destruct parsed; simpl in Hmain.
  - destruct (optIsSet E "h").
    + injection Hmain as <-.
      split; [left; reflexivity|].
      split; [split; [discriminate | intros [_ Hno]; exfalso; apply Hno; reflexivity]|].
      split; [discriminate|]. split; [discriminate|].
      repeat (split; [reflexivity|]). discriminate.
    + destruct (make_loggers H level_trace (optIsSet E "R") stat)
        as [[[l| |] calls]|] eqn:Hmade; [| | |discriminate].
      * apply make_loggers_levels in Hmade as [Hil Hel].
        rewrite HC in Hmain.
        destruct (configure E ASN1_Codec_new) as [[|] s | e s] eqn:Hconf;
          injection Hmain as <-; simpl in Hquiet;
          destruct Hquiet as (Htrace & Hc & Hp & Ht).
        -- split; [left; reflexivity|].
           split; [split; [intros _; split; [reflexivity | discriminate] | reflexivity]|].
           split; [reflexivity|]. split; [discriminate|].
           split; [exact Htrace|]. split; [exact Hc|]. split; [exact Hp|].
           split; [exact Ht|].
           intros ? [= <-]. simpl. rewrite Hil. auto.
        -- split; [right; reflexivity|].
           split; [split; [discriminate | intros [Hs _]; discriminate Hs]|].
           split; [discriminate|].
           split; [intros _; right; right; intros s'; discriminate|].
           split; [exact Htrace|]. split; [exact Hc|]. split; [exact Hp|].
           split; [exact Ht|].
           intros ? [= <-]. simpl. rewrite Hil. auto.
        -- split; [right; reflexivity|].
           split; [split; [discriminate | intros [Hs _]; discriminate Hs]|].
           split; [discriminate|].
           split; [intros _; right; right; intros s'; discriminate|].
           split; [exact Htrace|]. split; [exact Hc|]. split; [exact Hp|].
           split; [exact Ht|].
           intros ? [= <-]. simpl. rewrite Hil. auto.
      * injection Hmain as <-.
        split; [right; reflexivity|].
        split; [split; [discriminate | intros [Hs _]; discriminate Hs]|].
        split; [discriminate|].
        split; [intros _; right; left; reflexivity|].
        repeat (split; [reflexivity|]). discriminate.
      * injection Hmain as <-. exact I.
  - injection Hmain as <-.
    split; [right; reflexivity|].
    split; [split; [discriminate | intros [Hs _]; discriminate Hs]|].
    split; [discriminate|].
    split; [intros _; left; reflexivity|].
    repeat (split; [reflexivity|]). discriminate.
Qed.

Lemma config_check_never_relays_witness :
  let E := SampleHost.check in
  let s := ending_state (configure E ASN1_Codec_new) in
  let l := Some {| ilogger := {| filename := "out/log.info";
                                 level := level_trace |};
                   elogger := {| filename := "out/log.error";
                                 level := level_trace |} |} in
  (EXIT_SUCCESS = EXIT_SUCCESS \/ EXIT_SUCCESS = EXIT_FAILURE) /\
  (Some configuration = Some configuration <->
   EXIT_SUCCESS = EXIT_SUCCESS /\ Some configuration <> Some help) /\
  (Some configuration = Some configuration ->
   configure E ASN1_Codec_new = Return true s) /\
  (EXIT_SUCCESS = EXIT_FAILURE ->
   true = false \/ l = None \/
   forall s', configure E ASN1_Codec_new <> Return true s') /\
  trace s = [] /\
  consumer_ptr s = false /\
  producer_ptr s = false /\
  published_topic_ptr s = false /\
  forall made_loggers, l = Some made_loggers ->
    level (elogger made_loggers) = level_trace /\
    level (ilogger made_loggers) <> level_debug /\
    level (ilogger made_loggers) <> level_info.
Proof.
  intros E s l.
  apply (config_check_never_relays true SampleHost.host E SampleHost.files
           (exits EXIT_SUCCESS [remove_call "out/log.info" true]
              (Some configuration) l s)).
  - vm_compute. reflexivity.
  - vm_compute. reflexivity.
Defined.

(** ** The test for a topic *)

(** X28. [topic_available] answers true exactly when the metadata came
    without error and lists a topic of the very name asked for; what the
    reply lists besides, and in which order, makes no difference. *)
Theorem topic_is_available_when_listed
  (topic : string) (reply other : Probe) :
  (topic_available topic reply = true <->
   md_err reply = ERR_NO_ERROR /\ In topic (md_topics reply)) /\
  (md_err other = md_err reply ->
   (In topic (md_topics other) <-> In topic (md_topics reply)) ->
   topic_available topic other = topic_available topic reply).
Proof.
  split; [exact (topic_available_iff topic reply)|].
  intros Herr Hsame.
  destruct (topic_available topic reply) eqn:Hreply.
  - apply topic_available_iff. apply topic_available_iff in Hreply.
    destruct Hreply as [He Hin]. split; [congruence | tauto].
  - destruct (topic_available topic other) eqn:Hother; [|reflexivity].
    apply topic_available_iff in Hother. destruct Hother as [He Hin].
    assert (Htrue : topic_available topic reply = true).
    { apply topic_available_iff. split; [congruence | tauto]. }
    congruence.
Qed.

Lemma topic_is_available_when_listed_witness :
  topic_available "raw"
    {| md_err := ERR_NO_ERROR; md_topics := ["raw"; "other"];
       md_interrupted := false |}
  = topic_available "raw"
      {| md_err := ERR_NO_ERROR; md_topics := ["x"; "raw"];
         md_interrupted := false |}.
Proof.
  apply (topic_is_available_when_listed "raw"
           {| md_err := ERR_NO_ERROR; md_topics := ["x"; "raw"];
              md_interrupted := false |}
           {| md_err := ERR_NO_ERROR; md_topics := ["raw"; "other"];
              md_interrupted := false |}).
  - reflexivity.
  - simpl. tauto.
Defined.
